(** * DataPulse: [train_model_v2] (topic_model_trainer.py)

    A shallow embedding of the one function of the module, one phase of the
    topic-model pipeline: document normalisation, bag-of-words corpus, model
    stage, metric tasks, the distributed batch executor, the serialisation
    cascades and the metadata record.

    The function is written in Python against gensim, dask and numpy.  Its
    control flow (try/except, early [return None], [raise], [sys.exit]) is
    embedded in a small monad over the log; every call that leaves the module
    is a field of the records [Lib] (pure built-ins) and [World] (the
    collaborators of one run), each returning either a value or an
    exception. *)

From Stdlib Require Import List String Ascii ZArith QArith Bool Arith Lia Permutation.
From Stdlib.Strings Require Import Byte.
Import ListNotations.
Local Open Scope string_scope.
Local Open Scope list_scope.

Set Implicit Arguments.

(** ** Python values of the raw document collection *)

#[warnings="-register-all"]
Inductive pyval : Type :=
| PNone
| PBool (b : bool)
| PInt (z : Z)
| PStr (s : string)
| PList (l : list pyval)
| PTuple (l : list pyval).

(** [bool(v)]: the truth value Python gives to [v] in [if not doc]. *)
Definition truthy (v : pyval) : bool :=
  match v with
  | PNone => false
  | PBool b => b
  | PInt z => negb (Z.eqb z 0)
  | PStr s => negb (String.eqb s "")
  | PList l => match l with [] => false | _ => true end
  | PTuple l => match l with [] => false | _ => true end
  end.

Definition is_str (v : pyval) : bool :=
  match v with PStr _ => true | _ => false end.

Definition is_list (v : pyval) : bool :=
  match v with PList _ => true | _ => false end.

(** [type(v)] as it prints in an f-string. *)
Definition type_repr (v : pyval) : string :=
  match v with
  | PNone => "<class 'NoneType'>"
  | PBool _ => "<class 'bool'>"
  | PInt _ => "<class 'int'>"
  | PStr _ => "<class 'str'>"
  | PList _ => "<class 'list'>"
  | PTuple _ => "<class 'tuple'>"
  end.

(** Decimal printing of integers, as [str(n)] and [{n}] do. *)
Definition digit_of (n : nat) : ascii := ascii_of_nat (48 + n).

Fixpoint nat_digits (fuel n : nat) (acc : string) : string :=
  match fuel with
  | O => acc
  | S fuel' =>
      let acc' := String (digit_of (n mod 10)) acc in
      if Nat.ltb n 10 then acc' else nat_digits fuel' (n / 10) acc'
  end.

Definition str_nat (n : nat) : string := nat_digits (S n) n "".

Definition str_Z (z : Z) : string :=
  if Z.ltb z 0 then "-" ++ str_nat (Z.to_nat (- z)) else str_nat (Z.to_nat z).

Fixpoint join (sep : string) (l : list string) : string :=
  match l with
  | [] => ""
  | [s] => s
  | s :: rest => s ++ sep ++ join sep rest
  end.

(** ** Exceptions, results of calls, the log *)

(** Subclasses of [Exception] only; [sys.exit] has its own outcome below. *)
Inductive exn_kind : Type :=
| ValueError | TypeError | AttributeError | UnboundLocalError | KeyError
| TimeoutError | RuntimeError | OverflowError.

Record exn : Type := Exn { exn_class : exn_kind; exn_msg : string }.

Definition is_TypeError (e : exn) : bool :=
  match exn_class e with TypeError => true | _ => false end.

(** The result of a call into a collaborator. *)
Inductive res (A : Type) : Type :=
| Ok (a : A)
| Raise (e : exn).
Arguments Ok {A} a.
Arguments Raise {A} e.

(** A dask [Delayed]: a computation held back until [compute]; it is carried
    as the result it yields when it is forced. *)
Definition Delayed (A : Type) : Type := res A.

Inductive level : Type := DEBUG | INFO | WARNING | ERROR.

(** What an f-string interpolates into a log message.  [AOmitted] stands for
    values whose text is not modelled (wall-clock durations, the repr of
    library objects). *)
Inductive logarg : Type :=
| ANat (n : nat)
| AInt (z : Z)
| AStr (s : string)
| AVal (v : pyval)
| AType (v : pyval)
| AExn (e : exn)
| AOmitted.

(** One [logging] call: the level, the text of the message with its
    placeholders, and the interpolated values in order. *)
Record logrec : Type := Log { log_level : level; log_fmt : string; log_args : list logarg }.

Definition log_is (lv : level) (fmt : string) (r : logrec) : bool :=
  match log_level r, lv with
  | DEBUG, DEBUG | INFO, INFO | WARNING, WARNING | ERROR, ERROR => String.eqb (log_fmt r) fmt
  | _, _ => false
  end.

Definition count_log (lv : level) (fmt : string) (l : list logrec) : nat :=
  List.length (filter (log_is lv fmt) l).

(** ** Record values *)

Definition bytes := list byte.

(** The values stored in the metadata record. *)
#[warnings="-register-all"]
Inductive value : Type :=
| VNone
| VBool (b : bool)
| VInt (z : Z)
| VFloat (q : Q)        (* a Python float *)
| VNpFloat (q : Q)      (* a numpy floating scalar *)
| VStr (s : string)
| VBytes (b : bytes)
| VTime (t : string)    (* a timestamp *)
| VList (l : list value)
| VNdarray (l : list value)
| VDict (kv : list (string * value)).

Definition record := list (string * value).

Fixpoint get (k : string) (r : record) : option value :=
  match r with
  | [] => None
  | (k', v) :: rest => if String.eqb k k' then Some v else get k rest
  end.

(** ** The monad of the function body

    A statement runs on the log written so far and ends in one of four ways:
    it falls through with a value, it executes [return] (here always of the
    whole function), it raises, or it leaves through [sys.exit()]. *)

Inductive ctl (A : Type) : Type :=
| Normal (a : A)
| Return_ (r : option record)
| Raised (e : exn)
| Exited.
Arguments Normal {A} a.
Arguments Return_ {A} r.
Arguments Raised {A} e.
Arguments Exited {A}.

Definition M (A : Type) : Type := list logrec -> ctl A * list logrec.

Definition ret {A} (a : A) : M A := fun lg => (Normal a, lg).

Definition bind {A B} (m : M A) (f : A -> M B) : M B :=
  fun lg =>
    match m lg with
    | (Normal a, lg') => f a lg'
    | (Return_ r, lg') => (Return_ r, lg')
    | (Raised e, lg') => (Raised e, lg')
    | (Exited, lg') => (Exited, lg')
    end.

Declare Scope py_scope.
Delimit Scope py_scope with py.
Notation "x <- m ;; k" := (bind m (fun x => k))
  (at level 61, m at next level, right associativity) : py_scope.
Notation "' p <- m ;; k" := (bind m (fun x => match x with p => k end))
  (at level 61, p pattern, m at next level, right associativity) : py_scope.
Notation "m ;; k" := (bind m (fun _ => k))
  (at level 61, right associativity) : py_scope.
Local Open Scope py_scope.

Definition logging (lv : level) (fmt : string) (args : list logarg) : M unit :=
  fun lg => (Normal tt, lg ++ [Log lv fmt args]).

Definition raise {A} (e : exn) : M A := fun lg => (Raised e, lg).

Definition return_ {A} (r : option record) : M A := fun lg => (Return_ r, lg).

Definition sys_exit {A} : M A := fun lg => (Exited, lg).

(** A call into a collaborator, inside the body. *)
Definition call {A} (r : res A) : M A :=
  match r with
  | Ok a => ret a
  | Raise e => raise e
  end.

(** [try: body  except Exception as e: handler e]. *)
Definition try_except {A} (body : M A) (handler : exn -> M A) : M A :=
  fun lg =>
    match body lg with
    | (Raised e, lg') => handler e lg'
    | other => other
    end.

(** [try: body  except TypeError as e: handler e]. *)
Definition try_except_TypeError {A} (body : M A) (handler : exn -> M A) : M A :=
  fun lg =>
    match body lg with
    | (Raised e, lg') => if is_TypeError e then handler e lg' else (Raised e, lg')
    | other => other
    end.

(** Reading a local variable that an earlier statement may have left
    unassigned. *)
Definition read_local {A} (name : string) (v : option A) : M A :=
  match v with
  | Some a => ret a
  | None =>
      raise (Exn UnboundLocalError
               ("cannot access local variable '" ++ name ++
                "' where it is not associated with a value"))
  end.

(** ** Collaborators

    Objects of the libraries are opaque to the function: a model is a handle,
    a future is a handle with its key.  A gensim [Dictionary] is carried as
    its token-to-id mapping, whose length is what [len] returns. *)

Record LdaModel : Type := Model { model_id : nat }.

(** [ldamodel_parameter] defaults to [None]. *)
Definition pymodel : Type := option LdaModel.

Definition Dictionary : Type := list (string * nat).

(** A bag-of-words document: (token id, count) pairs. *)
Definition bow : Type := list (nat * nat).

Record Future : Type := Fut { key : string }.

(** An element of [corpus_batches]: a slice of the corpus, or, on the
    fallback path of l.415, an element of the corpus itself. *)
Inductive batch : Type :=
| DocsBatch (docs : list bow)
| PairsBatch (pairs : bow).

(** [alpha_str], [beta_str]: a policy name or a number. *)
Inductive prior : Type :=
| PriorName (s : string)
| PriorNum (q : Q).

(** The keyword arguments of the [LdaModel] constructor at l.218-231. *)
Record lda_params : Type := LdaParams {
  lp_num_topics : Z;
  lp_alpha : value;
  lp_eta : value;
  lp_random_state : Z;
  lp_passes : Z;
  lp_iterations : Z;
  lp_update_every : Z;
  lp_eval_every : Z;
  lp_chunksize : nat;
  lp_per_word_topics : bool
}.

(** The three ways [json.dumps] is called on computed data. *)
Inductive encoder : Type :=
| DefaultHook      (* default=lambda obj: ..., l.481-489 *)
| NumpyEnc         (* cls=NumpyEncoder *)
| Plain.           (* no hook *)

(** Built-ins of Python and numpy that the function uses as pure functions
    and whose internals are outside the module. *)
Record Lib : Type := {
  repr_str : string -> string;                 (* repr of a str *)
  str_float : Q -> string;                     (* str of a float *)
  path_join : string -> string -> string -> string;   (* os.path.join *)
  md5_hex : string -> string;
  sha256_hex : string -> string;
  pickle_pyval : pyval -> bytes;               (* pickle.dumps of token data *)
  pickle_dictionary : Dictionary -> bytes;
  pickle_model : pymodel -> res bytes;
  (* the first bounded draw of [np.random.default_rng(seed)] below [n] *)
  rng_integers : Z -> nat -> nat;
  rng_integers_lt : forall seed n, (0 < n)%nat -> (rng_integers seed n < n)%nat;
  (* [a.astype(float).tolist()] on a numpy array *)
  ndarray_tolist : list value -> res value;
  (* [float(x)] where the interpreter or numpy parses: [x] a str, bytes or
     a numpy array *)
  float_of : value -> res Q
}.

(** Everything one run obtains from outside the module: the other modules of
    the package, gensim, dask and the clock. *)
Record World : Type := {
  get_client : res unit;
  datetime_now : string;                       (* datetime.now(), l.625 *)
  strftime_now : string;                       (* its '%Y%m%d%H%M%S%f' text *)
  timestamp_now : string;                      (* pd.Timestamp.now(), l.669 *)
  random_uniform : Q;                          (* random.uniform(1.0, 1000.0) *)
  random_randint : Z;                          (* random.randint(1, 100000) *)
  Dictionary_new : list pyval -> res Dictionary;
  doc2bow : Dictionary -> list pyval -> res bow;
  calculate_numeric_alpha : prior -> Z -> res value;
  calculate_numeric_beta : prior -> Z -> res value;
  LdaModel_new : list bow -> Dictionary -> lda_params -> res LdaModel;
  calculate_perplexity_threshold : pymodel -> list bow -> value -> res value;
  estimate_batches_large_docs_v2 : string -> Z -> Z -> Q -> Z -> res Z;
  calculate_torch_coherence :
    string -> pymodel -> list pyval -> Dictionary -> res (Delayed value);
  calculate_coherence_metrics :
    value -> value -> pymodel -> Dictionary -> list pyval -> Z -> Z ->
    res (list (string * value));
  calculate_convergence : pymodel -> list bow -> value -> res value;
  calculate_perplexity_score : pymodel -> list bow -> value -> res value;
  extract_topics_with_get_topic_terms : pymodel -> Z -> res (Delayed value);
  json_dumps : encoder -> value -> res string;
  convert_float32_to_float : value -> res value;
  (* client.submit(process_batch_get_document_topics, ldamodel, batch, ...),
     for the batch at position [idx] *)
  client_submit : nat -> pymodel -> batch -> res Future;
  (* the [n]-th call of [wait(fs, timeout=t)]: done and not-done futures *)
  wait : nat -> list Future -> Z -> res (list Future * list Future);
  future_is_error : Future -> bool;            (* future.status == 'error' *)
  client_retry : Future -> res Future;
  future_result : Future -> Z -> res value;    (* r.result(timeout=t) *)
  (* the model attributes and methods of l.531-573 *)
  model_num_topics : pymodel -> option Z;      (* None: no such attribute *)
  model_has_state : pymodel -> bool;
  show_topic : pymodel -> Z -> Z -> res value;
  show_topic_words : pymodel -> res value;     (* the task of l.557-560 *)
  top_topics_words : pymodel -> list pyval -> Z -> res value   (* l.567-573 *)
}.

(** The parameters of [train_model_v2]. *)
Record Args : Type := {
  data_source : string;
  n_topics : Z;
  alpha_str : prior;
  beta_str : prior;
  zip_path : string;
  pylda_path : string;
  pca_path : string;
  pca_gpu_path : string;
  unified_dictionary : Dictionary;
  validation_test_data : Delayed (list pyval);
  phase : string;
  random_state : Z;
  passes : Z;
  iterations : Z;
  update_every : Z;
  eval_every : Z;
  cores : Z;
  per_word_topics : bool;
  ldamodel_parameter : pymodel
}.

(** ** Constants of the function *)

Definition DEFAULT_SCORE : value := VFloat (1 # 4).

Definition dquote : string := String (ascii_of_nat 34) EmptyString.

(** A JSON string literal whose text needs no escape. *)
Definition jstr (s : string) : string := dquote ++ s ++ dquote.

(** [json.dumps([["not_initialized_yet"], ["no_real_data"]])]. *)
Definition placeholder_json : string :=
  "[[" ++ jstr "not_initialized_yet" ++ "], [" ++ jstr "no_real_data" ++ "]]".

(** [json.dumps] of the three-element list of l.345 and l.357. *)
Definition failed_extract_json : string :=
  "[[" ++ jstr "failed_extract_topics_with_get_topic_terms" ++ "], [" ++
  jstr "not_initialized_yet" ++ "], [" ++ jstr "no_real_data" ++ "]]".

Definition failed_extract_value : value :=
  VList [VList [VStr "failed_extract_topics_with_get_topic_terms"];
         VList [VStr "not_initialized_yet"];
         VList [VStr "no_real_data"]].

(** [json.dumps({"error": "Validation data generation failed", "phase": phase})],
    the last resort of every cascade. *)
Definition sentinel_json (phase : string) : string :=
  "{" ++ jstr "error" ++ ": " ++ jstr "Validation data generation failed" ++ ", " ++
  jstr "phase" ++ ": " ++ jstr phase ++ "}".

(** The one-element result of l.477. *)
Definition executor_sentinel (phase : string) : list value :=
  [VDict [("error", VStr "Validation get_document_topics data generation failed");
          ("phase", VStr phase)]].

(** [np.linspace(start, stop, num)], on rationals. *)
Definition linspace (start stop : Q) (num : nat) : list Q :=
  map (fun i => Qred (start + inject_Z (Z.of_nat i) * ((stop - start) / inject_Z (Z.of_nat (num - 1)))))
      (seq 0 num).

Definition fallback_coherence_values : list Q := linspace (1 # 100) (1 # 2) 10.

Definition coherence_seed : Z := 8241984.

(** [corpus_data] has the three keys "train", "validation", "test". *)
Definition phase_key (phase : string) : bool :=
  String.eqb phase "train" || String.eqb phase "validation" || String.eqb phase "test".

Definition res_bind {A B} (r : res A) (f : A -> res B) : res B :=
  match r with
  | Ok a => f a
  | Raise e => Raise e
  end.

(** [dask.delayed(f)(args)]: building the task runs nothing. *)
Definition dask_delayed {A} (task : res A) : M (Delayed A) := ret task.

(** [list(x)]. *)
Definition py_list (v : pyval) : res (list pyval) :=
  match v with
  | PList l => Ok l
  | PTuple l => Ok l
  | PStr s => Ok (map (fun c => PStr (String c EmptyString)) (list_ascii_of_string s))
  | _ => Raise (Exn TypeError "object is not iterable")
  end.

Fixpoint sum_counts (doc : bow) : nat :=
  match doc with
  | [] => 0
  | (_, count) :: rest => count + sum_counts rest
  end.

(** [corpus[i:i + k] for i in range(0, len(corpus), k)], for k >= 1. *)
Fixpoint chunks {A} (fuel k : nat) (l : list A) : list (list A) :=
  match fuel with
  | O => []
  | S fuel' =>
      match l with
      | [] => []
      | _ => firstn k l :: chunks fuel' k (skipn k l)
      end
  end.

(** The list comprehension of l.410 for a step [batch_size]: [range] with a
    negative step from 0 is empty and a zero step is a [ValueError]. *)
Definition partition (batch_size : Z) (corpus : list bow) : res (list batch) :=
  if Z.eqb batch_size 0 then Raise (Exn ValueError "range() arg 3 must not be zero")
  else if Z.ltb batch_size 0 then Ok []
  else Ok (map DocsBatch (chunks (List.length corpus) (Z.to_nat batch_size) corpus)).

(** Modelled from the spec: [safe_serialize_for_postgres] of the package's
    utils module, which is not part of the sources at hand.  The spec has it
    as the store-compatibility conversion after which no numeric-array value
    survives, such values becoming plain scalars and lists. *)
Fixpoint safe_serialize_for_postgres (v : value) : value :=
  match v with
  | VNpFloat q => VFloat q
  | VNdarray l => VList (map safe_serialize_for_postgres l)
  | VList l => VList (map safe_serialize_for_postgres l)
  | VDict kv => VDict (map (fun p => (fst p, safe_serialize_for_postgres (snd p))) kv)
  | other => other
  end.

Definition is_ndarray (v : value) : bool :=
  match v with VNdarray _ => true | _ => false end.

(** ** The body of [train_model_v2] *)

Section Body.

Variable L : Lib.
Variable W : World.

(** [repr(v)] and [str(v)]. *)
Fixpoint py_repr (v : pyval) : string :=
  match v with
  | PNone => "None"
  | PBool true => "True"
  | PBool false => "False"
  | PInt z => str_Z z
  | PStr s => repr_str L s
  | PList l => "[" ++ join ", " (map py_repr l) ++ "]"
  | PTuple l =>
      match l with
      | [x] => "(" ++ py_repr x ++ ",)"
      | _ => "(" ++ join ", " (map py_repr l) ++ ")"
      end
  end.

Definition py_str (v : pyval) : string :=
  match v with
  | PStr s => s
  | _ => py_repr v
  end.

(** *** Document normaliser, l.74-113 *)

(** The first loop, l.84-100.  It assigns into [batch_documents] as it goes,
    so what it yields is the list as the loop leaves it together with the
    exception that ended it, if one did. *)
Fixpoint coerce_docs (idx : nat) (docs : list pyval) : M (list pyval * option exn) :=
  match docs with
  | [] => ret ([], None)
  | doc :: rest =>
      if negb (truthy doc) then
        logging WARNING "Skipping empty document at index {idx}." [ANat idx];;
        '(rest', stop) <- coerce_docs (S idx) rest;;
        ret (doc :: rest', stop)
      else
        match doc with
        | PStr _ =>
            '(rest', stop) <- coerce_docs (S idx) rest;;
            ret (PList [doc] :: rest', stop)
        | PList tokens =>
            '(rest', stop) <- coerce_docs (S idx) rest;;
            ret (PList (map (fun token => PStr (py_str token)) (filter truthy tokens)) :: rest',
                 stop)
        | _ =>
            logging ERROR
              "Unexpected type at index {idx}. Expected a list of tokens or string, got: {type(doc)}"
              [ANat idx; AType doc];;
            ret (doc :: rest,
                 Some (Exn ValueError
                         ("Unexpected type at index " ++ str_nat idx ++
                          ". Expected list or string, got: " ++ type_repr doc)))
        end
  end.

Definition list_of_str (doc : pyval) : bool :=
  match doc with
  | PList tokens => forallb is_str tokens
  | _ => false
  end.

(** The second loop, l.103-106. *)
Fixpoint check_docs (idx : nat) (docs : list pyval) : M unit :=
  match docs with
  | [] => ret tt
  | doc :: rest =>
      if negb (list_of_str doc) then
        logging ERROR "Document at index {idx} has an unexpected structure: {doc}"
          [ANat idx; AVal doc];;
        raise (Exn ValueError
                 ("Document at index " ++ str_nat idx ++ " contains invalid structure."))
      else check_docs (S idx) rest
  end.

Definition log_compute_error (e : exn) : M unit :=
  logging ERROR "Error computing validation_test_data data: {e}" [AExn e].

(** The try block of l.74-113.  The result is the local [batch_documents],
    [None] when [dask.compute] raised before it was assigned. *)
Definition normalize (data : Delayed (list pyval)) : M (option (list pyval)) :=
  match data with
  | Raise e => log_compute_error e;; ret None
  | Ok docs =>
      '(docs', stop) <- coerce_docs 0 docs;;
      match stop with
      | Some e => log_compute_error e;; ret (Some docs')
      | None =>
          try_except (check_docs 0 docs') log_compute_error;;
          ret (Some docs')
      end
  end.

(** l.116-133: the emptiness check, the one-level unwrapping and the check
    that every document is a list. *)
Definition unwrap_batch (local : option (list pyval)) : M (list pyval) :=
  batch_documents <- read_local "batch_documents" local;;
  match batch_documents with
  | [] =>
      logging ERROR "All documents were filtered out during cleaning in train_model_v2." [];;
      return_ None
  | _ =>
      batch_documents <-
        match batch_documents with
        | [PList inner] =>
            if forallb is_list inner then ret inner
            else
              logging ERROR
                "Nested batch_documents contains invalid structure. Skipping flattening." [];;
              return_ None
        | _ => ret batch_documents
        end;;
      if negb (forallb is_list batch_documents) then
        logging ERROR "batch_documents is not a list of lists. Exiting." [];;
        return_ None
      else ret batch_documents
  end.

(** *** Corpus builder, l.136-190 *)

Definition build_dictionary (batch_documents : list pyval) : M Dictionary :=
  train_val_test_dictionary <-
    try_except_TypeError (call (Dictionary_new W batch_documents))
      (fun e =>
         logging ERROR
           "Error: The data structure is not correct to create the Dictionary object." [];;
         logging ERROR "Details: {e}" [AExn e];;
         return_ None);;
  logging INFO "Number of unique tokens after filtering: {len(train_val_test_dictionary)}"
    [ANat (List.length train_val_test_dictionary)];;
  if Nat.eqb (List.length train_val_test_dictionary) 0 then
    logging ERROR "Dictionary is empty after filtering. Adjust thresholds." [];;
    return_ None
  else ret train_val_test_dictionary.

(** [corpus_data[phase]] and the two counters. *)
Record bow_state : Type := BowState {
  corpus : list bow;
  number_of_documents : nat;
  failed_convert_token_to_bow : nat
}.

Definition count_failure (st : bow_state) : bow_state :=
  BowState (corpus st) (number_of_documents st) (S (failed_convert_token_to_bow st)).

(** [corpus_data[phase].append(bow_out); number_of_documents += 1]; the
    subscript is a [KeyError] for a phase that is not a key. *)
Definition append_bow (phase : string) (st : bow_state) (bow_out : bow) : M bow_state :=
  if phase_key phase then
    ret (BowState (corpus st ++ [bow_out]) (S (number_of_documents st))
           (failed_convert_token_to_bow st))
  else raise (Exn KeyError phase).

(** One iteration of the loop of l.157-184.  Its inner handlers catch what
    the body can raise ([list(x)] raises nothing but [TypeError]), so the
    handler of l.186 has nothing left to catch. *)
Definition bow_document (phase : string) (dictionary : Dictionary) (doc_tokens : pyval)
           (st : bow_state) : M bow_state :=
  converted <-
    match doc_tokens with
    | PList tokens => ret (Some tokens)
    | _ =>
        logging WARNING
          "Unexpected structure for doc_tokens: {type(doc_tokens)}, content: {doc_tokens}"
          [AType doc_tokens; AVal doc_tokens];;
        try_except_TypeError
          (tokens <- call (py_list doc_tokens);; ret (Some tokens))
          (fun e =>
             logging ERROR "Failed to convert doc_tokens to list: {e}. Skipping." [AExn e];;
             ret None)
    end;;
  match converted with
  | None => ret (count_failure st)
  | Some [] =>
      logging WARNING "Skipping empty document." [];;
      ret (count_failure st)
  | Some tokens =>
      try_except
        (bow_out <- call (doc2bow W dictionary tokens);;
         append_bow phase st bow_out)
        (fun e =>
           logging ERROR "Error processing document: {doc_tokens}, error: {e}"
             [AVal (PList tokens); AExn e];;
           ret (count_failure st))
  end.

Fixpoint bow_loop (phase : string) (dictionary : Dictionary) (docs : list pyval)
         (st : bow_state) : M bow_state :=
  match docs with
  | [] => ret st
  | doc_tokens :: rest =>
      st' <- bow_document phase dictionary doc_tokens st;;
      bow_loop phase dictionary rest st'
  end.

(** l.136-187: the phase-local dictionary, then the loop over the documents;
    [unified_dictionary] is a parameter of the function that this part does
    not read. *)
Definition corpus_builder (a : Args) (batch_documents : list pyval)
  : M (Dictionary * bow_state) :=
  train_val_test_dictionary <- build_dictionary batch_documents;;
  st <- bow_loop (phase a) train_val_test_dictionary batch_documents (BowState [] 0 0);;
  ret (train_val_test_dictionary, st).

(** l.190: [len(corpus_data[phase])] is evaluated outside any handler. *)
Definition read_corpus (phase : string) (st : bow_state) : M (list bow) :=
  if phase_key phase then ret (corpus st) else raise (Exn KeyError phase).

Definition chunksize_of (corpus_size : nat) : nat := Nat.max 1 (corpus_size / 5).

(** *** Model stage, l.210-242 *)

(** [ldamodel_bytes]: the bytes of [pickle.dumps] (validation, test) or the
    delayed [pickle.dumps] task (train). *)
Inductive model_bytes : Type :=
| EagerBytes (b : bytes)
| DelayedBytes (task : Delayed bytes).

(** The type name of a stored value, as the interpreter writes it in the
    message of a [TypeError]. *)
Definition value_type_name (v : value) : string :=
  match v with
  | VNone => "NoneType"
  | VBool _ => "bool"
  | VInt _ => "int"
  | VFloat _ => "float"
  | VNpFloat _ => "numpy.float64"
  | VStr _ => "str"
  | VBytes _ => "bytes"
  | VTime _ => "Timestamp"
  | VList _ => "list"
  | VNdarray _ => "numpy.ndarray"
  | VDict _ => "dict"
  end.

(** The integers that round to a finite double: below 2^1024 - 2^970 in
    absolute value. *)
Definition fits_double (z : Z) : bool :=
  Z.ltb (Z.abs z) (2 ^ 1024 - 2 ^ 970).

(** [float(x)], l.222-223.  A number converts (rounding is not modelled: a
    float is carried as a rational), a text or an array is parsed by the
    interpreter, anything else is a [TypeError]. *)
Definition py_float (v : value) : res Q :=
  match v with
  | VBool b => Ok (if b then 1 else 0)
  | VInt z =>
      if fits_double z then Ok (inject_Z z)
      else Raise (Exn OverflowError "int too large to convert to float")
  | VFloat q | VNpFloat q => Ok q
  | VStr _ | VBytes _ | VNdarray _ => float_of L v
  | VNone | VTime _ | VList _ | VDict _ =>
      Raise (Exn TypeError
               ("float() argument must be a string or a real number, not '" ++
                value_type_name v ++ "'"))
  end.

Definition model_stage (a : Args) (corpus : list bow) (n_alpha n_beta : value)
           (chunksize : nat) : M (pymodel * model_bytes) :=
  if String.eqb (phase a) "validation" || String.eqb (phase a) "test" then
    ldamodel_bytes <- call (pickle_model L (ldamodel_parameter a));;
    ret (ldamodel_parameter a, EagerBytes ldamodel_bytes)
  else if String.eqb (phase a) "train" then
    try_except
      (alpha <- call (py_float n_alpha);;
       eta <- call (py_float n_beta);;
       ldamodel <- call (LdaModel_new W corpus (unified_dictionary a)
                           (LdaParams (n_topics a) (VFloat alpha) (VFloat eta)
                              (random_state a) (passes a) (iterations a) (update_every a)
                              (eval_every a) chunksize true));;
       ldamodel_bytes <- dask_delayed (pickle_model L (Some ldamodel));;
       ret (Some ldamodel, DelayedBytes ldamodel_bytes))
      (fun e =>
         logging ERROR "An error occurred during LDA model training: {e}" [AExn e];;
         raise e)
  else sys_exit.

(** [ldamodel_bytes.compute()], l.714: [bytes] has no such method. *)
Definition compute_model_bytes (ldamodel_bytes : model_bytes) : M bytes :=
  match ldamodel_bytes with
  | EagerBytes _ => raise (Exn AttributeError "'bytes' object has no attribute 'compute'")
  | DelayedBytes task => call task
  end.

(** *** Metric tasks, l.244-320 *)

Definition threshold_task (a : Args) (ldamodel : pymodel) (corpus : list bow)
  : M (Delayed value) :=
  try_except
    (dask_delayed (calculate_perplexity_threshold W ldamodel corpus DEFAULT_SCORE))
    (fun e =>
       logging WARNING
         "Perplexity threshold calculation failed for phase {phase}. Using default score: {DEFAULT_SCORE}"
         [AStr (phase a); AOmitted];;
       dask_delayed (Ok DEFAULT_SCORE)).

Definition coherence_task (a : Args) (ldamodel : pymodel) (batch_documents : list pyval)
  : M (Delayed value) :=
  try_except
    (call (calculate_torch_coherence W (data_source a) ldamodel batch_documents
             (unified_dictionary a)))
    (fun e =>
       logging WARNING
         "calculate_torch_coherence score calculation failed. Using default score." [];;
       dask_delayed (Ok DEFAULT_SCORE)).

(** [data[key]] on the mapping the coherence task returns. *)
Definition item (k : string) (data : list (string * value)) : res value :=
  match get k data with
  | Some v => Ok v
  | None => Raise (Exn KeyError k)
  end.

(** The five coherence statistics in the order of the source's tuple:
    coherence_score, mean, median, std, mode. *)
Definition coherence5 : Type := value * value * value * value * value.

(** The graph of l.272-292 forced by [dask.compute]: the coherence task, then
    [calculate_coherence_metrics], then the five lookups. *)
Definition compute_coherence (a : Args) (ldamodel : pymodel) (batch_documents : list pyval)
           (task : Delayed value) (max_attempts : Z) : res coherence5 :=
  res_bind task (fun real_coherence_value =>
  res_bind (calculate_coherence_metrics W DEFAULT_SCORE real_coherence_value ldamodel
              (unified_dictionary a) batch_documents (cores a) max_attempts) (fun data =>
  res_bind (item "coherence_score" data) (fun coherence_score =>
  res_bind (item "mean_coherence" data) (fun mean_coherence =>
  res_bind (item "median_coherence" data) (fun median_coherence =>
  res_bind (item "std_coherence" data) (fun std_coherence =>
  res_bind (item "mode_coherence" data) (fun mode_coherence =>
  Ok (coherence_score, mean_coherence, median_coherence, std_coherence, mode_coherence)))))))).

(** [rng.choice(values)] on a generator freshly seeded with [seed]. *)
Definition rng_choice (seed : Z) (values : list Q) : Q :=
  nth (rng_integers L seed (List.length values)) values 0%Q.

(** l.296-298. *)
Definition coherence_fallback : value :=
  VNpFloat (rng_choice coherence_seed fallback_coherence_values).

Definition coherence_stage (a : Args) (ldamodel : pymodel) (batch_documents : list pyval)
           (task : Delayed value) (max_attempts : Z) : M coherence5 :=
  try_except
    (call (compute_coherence a ldamodel batch_documents task max_attempts))
    (fun e =>
       logging WARNING "Sample coherence scores calculation failed. NumPy default_rng()." [];;
       let v := coherence_fallback in
       ret (v, v, v, v, v)).

Definition convergence_task (ldamodel : pymodel) (corpus : list bow) : M (Delayed value) :=
  try_except
    (dask_delayed (calculate_convergence W ldamodel corpus DEFAULT_SCORE))
    (fun e =>
       logging WARNING "Convergence calculation failed. Using default score." [];;
       dask_delayed (Ok DEFAULT_SCORE)).

Definition perplexity_task (ldamodel : pymodel) (corpus : list bow) : M (Delayed value) :=
  try_except
    (dask_delayed (calculate_perplexity_score W ldamodel corpus DEFAULT_SCORE))
    (fun e =>
       logging WARNING "Perplexity score calculation failed. Using default score." [];;
       dask_delayed (Ok DEFAULT_SCORE)).

(** *** Topic extraction, l.328-384 *)

(** l.330: a sum over (id, count) pairs, which cannot fail on a corpus of
    [doc2bow] results; the handler of l.332-335 is therefore left out. *)
Definition num_words_of (corpus : list bow) : Z :=
  Z.of_nat (list_sum (map sum_counts corpus)).

(** l.338-345: the local [topics_to_store_task] stays unassigned when the
    call raises. *)
Definition extract_topics (ldamodel : pymodel) (num_words : Z)
  : M (option (Delayed value) * value) :=
  try_except
    (logging DEBUG "Creating delayed task for topic extraction..." [];;
     topics_to_store_task <- call (extract_topics_with_get_topic_terms W ldamodel num_words);;
     ret (Some topics_to_store_task, VStr placeholder_json))
    (fun e =>
       logging ERROR "[extract_topics_with_get_topic_terms] failed to extract topics." [];;
       ret (None, VStr failed_extract_json)).

(** l.347-384.  After a failure the cascade runs on the fixed three-element
    list, not on the topics; its first step stores what
    [convert_float32_to_float] returns.  The second [except Exception] clause
    of the same [try] (l.383) is never selected, the first one matching every
    exception. *)
Definition serialize_topics (a : Args) (topics_to_store_task : option (Delayed value))
           (topics_results_jsonb : value) : M value :=
  match topics_to_store_task with
  | None => ret topics_results_jsonb
  | Some task =>
      try_except
        (logging DEBUG "Computing delayed task for topic extraction..." [];;
         topics_results_to_store <- call task;;
         logging DEBUG "Extracted topics: {topics_results_to_store}" [AOmitted];;
         text <- call (json_dumps W NumpyEnc topics_results_to_store);;
         ret (VStr text))
        (fun e =>
           logging ERROR "Error extracting topics: {e}" [AExn e];;
           try_except
             (call (convert_float32_to_float W failed_extract_value))
             (fun e =>
                logging ERROR
                  "First attempt to serialize topics_results_to_store failed: {e}" [AExn e];;
                try_except
                  (ret (VStr failed_extract_json))
                  (fun e =>
                     logging WARNING
                       "Second topics_results_jsonb serialization attempt failed: {e}"
                       [AExn e];;
                     try_except
                       (ret (VStr failed_extract_json))
                       (fun e =>
                          logging ERROR
                            "All JSON topics_results_jsonb serialization attempts failed: {e}"
                            [AExn e];;
                          ret (VStr (sentinel_json (phase a)))))))
  end.

(** *** Distributed batch executor, l.397-477 *)

(** l.401-415: the batch size and the batches.  [batch_size] keeps the value
    it had when the handler ran: -1 when the estimate raised. *)
Definition make_batches (a : Args) (corpus : list bow) : M (list batch * Z) :=
  let fallback (e : exn) (batch_size : Z) : M (list batch * Z) :=
    logging ERROR "Error in topic_model_trainer/process_batch_get_document_topics: {e}" [AExn e];;
    logging WARNING "Utilizing entire corpus for document topic calculation." [];;
    ret (map PairsBatch corpus, batch_size) in
  match estimate_batches_large_docs_v2 W (data_source a) 1 15 (4 # 10) 3 with
  | Raise e => fallback e (-1)%Z
  | Ok estimate =>
      let batch_size := Z.min (Z.of_nat (List.length corpus)) estimate in
      let batch_size := if Z.eqb batch_size 0 then 5%Z else batch_size in
      match partition batch_size corpus with
      | Raise e => fallback e batch_size
      | Ok corpus_batches => ret (corpus_batches, batch_size)
      end
  end.

(** l.417-433: the futures appended before a failing [submit] are kept. *)
Fixpoint submit_loop (ldamodel : pymodel) (total idx : nat) (batches : list batch)
         (futures : list Future) : M (list Future) :=
  match batches with
  | [] => ret futures
  | b :: rest =>
      logging INFO "Submitting batch {idx + 1}: {batch[:5]}" [ANat (idx + 1); AOmitted];;
      match client_submit W idx ldamodel b with
      | Raise e =>
          logging ERROR
            "Error in topic_model_trainer/client.submit(process_batch_get_document_topics): {e}"
            [AExn e];;
          logging ERROR "SOURCE OF ERROR FOUND(0)" [];;
          ret futures
      | Ok future =>
          logging INFO
            "[get_document_topics] Submitted batch {batch_id}/{total_batches} in {elapsed_time:.2f} seconds."
            [ANat (idx + 1); ANat total; AOmitted];;
          submit_loop ldamodel total (S idx) rest (futures ++ [future])
      end
  end.

(** l.439-442. *)
Fixpoint log_failed (done_batches : list Future) : M unit :=
  match done_batches with
  | [] => ret tt
  | future :: rest =>
      (if future_is_error W future then
         logging ERROR "Future failed with exception: {future.exception()}" [AOmitted];;
         logging ERROR "SOURCE OF ERROR FOUND(1)" []
       else ret tt);;
      log_failed rest
  end.

(** [[client.retry(future) for future in not_done]]. *)
Fixpoint retry_all (not_done : list Future) : res (list Future) :=
  match not_done with
  | [] => Ok []
  | future :: rest =>
      res_bind (client_retry W future) (fun r =>
      res_bind (retry_all rest) (fun rs => Ok (r :: rs)))
  end.

Fixpoint log_unresolved (retry_not_done : list Future) : M unit :=
  match retry_not_done with
  | [] => ret tt
  | future :: rest =>
      logging ERROR "Unresolved task after retry: {future.key}" [AStr (key future)];;
      log_unresolved rest
  end.

(** l.444-455. *)
Definition retry_unresolved (not_done : list Future) : M (list Future * list Future) :=
  match not_done with
  | [] => ret ([], [])
  | _ =>
      logging WARNING "Retrying {len(not_done)} unresolved tasks..."
        [ANat (List.length not_done)];;
      retries <- call (retry_all not_done);;
      '(retry_done_batches, retry_not_done) <- call (wait W 2 retries 300);;
      match retry_not_done with
      | [] => ret tt
      | _ =>
          logging ERROR "{len(retry_not_done)} tasks remain unresolved after retry."
            [ANat (List.length retry_not_done)];;
          log_unresolved retry_not_done
      end;;
      ret (retry_done_batches, retry_not_done)
  end.

(** [[r.result(timeout=120) for r in all_done_batches]]. *)
Fixpoint fetch_all (all_done_batches : list Future) : res (list value) :=
  match all_done_batches with
  | [] => Ok []
  | r :: rest =>
      res_bind (future_result W r 120) (fun v =>
      res_bind (fetch_all rest) (fun vs => Ok (v :: vs)))
  end.

(** l.435-473: wait, retry, gather.  [validation_results_to_store] is the
    empty list of l.400 unless the whole comprehension of l.465 succeeds. *)
Definition gather (futures : list Future) : M (list value) :=
  '(done_batches, not_done) <- call (wait W 1 futures 300);;
  log_failed done_batches;;
  '(retry_done_batches, _) <- retry_unresolved not_done;;
  let all_done_batches := done_batches ++ retry_done_batches in
  validation_results_to_store <-
    try_except
      (results <- call (fetch_all all_done_batches);;
       logging INFO "[get_document_topics] Completed processing {total_documents} documents."
         [ANat (List.length results)];;
       ret results)
      (fun e =>
         logging ERROR "Error in topic_model_trainer/[r.result() for r in done_batches]: {e}"
           [AExn e];;
         ret []);;
  logging DEBUG "[get_document_topics] Computed validation results: {validation_results_to_store}"
    [AOmitted];;
  ret validation_results_to_store.

(** l.397-477; the result is [validation_results_to_store] and [batch_size]. *)
Definition batch_executor (a : Args) (ldamodel : pymodel) (corpus : list bow)
  : M (list value * Z) :=
  '(corpus_batches, batch_size) <- make_batches a corpus;;
  validation_results_to_store <-
    try_except
      (futures <- submit_loop ldamodel (List.length corpus_batches) 0 corpus_batches [];;
       gather futures)
      (fun e =>
         logging ERROR "[get_document_topics] Error while computing validation results task: {e}"
           [AExn e];;
         ret (executor_sentinel (phase a)));;
  ret (validation_results_to_store, batch_size).

(** *** Resilient serialiser, l.480-513 *)

(** The third attempt of a cascade: arrays through [tolist], anything else
    through the plain encoder.  (A DataFrame is not among the values here; on
    one the source's [json.dumps(data)] raises.) *)
Definition third_attempt (v : value) : res string :=
  match v with
  | VNdarray l => res_bind (ndarray_tolist L l) (json_dumps W Plain)
  | _ => json_dumps W Plain v
  end.

Definition serialize_validation (a : Args) (validation_results_to_store : list value)
  : M string :=
  try_except
    (call (json_dumps W DefaultHook (VList validation_results_to_store)))
    (fun e =>
       logging ERROR "JSON serialization failed with TypeError: {e}" [AExn e];;
       try_except
         (call (json_dumps W NumpyEnc (VList validation_results_to_store)))
         (fun e =>
            logging WARNING "Second serialization attempt failed: {e}" [AExn e];;
            try_except
              (call (third_attempt (VList validation_results_to_store)))
              (fun e =>
                 logging ERROR "All JSON serialization attempts failed." [];;
                 ret (sentinel_json (phase a))))).

(** *** The block under [if not validation_results_jsonb], l.516-608

    The topic-word extraction and its cascade are indented under the check
    that the validation payload is the empty string. *)

Fixpoint log_value_types (kv : list (string * value)) : M unit :=
  match kv with
  | [] => ret tt
  | (k, _) :: rest =>
      logging ERROR "Type of {key}: {type(value)}" [AStr k; AOmitted];;
      log_value_types rest
  end.

Fixpoint log_item_types (items : list value) : M unit :=
  match items with
  | [] => ret tt
  | VDict kv :: rest => log_value_types kv;; log_item_types rest
  | _ :: rest => log_item_types rest
  end.

(** The handler of l.584-608, which catches [TypeError] only;
    [topics_to_store] is unassigned when the failure came before l.580
    completed. *)
Definition topic_words_cascade (a : Args) (topics_to_store : option value) (e : exn)
  : M value :=
  logging ERROR
    "Critical failure in topic processing or serialization: {e}. Attempting second attempt with NumpyEncoder."
    [AExn e];;
  try_except_TypeError
    (v <- read_local "topics_to_store" topics_to_store;;
     text <- call (json_dumps W NumpyEnc v);;
     ret (VStr text))
    (fun e =>
       logging WARNING "Second topics_to_store serialization attempt failed: {e}" [AExn e];;
       try_except_TypeError
         (v <- read_local "topics_to_store" topics_to_store;;
          text <- call (third_attempt v);;
          ret (VStr text))
         (fun e =>
            logging ERROR "All JSON topics_to_store serialization attempts failed." [];;
            ret (VStr (sentinel_json (phase a))))).

Definition test_show_topic (ldamodel : pymodel) : M unit :=
  try_except
    (topic_words <- call (show_topic W ldamodel 0 5);;
     logging DEBUG "Top words for topic 0: {topic_words}" [AOmitted])
    (fun e =>
       logging ERROR "Error while retrieving topic words: {e}" [AExn e];;
       raise e).

(** The result is the new value of [topic_words_jsonb]. *)
Definition topic_words_block (a : Args) (ldamodel : pymodel) (batch_documents : list pyval)
           (validation_results_to_store : list value) : M value :=
  logging ERROR "Final serialization failed. Checking data types." [];;
  log_item_types validation_results_to_store;;
  match batch_documents with
  | [] => raise (Exn ValueError "Batch documents are empty!")
  | _ => ret tt
  end;;
  (if negb (forallb list_of_str batch_documents)
   then raise (Exn ValueError "Batch documents have an incorrect structure!")
   else ret tt);;
  match model_num_topics W ldamodel with
  | Some num_topics =>
      if Z.leb num_topics 0 then
        raise (Exn ValueError
                 "LDAModel is not properly trained. Ensure it has been trained with valid data.")
      else ret tt
  | None =>
      raise (Exn ValueError
               "LDAModel is not properly trained. Ensure it has been trained with valid data.")
  end;;
  (if negb (model_has_state W ldamodel)
   then raise (Exn ValueError
                 "LDAModel state is missing. Training might not have been completed.")
   else ret tt);;
  test_show_topic ldamodel;;
  test_show_topic ldamodel;;
  topic_words_task <-
    (if String.eqb (phase a) "train" then
       logging DEBUG "Phase: train - creating topic_words_task." [];;
       topic_words_task <- dask_delayed (show_topic_words W ldamodel);;
       logging DEBUG "topic_words_task created successfully." [];;
       ret topic_words_task
     else
       logging DEBUG "Phase: non-train - creating topics_task." [];;
       topic_words_task <- dask_delayed (top_topics_words W ldamodel batch_documents (cores a));;
       logging DEBUG "topics_task created successfully." [];;
       logging DEBUG "topic_words_task created successfully." [];;
       ret topic_words_task);;
  logging DEBUG "Computing topic_words_task..." [];;
  match topic_words_task with
  | Raise e => topic_words_cascade a None e
  | Ok topic_words =>
      logging DEBUG "topic_words computed successfully: {topic_words}" [AOmitted];;
      match convert_float32_to_float W topic_words with
      | Raise e => topic_words_cascade a None e
      | Ok topics_to_store =>
          match json_dumps W Plain topics_to_store with
          | Raise e => topic_words_cascade a (Some topics_to_store) e
          | Ok text =>
              logging DEBUG "Serialized topic words: {topic_words_jsonb}" [AStr text];;
              ret (VStr text)
          end
      end
  end.

(** *** Metadata assembler, l.611-737 *)

(** l.615-629. *)
Definition unique_primary_key_of : string :=
  let combined_random_value :=
    (str_float L (random_uniform W) ++ "_" ++ str_Z (random_randint W))%string in
  let random_hash := md5_hex L combined_random_value in
  let time_hash := md5_hex L (strftime_now W) in
  md5_hex L (random_hash ++ time_hash)%string.

Definition str_prior (p : prior) : string :=
  match p with
  | PriorName s => s
  | PriorNum q => str_float L q
  end.

Fixpoint flatten_docs (docs : list pyval) : res (list pyval) :=
  match docs with
  | [] => Ok []
  | sublist :: rest =>
      res_bind (py_list sublist) (fun items =>
      res_bind (flatten_docs rest) (fun more => Ok (items ++ more)))
  end.

(** l.651-658. *)
Definition flatten_batch (batch_documents : list pyval) : M (list pyval) :=
  try_except
    (flattened_batch <- call (flatten_docs batch_documents);;
     logging DEBUG "Flattened batch structure: {flattened_batch[:10]}" [AOmitted];;
     ret flattened_batch)
    (fun e =>
       logging ERROR
         "Error while flattening batch_documents: {e}. Type: {type(batch_documents)}, Content: {batch_documents[:5]}"
         [AExn e; AType (PList batch_documents); AOmitted];;
       ret [PStr ("error: " ++ exn_msg e)]).

(** [' '.join(items)]: every item has to be a str. *)
Fixpoint str_items (items : list pyval) : res (list string) :=
  match items with
  | [] => Ok []
  | PStr s :: rest => res_bind (str_items rest) (fun ss => Ok (s :: ss))
  | _ :: _ => Raise (Exn TypeError "sequence item: expected str instance")
  end.

Definition str_join (sep : string) (items : list pyval) : res string :=
  res_bind (str_items items) (fun ss => Ok (join sep ss)).

Definition warn_placeholder (name : string) (payload : value) : M unit :=
  match payload with
  | VStr text =>
      if String.eqb text placeholder_json
      then logging WARNING (name ++ " is still using the default placeholder!")%string []
      else ret tt
  | _ => ret tt
  end.

(** l.730-735. *)
Fixpoint log_ndarrays (db_data : record) : M unit :=
  match db_data with
  | [] => ret tt
  | (k, v) :: rest =>
      (if is_ndarray v
       then logging ERROR "Key {key} is still ndarray after serialization!" [AStr k]
       else ret tt);;
      log_ndarrays rest
  end.

(** What the record is built from. *)
Record locals : Type := Locals {
  l_unique_primary_key : string;
  l_batch_size : Z;
  l_num_words : Z;
  l_flattened_batch : list pyval;
  l_flattened_batch_str : string;
  l_batch_documents : list pyval;
  l_max_attempts : Z;
  l_topic_words_jsonb : value;
  l_topics_results_jsonb : value;
  l_validation_results_jsonb : string;
  l_n_alpha : value;
  l_n_beta : value;
  l_chunksize : nat;
  l_convergence_score : value;
  l_negative_log_likelihood : value;
  l_perplexity_score : value;
  l_coherence : coherence5;
  l_threshold : value;
  l_lda_model : bytes;
  l_corpus_to_pickle : string;
  l_dictionary : Dictionary
}.

(** The dict literal of l.664-722. *)
Definition current_increment_data (a : Args) (v : locals) : record :=
  let '(coherence_score, mean_coherence, median_coherence, std_coherence, mode_coherence) :=
    l_coherence v in
  let number_of_topics := ("number_of_topics-" ++ str_Z (n_topics a))%string in
  [ ("time_key", VStr (l_unique_primary_key v));
    ("type", VStr (phase a));
    ("start_time", VTime (datetime_now W));
    ("end_time", VTime (timestamp_now W));
    ("num_workers", VNone);
    ("batch_size", VInt (l_batch_size v));
    ("num_word",
      if Z.eqb (l_num_words v) (-1) then VInt (-1)
      else VInt (Z.of_nat (List.length (l_flattened_batch v))));
    ("text", VBytes (pickle_pyval L (PList (l_flattened_batch v))));
    ("text_json", VBytes (pickle_pyval L (PList (l_batch_documents v))));
    ("max_attempts", VInt (l_max_attempts v));
    ("top_topics", l_topic_words_jsonb v);
    ("topics_words", l_topics_results_jsonb v);
    ("validation_result", VStr (l_validation_results_jsonb v));
    ("text_sha256", VStr (sha256_hex L (l_flattened_batch_str v)));
    ("text_md5", VStr (md5_hex L (l_flattened_batch_str v)));
    ("text_path", VStr (path_join L (zip_path a) (phase a) number_of_topics));
    ("pca_path", VStr (path_join L (pca_path a) (phase a) number_of_topics));
    ("pca_gpu_path", VStr (path_join L (pca_gpu_path a) (phase a) number_of_topics));
    ("pylda_path", VStr (path_join L (pylda_path a) (phase a) number_of_topics));
    ("topics", VInt (n_topics a));
    ("alpha_str", VStr (str_prior (alpha_str a)));
    ("n_alpha", l_n_alpha v);
    ("beta_str", VStr (str_prior (beta_str a)));
    ("n_beta", l_n_beta v);
    ("passes", VInt (passes a));
    ("iterations", VInt (iterations a));
    ("update_every", VInt (update_every a));
    ("eval_every", VInt (eval_every a));
    ("chunksize", VStr (str_nat (l_chunksize v)));
    ("random_state", VInt (random_state a));
    ("per_word_topics", VBool (per_word_topics a));
    ("convergence", l_convergence_score v);
    ("nll", l_negative_log_likelihood v);
    ("perplexity", l_perplexity_score v);
    ("coherence", coherence_score);
    ("mean_coherence", mean_coherence);
    ("median_coherence", median_coherence);
    ("mode_coherence", mode_coherence);
    ("std_coherence", std_coherence);
    ("perplexity_threshold", l_threshold v);
    ("lda_model", VBytes (l_lda_model v));
    ("corpus", VStr (l_corpus_to_pickle v));
    ("dictionary", VBytes (pickle_dictionary L (l_dictionary v)));
    ("create_pylda", VNone);
    ("create_pcoa", VNone);
    ("create_pca_gpu", VNone) ].

(** l.724-727: the deep copy passed through [safe_serialize_for_postgres]. *)
Definition db_data_of (current : record) : record :=
  map (fun kv => (fst kv, safe_serialize_for_postgres (snd kv))) current.

(** *** The function *)

Definition train_model_v2 (a : Args) : M unit :=
  (* l.63 *)
  call (get_client W);;
  (* l.74-133 *)
  local <- normalize (validation_test_data a);;
  batch_documents <- unwrap_batch local;;
  (* l.136-190 *)
  let corpus_to_pickle := "" in
  '(train_val_test_dictionary, st) <- corpus_builder a batch_documents;;
  corpus <- read_corpus (phase a) st;;
  let chunksize := chunksize_of (List.length corpus) in
  (* l.200-208 *)
  n_alpha <- call (calculate_numeric_alpha W (alpha_str a) (n_topics a));;
  n_beta <- call (calculate_numeric_beta W (beta_str a) (n_topics a));;
  let negative_log_likelihood := DEFAULT_SCORE in
  (* l.210-242 *)
  '(ldamodel, ldamodel_bytes) <- model_stage a corpus n_alpha n_beta chunksize;;
  (* l.244-320 *)
  threshold <- threshold_task a ldamodel corpus;;
  max_attempts <- call (estimate_batches_large_docs_v2 W (data_source a) 5 50 (4 # 10) 3);;
  coherence <- coherence_task a ldamodel batch_documents;;
  coherence <- coherence_stage a ldamodel batch_documents coherence max_attempts;;
  convergence <- convergence_task ldamodel corpus;;
  perplexity <- perplexity_task ldamodel corpus;;
  (* l.323-384 *)
  let num_words := num_words_of corpus in
  logging DEBUG "Calculated num_words for phase '{phase}': {num_words}"
    [AStr (phase a); AInt num_words];;
  '(topics_to_store_task, topics_results_jsonb) <- extract_topics ldamodel num_words;;
  topics_results_jsonb <- serialize_topics a topics_to_store_task topics_results_jsonb;;
  (* l.397-513 *)
  '(validation_results_to_store, batch_size) <- batch_executor a ldamodel corpus;;
  validation_results_jsonb <- serialize_validation a validation_results_to_store;;
  (* l.516-608 *)
  topic_words_jsonb <-
    (if String.eqb validation_results_jsonb ""
     then topic_words_block a ldamodel batch_documents validation_results_to_store
     else ret (VStr placeholder_json));;
  (* l.615-636 *)
  let unique_primary_key := unique_primary_key_of in
  (* l.639-641 *)
  topics_to_store_task <- read_local "topics_to_store_task" topics_to_store_task;;
  threshold <- call threshold;;
  convergence_score <- call convergence;;
  perplexity_score <- call perplexity;;
  topics_to_store <- call topics_to_store_task;;
  (* l.644-649 *)
  warn_placeholder "topic_words_jsonb" topic_words_jsonb;;
  warn_placeholder "topics_results_jsonb" topics_results_jsonb;;
  warn_placeholder "validation_results_jsonb" (VStr validation_results_jsonb);;
  (* l.651-662 *)
  flattened_batch <- flatten_batch batch_documents;;
  flattened_batch_str <- call (str_join " " flattened_batch);;
  let flattened_batch_str := (flattened_batch_str ++ unique_primary_key)%string in
  (* l.664-722 *)
  lda_model <- compute_model_bytes ldamodel_bytes;;
  let current :=
    current_increment_data a
      (Locals unique_primary_key batch_size num_words flattened_batch flattened_batch_str
         batch_documents max_attempts topic_words_jsonb topics_results_jsonb
         validation_results_jsonb n_alpha n_beta chunksize convergence_score
         negative_log_likelihood perplexity_score coherence threshold lda_model
         corpus_to_pickle train_val_test_dictionary) in
  (* l.724-737 *)
  let db_data := db_data_of current in
  log_ndarrays db_data;;
  return_ (Some db_data).

End Body.

(** ** What the caller observes *)

Inductive outcome : Type :=
| Returns (r : option record)   (* a record, or None *)
| Raises (e : exn)              (* an exception leaves the function *)
| Exits.                        (* sys.exit() *)

(** One invocation, on an empty log; falling off the end of a Python
    function returns [None]. *)
Definition run (m : M unit) : outcome * list logrec :=
  match m [] with
  | (Normal _, lg) => (Returns None, lg)
  | (Return_ r, lg) => (Returns r, lg)
  | (Raised e, lg) => (Raises e, lg)
  | (Exited, lg) => (Exits, lg)
  end.

Definition invoke (L : Lib) (W : World) (a : Args) : outcome :=
  fst (run (train_model_v2 L W a)).

Definition invoke_log (L : Lib) (W : World) (a : Args) : list logrec :=
  snd (run (train_model_v2 L W a)).

(** ** A reference environment

    A small gensim-like instance of the collaborators, on which the function
    can be run.  The knobs are the collaborators the examples vary. *)

Module Ref.

Definition lib_rng_integers (seed : Z) (n : nat) : nat :=
  Z.to_nat (seed mod Z.of_nat n).

Lemma lib_rng_integers_lt (seed : Z) (n : nat) :
  (0 < n)%nat -> (lib_rng_integers seed n < n)%nat.
Proof.
  intros Hn. unfold lib_rng_integers.
  assert (H : (0 <= seed mod Z.of_nat n < Z.of_nat n)%Z) by (apply Z.mod_pos_bound; lia).
  lia.
Qed.

Definition lib : Lib := {|
  repr_str := fun s => ("'" ++ s ++ "'")%string;
  str_float := fun q => (str_Z (Qnum q) ++ "/" ++ str_Z (Zpos (Qden q)))%string;
  path_join := fun a b c => (a ++ "/" ++ b ++ "/" ++ c)%string;
  md5_hex := fun s => ("md5:" ++ s)%string;
  sha256_hex := fun s => ("sha256:" ++ s)%string;
  pickle_pyval := fun _ => [];
  pickle_dictionary := fun _ => [];
  pickle_model := fun _ => Ok [];
  rng_integers := lib_rng_integers;
  rng_integers_lt := lib_rng_integers_lt;
  ndarray_tolist := fun l => Ok (VList l);
  float_of := fun v =>
    match v with
    | VNdarray [VFloat q] | VNdarray [VNpFloat q] => Ok q
    | VNdarray _ =>
        Raise (Exn TypeError "only length-1 arrays can be converted to Python scalars")
    | _ => Raise (Exn ValueError "could not convert string to float")
    end
|}.

Fixpoint lookup (token : string) (d : Dictionary) : option nat :=
  match d with
  | [] => None
  | (t, id) :: rest => if String.eqb token t then Some id else lookup token rest
  end.

(** Tokens get the next free id in order of first appearance. *)
Fixpoint add_tokens (tokens : list pyval) (d : Dictionary) : res Dictionary :=
  match tokens with
  | [] => Ok d
  | PStr t :: rest =>
      match lookup t d with
      | Some _ => add_tokens rest d
      | None => add_tokens rest (d ++ [(t, List.length d)])
      end
  | _ :: _ => Raise (Exn TypeError "decoding to str: need a bytes-like object")
  end.

Fixpoint add_documents (docs : list pyval) (d : Dictionary) : res Dictionary :=
  match docs with
  | [] => Ok d
  | PList tokens :: rest => res_bind (add_tokens tokens d) (add_documents rest)
  | _ :: _ => Raise (Exn TypeError "doc2bow expects an array of unicode tokens on input")
  end.

Definition count_token (t : string) (tokens : list pyval) : nat :=
  List.length (filter (fun v => match v with PStr s => String.eqb s t | _ => false end) tokens).

(** The pairs (id, count) of the tokens the dictionary knows, by id. *)
Fixpoint bow_of (d : Dictionary) (tokens : list pyval) : bow :=
  match d with
  | [] => []
  | (t, id) :: rest =>
      match count_token t tokens with
      | O => bow_of rest tokens
      | n => (id, n) :: bow_of rest tokens
      end
  end.

Definition coherence_data : list (string * value) :=
  [ ("coherence_score", VFloat (3 # 10));
    ("mean_coherence", VFloat (31 # 100));
    ("median_coherence", VFloat (32 # 100));
    ("std_coherence", VFloat (1 # 100));
    ("mode_coherence", VFloat (33 # 100)) ].

Record knobs : Type := Knobs {
  k_doc2bow : Dictionary -> list pyval -> res bow;
  k_estimate : string -> Z -> Z -> Q -> Z -> res Z;
  k_coherence_metrics : res (list (string * value));
  k_convergence : res value;
  k_wait : nat -> list Future -> Z -> res (list Future * list Future);
  k_future_result : Future -> Z -> res value
}.

Definition world_of (k : knobs) : World := {|
  get_client := Ok tt;
  datetime_now := "2024-04-01 00:00:01";
  strftime_now := "20240401000001000000";
  timestamp_now := "2024-04-01 00:00:02";
  random_uniform := 5 # 2;
  random_randint := 7;
  Dictionary_new := fun docs => add_documents docs [];
  doc2bow := k_doc2bow k;
  calculate_numeric_alpha := fun _ _ => Ok (VFloat (1 # 10));
  calculate_numeric_beta := fun _ _ => Ok (VFloat (1 # 10));
  LdaModel_new := fun _ _ _ => Ok (Model 1);
  calculate_perplexity_threshold := fun _ _ _ => Ok (VFloat (7 # 10));
  estimate_batches_large_docs_v2 := k_estimate k;
  calculate_torch_coherence := fun _ _ _ _ => Ok (Ok (VFloat (3 # 10)));
  calculate_coherence_metrics := fun _ _ _ _ _ _ _ => k_coherence_metrics k;
  calculate_convergence := fun _ _ _ => k_convergence k;
  calculate_perplexity_score := fun _ _ _ => Ok (VFloat (9 # 10));
  extract_topics_with_get_topic_terms := fun _ _ => Ok (Ok (VList [VStr "topic"]));
  json_dumps := fun _ _ => Ok "[]";
  convert_float32_to_float := fun v => Ok v;
  client_submit := fun idx _ _ => Ok (Fut ("batch-" ++ str_nat idx));
  wait := k_wait k;
  future_is_error := fun _ => false;
  client_retry := fun f => Ok f;
  future_result := k_future_result k;
  model_num_topics := fun _ => Some 5%Z;
  model_has_state := fun _ => true;
  show_topic := fun _ _ _ => Ok (VList []);
  show_topic_words := fun _ => Ok (VList [VList [VStr "word"]]);
  top_topics_words := fun _ _ _ => Ok (VList [VList [VStr "word"]])
|}.

(** Every collaborator succeeds and every future is done at the first wait. *)
Definition calm : knobs := {|
  k_doc2bow := fun d tokens => Ok (bow_of d tokens);
  k_estimate := fun _ _ hi _ _ => Ok hi;
  k_coherence_metrics := Ok coherence_data;
  k_convergence := Ok (VFloat (8 # 10));
  k_wait := fun _ fs _ => Ok (fs, []);
  k_future_result := fun f _ => Ok (VStr (key f))
|}.

Definition world : World := world_of calm.

(** Every bag-of-words conversion fails. *)
Definition no_bow : knobs := {|
  k_doc2bow := fun _ _ => Raise (Exn RuntimeError "doc2bow failed");
  k_estimate := k_estimate calm;
  k_coherence_metrics := k_coherence_metrics calm;
  k_convergence := k_convergence calm;
  k_wait := k_wait calm;
  k_future_result := k_future_result calm
|}.

(** [calculate_convergence] raises when its task is computed. *)
Definition no_convergence : knobs := {|
  k_doc2bow := k_doc2bow calm;
  k_estimate := k_estimate calm;
  k_coherence_metrics := k_coherence_metrics calm;
  k_convergence := Raise (Exn RuntimeError "convergence failed");
  k_wait := k_wait calm;
  k_future_result := k_future_result calm
|}.

(** [calculate_coherence_metrics] raises when its task is computed. *)
Definition no_coherence : knobs := {|
  k_doc2bow := k_doc2bow calm;
  k_estimate := k_estimate calm;
  k_coherence_metrics := Raise (Exn RuntimeError "resampling failed");
  k_convergence := k_convergence calm;
  k_wait := k_wait calm;
  k_future_result := k_future_result calm
|}.

(** One document per batch; fetching the result of the first batch fails. *)
Definition lossy_fetch : knobs := {|
  k_doc2bow := k_doc2bow calm;
  k_estimate := fun _ lo _ _ _ => Ok lo;
  k_coherence_metrics := k_coherence_metrics calm;
  k_convergence := k_convergence calm;
  k_wait := k_wait calm;
  k_future_result := fun f _ =>
    if String.eqb (key f) "batch-0" then Raise (Exn TimeoutError "result not ready")
    else Ok (VStr (key f))
|}.

(** The first future is done at the first wait; no other ever is. *)
Definition slow : knobs := {|
  k_doc2bow := k_doc2bow calm;
  k_estimate := fun _ lo _ _ _ => Ok lo;
  k_coherence_metrics := k_coherence_metrics calm;
  k_convergence := k_convergence calm;
  k_wait := fun n fs _ =>
    match n with
    | 1%nat => Ok (firstn 1 fs, skipn 1 fs)
    | _ => Ok ([], fs)
    end;
  k_future_result := k_future_result calm
|}.

(** One document per batch; everything else as in [calm]. *)
Definition one_per_batch : knobs := {|
  k_doc2bow := k_doc2bow calm;
  k_estimate := fun _ lo _ _ _ => Ok lo;
  k_coherence_metrics := k_coherence_metrics calm;
  k_convergence := k_convergence calm;
  k_wait := k_wait calm;
  k_future_result := k_future_result calm
|}.

(** One document per batch, and a batch that never resolves: [wait] raises
    when its 300 seconds are over, as dask's [wait] does. *)
Definition unresolved : knobs := {|
  k_doc2bow := k_doc2bow calm;
  k_estimate := fun _ lo _ _ _ => Ok lo;
  k_coherence_metrics := k_coherence_metrics calm;
  k_convergence := k_convergence calm;
  k_wait := fun _ _ _ => Raise (Exn TimeoutError "");
  k_future_result := k_future_result calm
|}.

Definition two_futures : list Future := [Fut "batch-0"; Fut "batch-1"].

(** The corpus of [docs] under the reference dictionary. *)
Definition corpus2 : list bow := [[(0, 1); (1, 1)]; [(1, 2); (2, 1)]]%nat.

Definition corpus3 : list bow := [[(0, 1); (1, 1)]; [(1, 2); (2, 1)]; [(0, 2)]]%nat.

(** The batch-size estimate of the executor (bounds 1 and 15) raises; the
    one of the coherence stage (bounds 5 and 50) does not. *)
Definition no_batch_estimate : knobs := {|
  k_doc2bow := k_doc2bow calm;
  k_estimate := fun _ lo hi _ _ =>
    if Z.eqb lo 1 then Raise (Exn RuntimeError "no estimate") else Ok hi;
  k_coherence_metrics := k_coherence_metrics calm;
  k_convergence := k_convergence calm;
  k_wait := k_wait calm;
  k_future_result := k_future_result calm
|}.

Definition docs : list pyval :=
  [ PList [PStr "alpha"; PStr "beta"]; PList [PStr "beta"; PStr "gamma"; PStr "beta"] ].

Definition args_of (phase : string) (data : Delayed (list pyval)) : Args := {|
  data_source := "corpus.json";
  n_topics := 5;
  alpha_str := PriorName "symmetric";
  beta_str := PriorNum (1 # 100);
  zip_path := "zip";
  pylda_path := "pylda";
  pca_path := "pca";
  pca_gpu_path := "pca_gpu";
  unified_dictionary := [("zeta", 0); ("beta", 1); ("alpha", 2); ("gamma", 3)]%nat;
  validation_test_data := data;
  phase := phase;
  random_state := 42;
  passes := 1;
  iterations := 10;
  update_every := 1;
  eval_every := 1;
  cores := 4;
  per_word_topics := true;
  ldamodel_parameter := if String.eqb phase "train" then None else Some (Model 0)
|}.

Definition train_args : Args := args_of "train" (Ok docs).

Definition validation_args : Args := args_of "validation" (Ok docs).

End Ref.

(** ** Notions the statements use *)

(** [json.dumps] never yields the empty text. *)
Definition json_nonempty (W : World) : Prop :=
  forall enc v text, json_dumps W enc v = Ok text -> text <> "".

(** A metric function that raises whatever it is called on. *)
Definition always_raises {A B C D} (f : A -> B -> C -> res D) : Prop :=
  forall a b c, exists e, f a b c = Raise e.

(** The five statistics after the degraded mode of l.293-298. *)
Definition fallback5 (L : Lib) : coherence5 :=
  let v := coherence_fallback L in (v, v, v, v, v).

(** The resampling stage of l.270-292 fails on every call. *)
Definition coherence_fails (W : World) (a : Args) : Prop :=
  forall m docs task max_attempts,
    exists e, compute_coherence W a m docs task max_attempts = Raise e.

(** The record keys of the five coherence statistics. *)
Definition coherence_keys : list string :=
  ["coherence"; "mean_coherence"; "median_coherence"; "mode_coherence"; "std_coherence"].

(** The two log messages counted in the statements on the executor. *)
Definition unresolved_fmt : string := "Unresolved task after retry: {future.key}".

Definition fetch_error_fmt : string :=
  "Error in topic_model_trainer/[r.result() for r in done_batches]: {e}".

Definition fetched (r : res value) : bool :=
  match r with Ok _ => true | Raise _ => false end.

(** The futures of the submissions up to the first one that raises. *)
Fixpoint submitted (W : World) (m : pymodel) (idx : nat) (batches : list batch)
  : list Future :=
  match batches with
  | [] => []
  | b :: rest =>
      match client_submit W idx m b with
      | Ok future => future :: submitted W m (S idx) rest
      | Raise _ => []
      end
  end.

(** What the log gets from l.439-442. *)
Definition failed_logs (W : World) (done_batches : list Future) : list logrec :=
  flat_map (fun future =>
              if future_is_error W future
              then [Log ERROR "Future failed with exception: {future.exception()}" [AOmitted];
                    Log ERROR "SOURCE OF ERROR FOUND(1)" []]
              else []) done_batches.

Definition unresolved_logs (retry_not_done : list Future) : list logrec :=
  map (fun future => Log ERROR unresolved_fmt [AStr (key future)]) retry_not_done.

(** The bag of words of one document against dictionary [d]: none for a
    document that is empty, is not iterable, or that [doc2bow] refuses. *)
Definition convert (W : World) (d : Dictionary) (doc : pyval) : option bow :=
  match py_list doc with
  | Ok (token :: tokens) =>
      match doc2bow W d (token :: tokens) with
      | Ok bow_out => Some bow_out
      | Raise _ => None
      end
  | _ => None
  end.

(** The conversions that succeed, in the order of the documents. *)
Fixpoint converted (W : World) (d : Dictionary) (docs : list pyval) : list bow :=
  match docs with
  | [] => []
  | doc :: rest =>
      match convert W d doc with
      | Some bow_out => bow_out :: converted W d rest
      | None => converted W d rest
      end
  end.

(** An item that is neither a string nor a list. *)
Definition unexpected (doc : pyval) : bool := negb (is_str doc) && negb (is_list doc).

(** The item at which the first loop of the normaliser raises. *)
Fixpoint first_unexpected (idx : nat) (docs : list pyval) : option (nat * pyval) :=
  match docs with
  | [] => None
  | doc :: rest =>
      if truthy doc && unexpected doc then Some (idx, doc)
      else first_unexpected (S idx) rest
  end.

(** The error of l.100. *)
Definition unexpected_type_error (idx : nat) (doc : pyval) : exn :=
  Exn ValueError
    ("Unexpected type at index " ++ str_nat idx ++
     ". Expected list or string, got: " ++ type_repr doc).

Definition compute_error_fmt : string := "Error computing validation_test_data data: {e}".

(** A Python sequence among the raw items: a string, a list or a tuple. *)
Definition is_sequence (doc : pyval) : bool :=
  match doc with
  | PStr _ | PList _ | PTuple _ => true
  | _ => false
  end.

(** The item at which the second loop of the normaliser raises when the
    first one has run to its end: the first falsy item that is not a list. *)
Fixpoint first_falsy_non_list (idx : nat) (docs : list pyval) : option (nat * pyval) :=
  match docs with
  | [] => None
  | doc :: rest =>
      if negb (truthy doc) && negb (is_list doc) then Some (idx, doc)
      else first_falsy_non_list (S idx) rest
  end.

(** The error of l.106. *)
Definition invalid_structure_error (idx : nat) : exn :=
  Exn ValueError ("Document at index " ++ str_nat idx ++ " contains invalid structure.").

(** The one error that the handler of l.112 logs for a collection the
    normaliser rejects. *)
Definition normalization_error (docs : list pyval) : option exn :=
  match first_unexpected 0 docs with
  | Some (idx, doc) => Some (unexpected_type_error idx doc)
  | None => option_map (fun p => invalid_structure_error (fst p)) (first_falsy_non_list 0 docs)
  end.

(** What holds of the locals a returned record was built from. *)
Record run_facts (L : Lib) (W : World) (a : Args) (v : locals) : Prop := {
  rf_phase : phase a = "train";
  rf_corpus : l_corpus_to_pickle v = "";
  rf_nll : l_negative_log_likelihood v = DEFAULT_SCORE;
  rf_top_topics : json_nonempty W -> l_topic_words_jsonb v = VStr placeholder_json;
  rf_metrics :
    exists m corpus,
      calculate_perplexity_threshold W m corpus DEFAULT_SCORE = Ok (l_threshold v) /\
      calculate_convergence W m corpus DEFAULT_SCORE = Ok (l_convergence_score v) /\
      calculate_perplexity_score W m corpus DEFAULT_SCORE = Ok (l_perplexity_score v);
  rf_coherence :
    exists m docs task max_attempts,
      match compute_coherence W a m docs task max_attempts with
      | Ok c => l_coherence v = c
      | Raise _ => l_coherence v = fallback5 L
      end
}.

(** [r] is a record a run on [a] can return. *)
Definition record_of_run (L : Lib) (W : World) (a : Args) (r : record) : Prop :=
  exists v, r = db_data_of (current_increment_data L W a v) /\ run_facts L W a v.

(** ** Reasoning about the body

    [returns_only m P]: whenever [m] executes [return] with a record, the
    record satisfies [P].  [normally m Q]: whenever [m] falls through, its
    value satisfies [Q].  Both follow the syntax of the body. *)

Definition returns_only {A} (m : M A) (P : record -> Prop) : Prop :=
  forall lg r lg', m lg = (Return_ (Some r), lg') -> P r.

Definition normally {A} (m : M A) (Q : A -> Prop) : Prop :=
  forall lg a lg', m lg = (Normal a, lg') -> Q a.

Section Rules.

Context {A B : Type}.
Variable P : record -> Prop.

Lemma ro_ret (a : A) : returns_only (ret a) P.
Proof. intros lg r lg' H. discriminate H. Qed.

Lemma ro_logging lv fmt args : returns_only (logging lv fmt args) P.
Proof. intros lg r lg' H. discriminate H. Qed.

Lemma ro_raise (e : exn) : returns_only (raise e : M A) P.
Proof. intros lg r lg' H. discriminate H. Qed.

Lemma ro_sys_exit : returns_only (sys_exit : M A) P.
Proof. intros lg r lg' H. discriminate H. Qed.

Lemma ro_return_none : returns_only (return_ None : M A) P.
Proof. intros lg r lg' H. discriminate H. Qed.

Lemma ro_return_some (r : record) : P r -> returns_only (return_ (Some r) : M A) P.
Proof. intros Hr lg r' lg' H. inversion H; subst. exact Hr. Qed.

Lemma ro_call (x : res A) : returns_only (call x) P.
Proof. destruct x; [apply ro_ret | apply ro_raise]. Qed.

Lemma ro_dask_delayed (x : res A) : returns_only (dask_delayed x) P.
Proof. intros lg r lg' H. discriminate H. Qed.

Lemma ro_read_local name (v : option A) : returns_only (read_local name v) P.
Proof. destruct v; [apply ro_ret | apply ro_raise]. Qed.

Lemma ro_bind (m : M A) (f : A -> M B) :
  returns_only m P -> (forall a, returns_only (f a) P) -> returns_only (bind m f) P.
Proof.
  intros Hm Hf lg r lg' H. unfold bind in H.
  destruct (m lg) as [[a | r0 | e |] lg1] eqn:E.
  - eapply Hf; eauto.
  - inversion H; subst. eapply Hm; eauto.
  - discriminate H.
  - discriminate H.
Qed.

(** The same with what is known of the value [m] falls through with. *)
Lemma ro_bind_post (Q : A -> Prop) (m : M A) (f : A -> M B) :
  returns_only m P -> normally m Q -> (forall a, Q a -> returns_only (f a) P) ->
  returns_only (bind m f) P.
Proof.
  intros Hm HQ Hf lg r lg' H. unfold bind in H.
  destruct (m lg) as [[a | r0 | e |] lg1] eqn:E.
  - eapply Hf; eauto.
  - inversion H; subst. eapply Hm; eauto.
  - discriminate H.
  - discriminate H.
Qed.

Lemma ro_try_except (body : M A) (handler : exn -> M A) :
  returns_only body P -> (forall e, returns_only (handler e) P) ->
  returns_only (try_except body handler) P.
Proof.
  intros Hb Hh lg r lg' H. unfold try_except in H.
  destruct (body lg) as [[a | r0 | e |] lg1] eqn:E.
  - discriminate H.
  - inversion H; subst. eapply Hb; eauto.
  - eapply Hh; eauto.
  - discriminate H.
Qed.

Lemma ro_try_except_TypeError (body : M A) (handler : exn -> M A) :
  returns_only body P -> (forall e, returns_only (handler e) P) ->
  returns_only (try_except_TypeError body handler) P.
Proof.
  intros Hb Hh lg r lg' H. unfold try_except_TypeError in H.
  destruct (body lg) as [[a | r0 | e |] lg1] eqn:E.
  - discriminate H.
  - inversion H; subst. eapply Hb; eauto.
  - destruct (is_TypeError e); [eapply Hh; eauto | discriminate H].
  - discriminate H.
Qed.

(** A statement after one that raises is not reached. *)
Lemma ro_bind_raise (e : exn) (f : A -> M B) : returns_only (bind (raise e) f) P.
Proof. intros lg r lg' H. discriminate H. Qed.

End Rules.

Create HintDb ro discriminated.
#[export] Hint Resolve ro_ret ro_logging ro_raise ro_sys_exit ro_return_none ro_call
  ro_dask_delayed ro_read_local ro_bind_raise : ro.

(** One pass over a statement: split sequences and handlers, case on what a
    [match] or [if] inspects, close the leaves with the rules. *)
Ltac ro_step :=
  match goal with
  | |- forall _, _ => intro
  | |- returns_only (bind _ _) _ => apply ro_bind
  | |- returns_only (try_except _ _) _ => apply ro_try_except
  | |- returns_only (try_except_TypeError _ _) _ => apply ro_try_except_TypeError
  | |- returns_only (match ?x with _ => _ end) _ => destruct x
  | |- returns_only _ _ => solve [auto with ro]
  end.

Ltac ro := repeat ro_step.

Section BodyFacts.

Variable L : Lib.
Variable W : World.

(** *** No stage but the last returns a record *)

Section NoRecord.

Variable P : record -> Prop.

Lemma ro_coerce_docs docs : forall idx, returns_only (coerce_docs L idx docs) P.
Proof. induction docs as [|doc rest IH]; intros idx; simpl; ro. Qed.

Lemma ro_check_docs docs : forall idx, returns_only (check_docs idx docs) P.
Proof. induction docs as [|doc rest IH]; intros idx; simpl; ro. Qed.

#[local] Hint Resolve ro_coerce_docs ro_check_docs : ro.

Lemma ro_normalize data : returns_only (normalize L data) P.
Proof. unfold normalize, log_compute_error. ro. Qed.

Lemma ro_unwrap_batch local : returns_only (unwrap_batch local) P.
Proof. unfold unwrap_batch. ro. Qed.

Lemma ro_build_dictionary docs : returns_only (build_dictionary W docs) P.
Proof. unfold build_dictionary. ro. Qed.

Lemma ro_append_bow phase st b : returns_only (append_bow phase st b) P.
Proof. unfold append_bow. ro. Qed.

#[local] Hint Resolve ro_normalize ro_unwrap_batch ro_build_dictionary ro_append_bow : ro.

Lemma ro_bow_document phase d doc st : returns_only (bow_document W phase d doc st) P.
Proof. unfold bow_document. ro. Qed.

#[local] Hint Resolve ro_bow_document : ro.

Lemma ro_bow_loop phase d docs : forall st, returns_only (bow_loop W phase d docs st) P.
Proof. induction docs as [|doc rest IH]; intros st; simpl; ro. Qed.

#[local] Hint Resolve ro_bow_loop : ro.

Lemma ro_corpus_builder a docs : returns_only (corpus_builder W a docs) P.
Proof. unfold corpus_builder. ro. Qed.

Lemma ro_read_corpus phase st : returns_only (read_corpus phase st) P.
Proof. unfold read_corpus. ro. Qed.

Lemma ro_model_stage a corpus n_alpha n_beta chunksize :
  returns_only (model_stage L W a corpus n_alpha n_beta chunksize) P.
Proof. unfold model_stage. ro. Qed.

Lemma ro_compute_model_bytes b : returns_only (compute_model_bytes b) P.
Proof. unfold compute_model_bytes. ro. Qed.

Lemma ro_threshold_task a m corpus : returns_only (threshold_task W a m corpus) P.
Proof. unfold threshold_task. ro. Qed.

Lemma ro_coherence_task a m docs : returns_only (coherence_task W a m docs) P.
Proof. unfold coherence_task. ro. Qed.

Lemma ro_coherence_stage a m docs task max_attempts :
  returns_only (coherence_stage L W a m docs task max_attempts) P.
Proof. unfold coherence_stage. ro. Qed.

Lemma ro_convergence_task m corpus : returns_only (convergence_task W m corpus) P.
Proof. unfold convergence_task. ro. Qed.

Lemma ro_perplexity_task m corpus : returns_only (perplexity_task W m corpus) P.
Proof. unfold perplexity_task. ro. Qed.

Lemma ro_extract_topics m num_words : returns_only (extract_topics W m num_words) P.
Proof. unfold extract_topics. ro. Qed.

Lemma ro_serialize_topics a task payload : returns_only (serialize_topics W a task payload) P.
Proof. unfold serialize_topics. ro. Qed.

Lemma ro_make_batches a corpus : returns_only (make_batches W a corpus) P.
Proof. unfold make_batches. ro. Qed.

Lemma ro_submit_loop m total batches :
  forall idx futures, returns_only (submit_loop W m total idx batches futures) P.
Proof. induction batches as [|b rest IH]; intros idx futures; simpl; ro. Qed.

Lemma ro_log_failed done_batches : returns_only (log_failed W done_batches) P.
Proof. induction done_batches as [|f rest IH]; simpl; ro. Qed.

Lemma ro_log_unresolved fs : returns_only (log_unresolved fs) P.
Proof. induction fs as [|f rest IH]; simpl; ro. Qed.

#[local] Hint Resolve ro_corpus_builder ro_read_corpus ro_model_stage ro_compute_model_bytes
  ro_threshold_task ro_coherence_task ro_coherence_stage ro_convergence_task
  ro_perplexity_task ro_extract_topics ro_serialize_topics ro_make_batches ro_submit_loop
  ro_log_failed ro_log_unresolved : ro.

Lemma ro_retry_unresolved not_done : returns_only (retry_unresolved W not_done) P.
Proof. unfold retry_unresolved. ro. Qed.

#[local] Hint Resolve ro_retry_unresolved : ro.

Lemma ro_gather futures : returns_only (gather W futures) P.
Proof. unfold gather. ro. Qed.

#[local] Hint Resolve ro_gather : ro.

Lemma ro_batch_executor a m corpus : returns_only (batch_executor W a m corpus) P.
Proof. unfold batch_executor. ro. Qed.

Lemma ro_serialize_validation a results : returns_only (serialize_validation L W a results) P.
Proof. unfold serialize_validation. ro. Qed.

Lemma ro_log_value_types kv : returns_only (log_value_types kv) P.
Proof. induction kv as [|[k v] rest IH]; simpl; ro. Qed.

#[local] Hint Resolve ro_log_value_types : ro.

Lemma ro_log_item_types items : returns_only (log_item_types items) P.
Proof. induction items as [|v rest IH]; simpl; ro. Qed.

Lemma ro_topic_words_cascade a v e : returns_only (topic_words_cascade L W a v e) P.
Proof. unfold topic_words_cascade. ro. Qed.

Lemma ro_test_show_topic m : returns_only (test_show_topic W m) P.
Proof. unfold test_show_topic. ro. Qed.

#[local] Hint Resolve ro_log_item_types ro_topic_words_cascade ro_test_show_topic : ro.

Lemma ro_topic_words_block a m docs results :
  returns_only (topic_words_block L W a m docs results) P.
Proof. unfold topic_words_block. ro. Qed.

Lemma ro_flatten_batch docs : returns_only (flatten_batch docs) P.
Proof. unfold flatten_batch. ro. Qed.

Lemma ro_warn_placeholder name payload : returns_only (warn_placeholder name payload) P.
Proof. unfold warn_placeholder. ro. Qed.

Lemma ro_log_ndarrays db : returns_only (log_ndarrays db) P.
Proof. induction db as [|[k v] rest IH]; simpl; ro. Qed.

End NoRecord.

#[local] Hint Resolve ro_coerce_docs ro_check_docs ro_normalize ro_unwrap_batch
  ro_build_dictionary ro_append_bow ro_bow_document ro_bow_loop ro_corpus_builder
  ro_read_corpus
  ro_model_stage ro_compute_model_bytes ro_threshold_task ro_coherence_task
  ro_coherence_stage ro_convergence_task ro_perplexity_task ro_extract_topics
  ro_serialize_topics ro_make_batches ro_submit_loop ro_log_failed ro_log_unresolved
  ro_retry_unresolved ro_gather ro_batch_executor ro_serialize_validation
  ro_log_value_types ro_log_item_types ro_topic_words_cascade ro_test_show_topic
  ro_topic_words_block ro_flatten_batch ro_warn_placeholder ro_log_ndarrays : ro.

(** *** What the stages fall through with *)

Ltac run_m :=
  unfold bind, call, ret, raise, return_, sys_exit, logging, dask_delayed, try_except,
    try_except_TypeError in *.

Lemma n_call {A} (x : res A) : normally (call x) (fun a => x = Ok a).
Proof. intros lg a lg' H. destruct x; run_m; congruence. Qed.

Lemma n_model_stage a corpus n_alpha n_beta chunksize :
  normally (model_stage L W a corpus n_alpha n_beta chunksize)
    (fun p => (phase a = "train" /\ exists task, snd p = DelayedBytes task) \/
              (phase a <> "train" /\ exists b, snd p = EagerBytes b)).
Proof.
  intros lg [m b] lg' H. unfold model_stage in H.
  destruct (String.eqb (phase a) "validation" || String.eqb (phase a) "test") eqn:E.
  - right. split.
    + intros Ht. rewrite Ht in E. discriminate E.
    + run_m. destruct (pickle_model L (ldamodel_parameter a)); inversion H; subst.
      simpl. eauto.
  - destruct (String.eqb (phase a) "train") eqn:Et.
    + left. split; [apply String.eqb_eq; exact Et |].
      run_m.
      destruct (py_float L n_alpha); [| discriminate H].
      destruct (py_float L n_beta); [| discriminate H].
      destruct (LdaModel_new W _ _ _); inversion H; subst. simpl. eauto.
    + discriminate H.
Qed.

Lemma n_threshold_task a m corpus :
  normally (threshold_task W a m corpus)
    (fun t => t = calculate_perplexity_threshold W m corpus DEFAULT_SCORE).
Proof. intros lg t lg' H. unfold threshold_task in H. run_m. simpl in H. inversion H. reflexivity. Qed.

Lemma n_convergence_task m corpus :
  normally (convergence_task W m corpus)
    (fun t => t = calculate_convergence W m corpus DEFAULT_SCORE).
Proof. intros lg t lg' H. unfold convergence_task in H. run_m. simpl in H. inversion H. reflexivity. Qed.

Lemma n_perplexity_task m corpus :
  normally (perplexity_task W m corpus)
    (fun t => t = calculate_perplexity_score W m corpus DEFAULT_SCORE).
Proof. intros lg t lg' H. unfold perplexity_task in H. run_m. simpl in H. inversion H. reflexivity. Qed.

Lemma n_coherence_stage a m docs task max_attempts :
  normally (coherence_stage L W a m docs task max_attempts)
    (fun c => match compute_coherence W a m docs task max_attempts with
              | Ok c' => c = c'
              | Raise _ => c = fallback5 L
              end).
Proof.
  intros lg c lg' H. unfold coherence_stage in H. run_m.
  destruct (compute_coherence W a m docs task max_attempts); inversion H; reflexivity.
Qed.

Lemma sentinel_json_nonempty phase : sentinel_json phase <> "".
Proof. unfold sentinel_json. simpl. discriminate. Qed.

Lemma n_serialize_validation a results :
  normally (serialize_validation L W a results) (fun text => json_nonempty W -> text <> "").
Proof.
  intros lg text lg' H Hne. unfold serialize_validation, third_attempt in H. run_m.
  destruct (json_dumps W DefaultHook (VList results)) eqn:E1.
  { inversion H; subst. eapply Hne; eauto. }
  destruct (json_dumps W NumpyEnc (VList results)) eqn:E2.
  { inversion H; subst. eapply Hne; eauto. }
  destruct (json_dumps W Plain (VList results)) eqn:E3.
  { inversion H; subst. eapply Hne; eauto. }
  inversion H; subst. apply sentinel_json_nonempty.
Qed.


(** *** The records the function returns *)

Ltac step := apply ro_bind; [solve [ro] | intro].
Ltac step_post lem := eapply ro_bind_post; [solve [ro] | apply lem | intro; intro].

Lemma returned_record a :
  returns_only (train_model_v2 L W a) (record_of_run L W a).
Proof.
  unfold train_model_v2. cbv zeta.
  step. step. step.
  apply ro_bind; [solve [ro] | intros [dictionary st]].
  step. step. step.
  eapply ro_bind_post;
    [solve [ro] | apply n_model_stage | intros [ldamodel ldamodel_bytes] Hstage].
  step_post n_threshold_task.
  step. step.
  step_post n_coherence_stage.
  step_post n_convergence_task.
  step_post n_perplexity_task.
  step.
  apply ro_bind; [solve [ro] | intros [task payload]].
  step.
  apply ro_bind; [solve [ro] | intros [results batch_size]].
  step_post n_serialize_validation.
  eapply ro_bind_post with (Q := fun v => json_nonempty W -> v = VStr placeholder_json);
    [solve [ro] | | intros topic_words_jsonb Htw].
  { intros lg v lg' Hn Hne. destruct (String.eqb _ "") eqn:E.
    - apply String.eqb_eq in E. exfalso. exact (H3 Hne E).
    - inversion Hn. reflexivity. }
  step.
  step_post (@n_call value). step_post (@n_call value). step_post (@n_call value).
  step. step. step. step. step. step.
  destruct Hstage as [[Hphase [t Ht]] | [_ [b Hb]]]; simpl in *; subst ldamodel_bytes;
    [| apply ro_bind_raise].
  step.
  apply ro_bind; [solve [ro] | intros _].
  apply ro_return_some.
  eexists. split; [reflexivity |].
  subst. constructor; simpl; auto.
  - exists ldamodel. eexists. repeat split; eassumption.
  - exists ldamodel. do 3 eexists. exact H0.
Qed.

End BodyFacts.

Lemma invoke_record (L : Lib) (W : World) (a : Args) (r : record) :
  invoke L W a = Returns (Some r) -> record_of_run L W a r.
Proof.
  unfold invoke, run. intros H.
  destruct (train_model_v2 L W a []) as [[u | r0 | e |] lg] eqn:E; simpl in H;
    inversion H; subst.
  eapply returned_record; eauto.
Qed.

(** The fields of a record are those of the dict literal, converted. *)
Lemma get_db_field (L : Lib) (W : World) (a : Args) (v : locals) (k : string) :
  get k (db_data_of (current_increment_data L W a v)) =
  option_map safe_serialize_for_postgres (get k (current_increment_data L W a v)).
Proof.
  unfold db_data_of. induction (current_increment_data L W a v) as [|[k' x] rest IH].
  - reflexivity.
  - simpl. destruct (String.eqb k k'); [reflexivity | exact IH].
Qed.

Ltac read_field v :=
  rewrite get_db_field; destruct v as [? ? ? ? ? ? ? ? ? ? ? ? ? ? ? ? [[[[? ?] ?] ?] ?] ? ? ? ?];
  simpl in *.

(** ** Sanity of the small functions *)

Example str_nat_0 : str_nat 0 = "0".
Proof. reflexivity. Qed.

Example str_nat_120 : str_nat 120 = "120".
Proof. reflexivity. Qed.

Example str_Z_neg : str_Z (-15) = "-15".
Proof. reflexivity. Qed.

Example chunks_by_2 : chunks 5 2 [1; 2; 3; 4; 5]%nat = [[1; 2]; [3; 4]; [5]]%nat.
Proof. reflexivity. Qed.

Example linspace_ends :
  hd_error fallback_coherence_values = Some (1 # 100) /\
  nth_error fallback_coherence_values 9 = Some (1 # 2).
Proof. split; reflexivity. Qed.

Example sentinel_validation :
  sentinel_json "validation" =
  String.concat dquote
    ["{"; "error"; ": "; "Validation data generation failed"; ", "; "phase"; ": ";
     "validation"; "}"].
Proof. reflexivity. Qed.

(** l.190: the chunk size is at least 1, and the fifth of the corpus size
    when that is at least 1. *)
Lemma chunksize_of_spec (n : nat) :
  (1 <= chunksize_of n)%nat /\ ((1 <= n / 5)%nat -> chunksize_of n = (n / 5)%nat).
Proof. unfold chunksize_of. split; lia. Qed.

(** ** The claims *)

Unset Implicit Arguments.

(** C9. Every record the function returns has the empty string in its
    'corpus' field: [corpus_to_pickle] is set to '' at l.154 and nothing
    assigns it afterwards. *)
Theorem corpus_field_is_empty (L : Lib) (W : World) (a : Args) (r : record) :
  invoke L W a = Returns (Some r) -> get "corpus" r = Some (VStr "").
Proof.
  intros H. apply invoke_record in H. destruct H as [v [-> F]].
  pose proof (rf_corpus F) as Hc. read_field v. subst. reflexivity.
Qed.

Lemma corpus_field_is_empty_witness :
  exists r, invoke Ref.lib Ref.world Ref.train_args = Returns (Some r) /\
            get "corpus" r = Some (VStr "").
Proof.
  eexists. split.
  - vm_compute. reflexivity.
  - apply (corpus_field_is_empty Ref.lib Ref.world Ref.train_args). vm_compute. reflexivity.
Defined.

(** C10. Every record the function returns has the default score 0.25 in
    its 'nll' field: [negative_log_likelihood] is set to [DEFAULT_SCORE] at
    l.207 and nothing computes or overwrites it. *)
Theorem nll_field_is_default (L : Lib) (W : World) (a : Args) (r : record) :
  invoke L W a = Returns (Some r) -> get "nll" r = Some (VFloat (1 # 4)).
Proof.
  intros H. apply invoke_record in H. destruct H as [v [-> F]].
  pose proof (rf_nll F) as Hc. read_field v. subst. reflexivity.
Qed.

Lemma nll_field_is_default_witness :
  exists r, invoke Ref.lib Ref.world Ref.train_args = Returns (Some r) /\
            get "nll" r = Some (VFloat (1 # 4)).
Proof.
  eexists. split.
  - vm_compute. reflexivity.
  - apply (nll_field_is_default Ref.lib Ref.world Ref.train_args). vm_compute. reflexivity.
Defined.

(** C1. The scenario of the claim does not end in a record.  In the
    validation phase [ldamodel_bytes] holds the bytes of [pickle.dumps]
    (l.212), and building the record calls [.compute()] on them (l.714): the
    call raises instead of returning, whatever the documents and the model. *)
Theorem validation_phase_returns_no_record (L : Lib) (W : World) (a : Args) :
  phase a = "validation" -> forall r, invoke L W a <> Returns (Some r).
Proof.
  intros Hv r H. apply invoke_record in H. destruct H as [v [_ F]].
  pose proof (rf_phase F) as Ht. rewrite Hv in Ht. discriminate Ht.
Qed.

Lemma validation_phase_returns_no_record_witness :
  invoke Ref.lib (Ref.world_of Ref.no_bow) Ref.validation_args =
    Raises (Exn AttributeError "'bytes' object has no attribute 'compute'") /\
  forall r, invoke Ref.lib (Ref.world_of Ref.no_bow) Ref.validation_args <> Returns (Some r).
Proof.
  split.
  - vm_compute. reflexivity.
  - apply (validation_phase_returns_no_record Ref.lib (Ref.world_of Ref.no_bow)
             Ref.validation_args).
    reflexivity.
Defined.

(** C7. A metric function that raises is not absorbed: the tasks of the
    perplexity threshold, the convergence and the perplexity are forced by
    the [dask.compute] of l.639, outside every handler, so when one of the
    three functions raises no record is returned. *)
Theorem metric_failure_returns_no_record (L : Lib) (W : World) (a : Args) :
  always_raises (calculate_perplexity_threshold W) \/
  always_raises (calculate_convergence W) \/
  always_raises (calculate_perplexity_score W) ->
  forall r, invoke L W a <> Returns (Some r).
Proof.
  intros Hraise r H. apply invoke_record in H. destruct H as [v [_ F]].
  destruct (rf_metrics F) as [m [corpus [Ht [Hc Hp]]]].
  destruct Hraise as [Hr | [Hr | Hr]];
    destruct (Hr m corpus DEFAULT_SCORE) as [e He]; congruence.
Qed.

Lemma metric_failure_returns_no_record_witness :
  invoke Ref.lib (Ref.world_of Ref.no_convergence) Ref.train_args =
    Raises (Exn RuntimeError "convergence failed") /\
  forall r, invoke Ref.lib (Ref.world_of Ref.no_convergence) Ref.train_args <>
            Returns (Some r).
Proof.
  split.
  - vm_compute. reflexivity.
  - apply (metric_failure_returns_no_record Ref.lib (Ref.world_of Ref.no_convergence)
             Ref.train_args).
    right. left. intros m corpus d. eexists. reflexivity.
Defined.

(** C3. The topic-word cascade is not applied: the extraction and its
    cascade (l.524-608) sit under [if not validation_results_jsonb], and that
    payload is never the empty text, so every returned record carries the
    placeholder of l.325 as its 'top_topics' payload. *)
Theorem top_topics_is_placeholder (L : Lib) (W : World) (a : Args) (r : record) :
  json_nonempty W -> invoke L W a = Returns (Some r) ->
  get "top_topics" r = Some (VStr placeholder_json).
Proof.
  intros Hne H. apply invoke_record in H. destruct H as [v [-> F]].
  pose proof (rf_top_topics F Hne) as Hc. read_field v. subst. reflexivity.
Qed.

Lemma ref_json_nonempty (k : Ref.knobs) : json_nonempty (Ref.world_of k).
Proof. intros enc v text H. simpl in H. inversion H. discriminate. Qed.

Lemma top_topics_is_placeholder_witness :
  exists r, invoke Ref.lib Ref.world Ref.train_args = Returns (Some r) /\
            get "top_topics" r = Some (VStr placeholder_json) /\
            show_topic_words Ref.world (Some (Model 1)) = Ok (VList [VList [VStr "word"]]).
Proof.
  eexists. split; [| split].
  - vm_compute. reflexivity.
  - apply (top_topics_is_placeholder Ref.lib Ref.world Ref.train_args).
    + apply ref_json_nonempty.
    + vm_compute. reflexivity.
  - reflexivity.
Defined.

(** C8. When the resampling stage fails, the five coherence statistics are
    one and the same value: the draw, by a generator freshly seeded with
    8241984, from the ten values of [np.linspace(0.01, 0.5, 10)].  The value
    depends on nothing of the run, so every fallback of every run yields it;
    in a returned record it stands in the five coherence fields (as a plain
    float after the store conversion). *)
Theorem coherence_fallback_is_one_fixed_draw (L : Lib) :
  let q := rng_choice L coherence_seed fallback_coherence_values in
  coherence_seed = 8241984%Z /\
  List.length fallback_coherence_values = 10%nat /\
  In q fallback_coherence_values /\
  (forall W a m docs task max_attempts e lg,
     compute_coherence W a m docs task max_attempts = Raise e ->
     fst (coherence_stage L W a m docs task max_attempts lg) =
       Normal (VNpFloat q, VNpFloat q, VNpFloat q, VNpFloat q, VNpFloat q)) /\
  (forall W a r,
     coherence_fails W a -> invoke L W a = Returns (Some r) ->
     Forall (fun k => get k r = Some (VFloat q)) coherence_keys).
Proof.
  intros q. split; [reflexivity |]. split; [reflexivity |]. split; [| split].
  - unfold q, rng_choice. apply nth_In. apply rng_integers_lt.
    change (List.length fallback_coherence_values) with 10%nat. lia.
  - intros W a m docs task max_attempts e lg He.
    unfold coherence_stage, try_except, call. rewrite He. reflexivity.
  - intros W a r Hfail H. apply invoke_record in H. destruct H as [v [-> F]].
    destruct (rf_coherence F) as [m [docs [task [max_attempts Hc]]]].
    destruct (Hfail m docs task max_attempts) as [e He]. rewrite He in Hc.
    unfold coherence_keys. repeat constructor; read_field v;
      unfold fallback5, coherence_fallback in Hc; inversion Hc; reflexivity.
Qed.

Lemma coherence_fallback_is_one_fixed_draw_witness :
  exists r,
    invoke Ref.lib (Ref.world_of Ref.no_coherence) Ref.train_args = Returns (Some r) /\
    rng_choice Ref.lib coherence_seed fallback_coherence_values = 41 # 180 /\
    Forall (fun k => get k r = Some (VFloat (41 # 180))) coherence_keys.
Proof.
  eexists. split; [| split].
  - vm_compute. reflexivity.
  - vm_compute. reflexivity.
  - apply (proj2 (proj2 (proj2 (proj2 (coherence_fallback_is_one_fixed_draw Ref.lib))))
             (Ref.world_of Ref.no_coherence) Ref.train_args).
    + intros m docs task max_attempts. destruct task as [x | e].
      * eexists. reflexivity.
      * eexists. reflexivity.
    + vm_compute. reflexivity.
Defined.

(** *** The serialiser of the validation results *)

(** The cascade of l.480-513 always falls through, with the text of one of
    its three encoders or with the error sentinel of the phase. *)
Lemma serialize_validation_total (L : Lib) (W : World) (a : Args) (results : list value)
      (lg : list logrec) :
  exists text lg',
    serialize_validation L W a results lg = (Normal text, lg') /\
    (json_dumps W DefaultHook (VList results) = Ok text \/
     json_dumps W NumpyEnc (VList results) = Ok text \/
     json_dumps W Plain (VList results) = Ok text \/
     text = sentinel_json (phase a)).
Proof.
  unfold serialize_validation, third_attempt, try_except, call, bind, logging, ret, raise.
  destruct (json_dumps W DefaultHook (VList results)) eqn:E1; [eauto 6 |].
  destruct (json_dumps W NumpyEnc (VList results)) eqn:E2; [eauto 6 |].
  destruct (json_dumps W Plain (VList results)) eqn:E3; eauto 7.
Qed.

(** *** The batch executor *)

Lemma bind_normal {A B} (m : M A) (f : A -> M B) lg a lg' :
  m lg = (Normal a, lg') -> bind m f lg = f a lg'.
Proof. intros H. unfold bind. rewrite H. reflexivity. Qed.

Lemma bind_return {A B} (m : M A) (f : A -> M B) lg r lg' :
  m lg = (Return_ r, lg') -> bind m f lg = (Return_ r, lg').
Proof. intros H. unfold bind. rewrite H. reflexivity. Qed.

Lemma count_log_app lv fmt l1 l2 :
  count_log lv fmt (l1 ++ l2) = (count_log lv fmt l1 + count_log lv fmt l2)%nat.
Proof. unfold count_log. rewrite filter_app, length_app. reflexivity. Qed.

Lemma log_failed_run (W : World) done_batches lg :
  log_failed W done_batches lg = (Normal tt, lg ++ failed_logs W done_batches).
Proof.
  revert lg. induction done_batches as [|f rest IH]; intros lg; simpl.
  - unfold ret. rewrite app_nil_r. reflexivity.
  - unfold bind at 1. destruct (future_is_error W f); simpl.
    + rewrite IH. rewrite <- !app_assoc. reflexivity.
    + rewrite IH. reflexivity.
Qed.

Lemma log_unresolved_run fs lg :
  log_unresolved fs lg = (Normal tt, lg ++ unresolved_logs fs).
Proof.
  revert lg. induction fs as [|f rest IH]; intros lg; simpl.
  - unfold ret. rewrite app_nil_r. reflexivity.
  - unfold bind, logging. rewrite IH. rewrite <- app_assoc. reflexivity.
Qed.

Lemma count_failed_logs (W : World) fmt done_batches :
  fmt = unresolved_fmt \/ fmt = fetch_error_fmt ->
  count_log ERROR fmt (failed_logs W done_batches) = 0%nat.
Proof.
  intros Hf. induction done_batches as [|f rest IH]; simpl; [reflexivity |].
  rewrite count_log_app, IH.
  destruct (future_is_error W f); destruct Hf as [-> | ->]; reflexivity.
Qed.

Lemma count_unresolved_logs fs :
  count_log ERROR unresolved_fmt (unresolved_logs fs) = List.length fs /\
  count_log ERROR fetch_error_fmt (unresolved_logs fs) = 0%nat.
Proof.
  induction fs as [|f rest [IH1 IH2]]; simpl; [split; reflexivity |].
  unfold count_log in *. simpl. rewrite IH1, IH2. split; reflexivity.
Qed.

Lemma fetch_all_length (W : World) fs : forall vs,
  fetch_all W fs = Ok vs -> List.length vs = List.length fs.
Proof.
  induction fs as [|f rest IH]; simpl; intros vs H.
  - inversion H. reflexivity.
  - destruct (future_result W f 120); simpl in H; [| discriminate].
    destruct (fetch_all W rest); simpl in H; [| discriminate].
    inversion H; subst. simpl. f_equal. apply IH. reflexivity.
Qed.

(** Counting a message in a log built by appending. *)
Ltac count_logs :=
  rewrite ?count_log_app;
  repeat match goal with
         | |- context [count_log ?lv ?fmt [?x]] =>
             let n := eval vm_compute in (count_log lv fmt [x]) in
             change (count_log lv fmt [x]) with n
         end.

Lemma retry_unresolved_run (W : World) not_done retry_done retry_not_done lg :
  match not_done with
  | [] => retry_done = [] /\ retry_not_done = []
  | _ => exists retries,
           retry_all W not_done = Ok retries /\
           wait W 2 retries 300 = Ok (retry_done, retry_not_done)
  end ->
  exists lg',
    retry_unresolved W not_done lg = (Normal (retry_done, retry_not_done), lg') /\
    count_log ERROR unresolved_fmt lg' =
      (count_log ERROR unresolved_fmt lg + List.length retry_not_done)%nat /\
    count_log ERROR fetch_error_fmt lg' = count_log ERROR fetch_error_fmt lg.
Proof.
  intros H. destruct not_done as [|f rest].
  - destruct H as [-> ->]. exists lg. split; [reflexivity | split; simpl; lia].
  - destruct H as [retries [Hr Hw]].
    unfold retry_unresolved. unfold bind at 1. unfold logging at 1.
    unfold bind at 1. rewrite Hr. unfold call at 1, ret at 1.
    unfold bind at 1. rewrite Hw. unfold call at 1, ret at 1.
    destruct retry_not_done as [|u us].
    + eexists. unfold bind, ret. split; [reflexivity |].
      split; count_logs; simpl; lia.
    + unfold bind at 1. unfold bind at 1. unfold logging at 1.
      rewrite log_unresolved_run. unfold ret.
      eexists. split; [reflexivity |].
      destruct (count_unresolved_logs (u :: us)) as [H1 H2].
      split; count_logs; rewrite ?H1, ?H2; simpl; lia.
Qed.

Lemma submitted_length (W : World) (m : pymodel) (batches : list batch) :
  forall idx,
    (List.length (submitted W m idx batches) <= List.length batches)%nat /\
    ((forall i b, nth_error batches i = Some b ->
                  exists f, client_submit W (idx + i) m b = Ok f) ->
     List.length (submitted W m idx batches) = List.length batches) /\
    (forall i b e, nth_error batches i = Some b ->
                   client_submit W (idx + i) m b = Raise e ->
                   (List.length (submitted W m idx batches) <= i)%nat).
Proof.
  induction batches as [|b rest IH]; intros idx; simpl.
  - split; [lia |]. split; [reflexivity |]. intros [|i] b e H; discriminate H.
  - destruct (IH (S idx)) as [IH1 [IH2 IH3]].
    destruct (client_submit W idx m b) as [f | e0] eqn:E; simpl.
    + split; [lia |]. split.
      * intros Hall. f_equal. apply IH2. intros i b' Hn.
        replace (S idx + i)%nat with (idx + S i)%nat by lia. apply Hall. exact Hn.
      * intros [|i] b' e Hn He.
        -- simpl in Hn. inversion Hn; subst. rewrite Nat.add_0_r in He. congruence.
        -- simpl in Hn. replace (idx + S i)%nat with (S idx + i)%nat in He by lia.
           specialize (IH3 i b' e Hn He). lia.
    + split; [lia |]. split.
      * intros Hall. destruct (Hall 0%nat b eq_refl) as [f Hf].
        rewrite Nat.add_0_r in Hf. congruence.
      * intros. lia.
Qed.

Lemma submit_loop_run (W : World) (m : pymodel) (total : nat) (batches : list batch) :
  forall idx futures lg,
  exists lg',
    submit_loop W m total idx batches futures lg =
      (Normal (futures ++ submitted W m idx batches), lg').
Proof.
  induction batches as [|b rest IH]; intros idx fs lg0; simpl.
  - exists lg0. unfold ret. rewrite app_nil_r. reflexivity.
  - unfold bind at 1. unfold logging at 1.
    destruct (client_submit W idx m b) as [f | e].
    + unfold bind at 1. unfold logging at 1.
      destruct (IH (S idx) (fs ++ [f])
                  ((lg0 ++ [Log INFO "Submitting batch {idx + 1}: {batch[:5]}"
                              [ANat (idx + 1); AOmitted]]) ++
                   [Log INFO
                      "[get_document_topics] Submitted batch {batch_id}/{total_batches} in {elapsed_time:.2f} seconds."
                      [ANat (idx + 1); ANat total; AOmitted]])) as [lg' H].
      exists lg'. rewrite H. rewrite <- app_assoc. reflexivity.
    + eexists. unfold bind, logging, ret. rewrite app_nil_r. reflexivity.
Qed.

Lemma submit_loop_counts (W : World) (m : pymodel) (total : nat) (batches : list batch) :
  forall idx futures lg c lg',
    submit_loop W m total idx batches futures lg = (c, lg') ->
    count_log ERROR fetch_error_fmt lg' = count_log ERROR fetch_error_fmt lg.
Proof.
  induction batches as [|b rest IH]; intros idx fs lg c lg' H; simpl in H.
  - inversion H. reflexivity.
  - unfold bind at 1 in H. unfold logging at 1 in H.
    destruct (client_submit W idx m b) as [f | e].
    + unfold bind at 1 in H. unfold logging at 1 in H.
      rewrite (IH _ _ _ _ _ H). count_logs. lia.
    + unfold bind, logging, ret in H. inversion H. count_logs. lia.
Qed.

Lemma make_batches_counts (W : World) (a : Args) (corpus : list bow) lg c lg' :
  make_batches W a corpus lg = (c, lg') ->
  count_log ERROR fetch_error_fmt lg' = count_log ERROR fetch_error_fmt lg.
Proof.
  unfold make_batches. intros H.
  destruct (estimate_batches_large_docs_v2 W (data_source a) 1 15 (4 # 10) 3) as [est | e].
  - destruct (partition _ corpus) as [bs | e].
    + inversion H. reflexivity.
    + unfold bind, logging, ret in H. inversion H. count_logs. lia.
  - unfold bind, logging, ret in H. inversion H. count_logs. lia.
Qed.

(** C4 (amended). The futures of a run are those of the batches submitted
    before the first submission that raises, all N of them when none does.
    When the first wait (300 seconds) hands them all back as done, each
    result is fetched with a 120-second timeout inside one handler for the
    whole list (l.464-469): when every fetch succeeds the results are the
    fetched values, as many as there are futures, so N when all N batches
    were submitted; when one fetch raises, the error is logged once and the
    result list is empty, every batch's contribution dropped and not only
    the failing one.  Either way the executor falls through. *)
Theorem executor_result_count (W : World) (a : Args) (m : pymodel) (corpus : list bow)
        (batches : list batch) (batch_size : Z) (done : list Future)
        (lg lg1 : list logrec) :
  make_batches W a corpus lg = (Normal (batches, batch_size), lg1) ->
  wait W 1 (submitted W m 0 batches) 300 = Ok (done, []) ->
  Permutation done (submitted W m 0 batches) ->
  exists results lg',
    batch_executor W a m corpus lg = (Normal (results, batch_size), lg') /\
    match fetch_all W done with
    | Ok vs =>
        results = vs /\
        List.length results = List.length (submitted W m 0 batches) /\
        ((forall i b, nth_error batches i = Some b ->
                      exists f, client_submit W i m b = Ok f) ->
         List.length results = List.length batches) /\
        count_log ERROR fetch_error_fmt lg' = count_log ERROR fetch_error_fmt lg
    | Raise e =>
        results = [] /\
        count_log ERROR fetch_error_fmt lg' = S (count_log ERROR fetch_error_fmt lg)
    end.
Proof.
  intros Hmake Hwait Hperm.
  destruct (submit_loop_run W m (List.length batches) batches 0%nat [] lg1) as [lg2 Hs].
  change ([] ++ submitted W m 0 batches) with (submitted W m 0 batches) in Hs.
  pose proof (make_batches_counts W a corpus lg _ lg1 Hmake) as Hc1.
  pose proof (submit_loop_counts W m _ batches _ _ _ _ _ Hs) as Hc2.
  pose proof (Permutation_length Hperm) as Hlen.
  destruct (submitted_length W m batches 0) as [_ [Hall _]].
  unfold batch_executor. erewrite bind_normal by exact Hmake. cbv iota beta.
  unfold bind at 1, try_except. erewrite bind_normal by exact Hs.
  unfold gather. unfold bind at 1. rewrite Hwait. unfold call at 1, ret at 1.
  unfold bind at 1. rewrite log_failed_run.
  unfold bind at 1, retry_unresolved, ret at 1.
  rewrite app_nil_r.
  unfold bind at 1, try_except, bind at 1, call.
  destruct (fetch_all W done) as [vs | e] eqn:Hf.
  - unfold ret at 1, bind at 1, logging at 1, ret at 1, bind, logging, ret.
    eexists. eexists. split; [reflexivity |].
    apply fetch_all_length in Hf.
    split; [reflexivity |]. split; [lia |]. split.
    + intros Hsub. rewrite Hf, Hlen. apply Hall. exact Hsub.
    + count_logs. rewrite (count_failed_logs W fetch_error_fmt done) by auto. lia.
  - unfold raise at 1, bind at 1, logging at 1, ret at 1, bind, logging, ret.
    eexists. eexists. split; [reflexivity |]. split; [reflexivity |].
    count_logs. rewrite (count_failed_logs W fetch_error_fmt done) by auto. lia.
Qed.

Lemma executor_result_count_witness :
  exists lg',
    batch_executor (Ref.world_of Ref.one_per_batch) Ref.train_args (Some (Model 1))
      Ref.corpus2 [] = (Normal ([VStr "batch-0"; VStr "batch-1"], 1%Z), lg') /\
    count_log ERROR fetch_error_fmt lg' = 0%nat.
Proof.
  destruct (executor_result_count (Ref.world_of Ref.one_per_batch) Ref.train_args
              (Some (Model 1)) Ref.corpus2
              [DocsBatch [[(0, 1); (1, 1)]]; DocsBatch [[(1, 2); (2, 1)]]]%nat 1
              Ref.two_futures [] [])
    as [results [lg' [Hrun Hf]]].
  - reflexivity.
  - reflexivity.
  - apply Permutation_refl.
  - simpl in Hf. destruct Hf as [Hres [_ [_ Hc]]]. subst results.
    exists lg'. split; [exact Hrun | exact Hc].
Defined.

(** C4, as stated, fails twice.  Two batches of one document, both done, the
    fetch of the first one failing: one fetch succeeds, yet the result list
    is empty.  Three batches of one document, one of which never resolves,
    so that [wait] raises after its 300 seconds: the result is the
    one-element list of l.477, not the two results of the batches that did
    resolve, and no unresolved-task entry is logged. *)
Lemma fetch_failure_drops_every_batch :
  (exists results,
     fst (batch_executor (Ref.world_of Ref.lossy_fetch) Ref.train_args (Some (Model 1))
            Ref.corpus2 []) = Normal (results, 1%Z) /\
     List.length
       (filter (fun f => fetched (future_result (Ref.world_of Ref.lossy_fetch) f 120))
          Ref.two_futures) = 1%nat /\
     results = [] /\
     List.length results <> 1%nat) /\
  (exists results lg',
     batch_executor (Ref.world_of Ref.unresolved) Ref.train_args (Some (Model 1))
       Ref.corpus3 [] = (Normal (results, 1%Z), lg') /\
     results = executor_sentinel "train" /\
     List.length results <> (3 - 1)%nat /\
     count_log ERROR unresolved_fmt lg' = 0%nat).
Proof.
  split.
  - exists []. split; [vm_compute; reflexivity |]. split; [reflexivity |].
    split; [reflexivity | discriminate].
  - eexists. eexists. split; [vm_compute; reflexivity |].
    split; [reflexivity |]. split; [discriminate | reflexivity].
Qed.

(** C6. The batch size is the estimate for bounds 1 and 15, memory ratio
    0.4 and CPU factor 3, clamped to the corpus length, 5 when that is zero,
    and the batches are the slices of that size.  When the estimate raises,
    [corpus_batches] becomes the corpus itself (l.415): as many batches as
    there are documents, each one document's (id, count) pairs, and not one
    batch holding the entire corpus; [batch_size] stays -1. *)
Theorem batch_size_and_fallback (W : World) (a : Args) (corpus : list bow)
        (lg : list logrec) :
  (forall estimate,
     estimate_batches_large_docs_v2 W (data_source a) 1 15 (4 # 10) 3 = Ok estimate ->
     let clamped := Z.min (Z.of_nat (List.length corpus)) estimate in
     let batch_size := if Z.eqb clamped 0 then 5%Z else clamped in
     fst (make_batches W a corpus lg) =
       Normal (if Z.ltb batch_size 0 then []
               else map DocsBatch
                      (chunks (List.length corpus) (Z.to_nat batch_size) corpus),
               batch_size)) /\
  (forall e,
     estimate_batches_large_docs_v2 W (data_source a) 1 15 (4 # 10) 3 = Raise e ->
     fst (make_batches W a corpus lg) = Normal (map PairsBatch corpus, (-1)%Z) /\
     List.length (map PairsBatch corpus) = List.length corpus).
Proof.
  split.
  - intros estimate He clamped batch_size. unfold make_batches. rewrite He.
    fold clamped. fold batch_size. unfold partition.
    assert (Hz : Z.eqb batch_size 0 = false).
    { unfold batch_size. destruct (Z.eqb clamped 0) eqn:E; [reflexivity | exact E]. }
    rewrite Hz. destruct (Z.ltb batch_size 0); reflexivity.
  - intros e He. unfold make_batches. rewrite He. split; [reflexivity |].
    apply length_map.
Qed.

Lemma batch_size_and_fallback_witness :
  fst (make_batches (Ref.world_of Ref.calm) Ref.train_args Ref.corpus2 []) =
    Normal ([DocsBatch Ref.corpus2], 2%Z) /\
  fst (make_batches (Ref.world_of Ref.no_batch_estimate) Ref.train_args Ref.corpus2 []) =
    Normal ([PairsBatch [(0, 1); (1, 1)]; PairsBatch [(1, 2); (2, 1)]]%nat, (-1)%Z).
Proof.
  destruct (batch_size_and_fallback (Ref.world_of Ref.calm) Ref.train_args Ref.corpus2 [])
    as [Hok _].
  destruct (batch_size_and_fallback (Ref.world_of Ref.no_batch_estimate) Ref.train_args
              Ref.corpus2 []) as [_ Hraise].
  split.
  - exact (Hok 15%Z eq_refl).
  - exact (proj1 (Hraise (Exn RuntimeError "no estimate") eq_refl)).
Defined.

(** *** The corpus builder *)

Lemma bow_document_run (W : World) phase d doc st lg :
  phase_key phase = true ->
  exists lg',
    bow_document W phase d doc st lg =
      (Normal (match convert W d doc with
               | Some bow_out =>
                   BowState (corpus st ++ [bow_out]) (S (number_of_documents st))
                     (failed_convert_token_to_bow st)
               | None => count_failure st
               end), lg').
Proof.
  intros Hp. unfold bow_document, convert, append_bow. rewrite Hp.
  destruct doc as [| b | z | s | l | l]; simpl;
    unfold bind, ret, logging, try_except_TypeError, try_except, call, raise; simpl;
    try (eexists; reflexivity).
  - destruct (list_ascii_of_string s) as [|c cs]; simpl; [eexists; reflexivity |].
    destruct (doc2bow W d _); simpl; eexists; reflexivity.
  - destruct l as [|t ts]; simpl; [eexists; reflexivity |].
    destruct (doc2bow W d _); simpl; eexists; reflexivity.
  - destruct l as [|t ts]; simpl; [eexists; reflexivity |].
    destruct (doc2bow W d _); simpl; eexists; reflexivity.
Qed.

Lemma bow_loop_run (W : World) phase d docs :
  phase_key phase = true ->
  forall st lg,
  exists st' lg',
    bow_loop W phase d docs st lg = (Normal st', lg') /\
    corpus st' = corpus st ++ converted W d docs /\
    number_of_documents st' =
      (number_of_documents st + List.length (converted W d docs))%nat /\
    (number_of_documents st' + failed_convert_token_to_bow st')%nat =
      (number_of_documents st + failed_convert_token_to_bow st + List.length docs)%nat.
Proof.
  intros Hp. induction docs as [|doc rest IH]; intros st lg; simpl.
  - exists st, lg. unfold ret. rewrite app_nil_r. repeat split; lia.
  - destruct (bow_document_run W phase d doc st lg Hp) as [lg1 H1].
    unfold bind. rewrite H1.
    destruct (convert W d doc) as [bow_out |].
    + destruct (IH (BowState (corpus st ++ [bow_out]) (S (number_of_documents st))
                      (failed_convert_token_to_bow st)) lg1) as [st' [lg' [Hr [Hc [Hn Hs]]]]].
      exists st', lg'. simpl in *. rewrite Hr, Hc, Hn, <- app_assoc. repeat split; lia.
    + destruct (IH (count_failure st) lg1) as [st' [lg' [Hr [Hc [Hn Hs]]]]].
      exists st', lg'. simpl in *. rewrite Hr, Hc, Hn. repeat split; lia.
Qed.

Lemma build_dictionary_run (W : World) docs d lg :
  Dictionary_new W docs = Ok d -> d <> [] ->
  exists lg', build_dictionary W docs lg = (Normal d, lg').
Proof.
  intros Hd Hne. unfold build_dictionary, try_except_TypeError, call. rewrite Hd.
  unfold bind, ret, logging. destruct d as [|p d']; [congruence |].
  simpl. eexists. reflexivity.
Qed.

(** C5. What the code does where the claim has the conversion go against
    the unified vocabulary: the (id, count) pairs of every document are
    those of [doc2bow] on the dictionary built from the batch itself (l.138,
    l.176); the unified dictionary is not consulted, so the corpus is the
    same whatever it holds, although the model is trained on that corpus
    with the unified dictionary as [id2word] (l.218-220).  The documents
    that convert keep their order, every other one is counted as a failure,
    and the loop falls through. *)
Theorem corpus_uses_the_phase_dictionary (W : World) (a : Args) (docs : list pyval)
        (d : Dictionary) (lg : list logrec) :
  phase_key (phase a) = true ->
  Dictionary_new W docs = Ok d ->
  d <> [] ->
  (exists st lg',
     corpus_builder W a docs lg = (Normal (d, st), lg') /\
     corpus st = converted W d docs /\
     number_of_documents st = List.length (converted W d docs) /\
     (number_of_documents st + failed_convert_token_to_bow st)%nat = List.length docs) /\
  (forall a', phase a' = phase a ->
     corpus_builder W a' docs lg = corpus_builder W a docs lg).
Proof.
  intros Hp Hd Hne. split.
  - destruct (build_dictionary_run W docs d lg Hd Hne) as [lg1 Hb].
    destruct (bow_loop_run W (phase a) d docs Hp (BowState [] 0 0) lg1)
      as [st [lg' [Hr [Hc [Hn Hs]]]]].
    exists st, lg'. unfold corpus_builder.
    erewrite bind_normal by exact Hb. erewrite bind_normal by exact Hr. simpl in *.
    repeat split; auto.
  - intros a' Ha. unfold corpus_builder. rewrite Ha. reflexivity.
Qed.

Lemma corpus_uses_the_phase_dictionary_witness :
  exists st lg',
    corpus_builder Ref.world Ref.train_args Ref.docs [] =
      (Normal ([("alpha", 0); ("beta", 1); ("gamma", 2)]%nat, st), lg') /\
    corpus st = Ref.corpus2.
Proof.
  destruct (corpus_uses_the_phase_dictionary Ref.world Ref.train_args Ref.docs
              [("alpha", 0); ("beta", 1); ("gamma", 2)]%nat [])
    as [[st [lg' [Hr [Hc _]]]] _].
  - reflexivity.
  - reflexivity.
  - discriminate.
  - exists st, lg'. split; [exact Hr | exact Hc].
Defined.

(** C5 at the failing input: the corpus of the reference run has the ids of
    the batch's own dictionary (alpha 0, beta 1, gamma 2), not those of the
    unified dictionary (beta 1, alpha 2, gamma 3) against which the model
    reads them. *)
Lemma corpus_ignores_the_unified_dictionary :
  exists d st lg',
    corpus_builder Ref.world Ref.train_args Ref.docs [] = (Normal (d, st), lg') /\
    corpus st = [[(0, 1); (1, 1)]; [(1, 2); (2, 1)]]%nat /\
    converted Ref.world (unified_dictionary Ref.train_args) Ref.docs =
      [[(1, 1); (2, 1)]; [(1, 2); (3, 1)]]%nat /\
    corpus st <> converted Ref.world (unified_dictionary Ref.train_args) Ref.docs.
Proof.
  do 3 eexists. split; [vm_compute; reflexivity |].
  split; [reflexivity |]. split; [reflexivity |].
  vm_compute. discriminate.
Qed.

(** *** The normaliser *)

Lemma forallb_is_str_map (f : pyval -> string) (l : list pyval) :
  forallb is_str (map (fun t => PStr (f t)) l) = true.
Proof. induction l as [|x l IH]; simpl; [reflexivity | exact IH]. Qed.

Lemma coerce_docs_run (L : Lib) docs :
  forall idx lg,
  exists docs' stop lg',
    coerce_docs L idx docs lg = (Normal (docs', stop), lg') /\
    (existsb unexpected docs = true -> existsb unexpected docs' = true) /\
    stop = option_map (fun p => unexpected_type_error (fst p) (snd p))
             (first_unexpected idx docs) /\
    (forall x, In x lg -> In x lg').
Proof.
  induction docs as [|doc rest IH]; intros idx lg.
  - exists [], None, lg. simpl. unfold ret. auto.
  - simpl. destruct (truthy doc) eqn:T; simpl.
    + destruct doc as [| b | z | s | l | l]; simpl in T; try discriminate T; simpl.
      * eexists. eexists. eexists. unfold bind, logging, ret.
        split; [reflexivity |]. split; [auto |]. split; [reflexivity |].
        intros x Hx. apply in_or_app. left. exact Hx.
      * eexists. eexists. eexists. unfold bind, logging, ret.
        split; [reflexivity |]. split; [auto |]. split; [reflexivity |].
        intros x Hx. apply in_or_app. left. exact Hx.
      * destruct (IH (S idx) lg) as [docs' [stop [lg' [Hr [He [Hs Hl]]]]]].
        exists (PList [PStr s] :: docs'), stop, lg'. unfold bind. rewrite Hr.
        unfold ret. auto.
      * destruct (IH (S idx) lg) as [docs' [stop [lg' [Hr [He [Hs Hl]]]]]].
        eexists. exists stop, lg'. unfold bind. rewrite Hr. unfold ret.
        split; [reflexivity |]. auto.
      * eexists. eexists. eexists. unfold bind, logging, ret.
        split; [reflexivity |]. split; [auto |]. split; [reflexivity |].
        intros x Hx. apply in_or_app. left. exact Hx.
    + destruct (IH (S idx) (lg ++ [Log WARNING "Skipping empty document at index {idx}."
                                    [ANat idx]]))
        as [docs' [stop [lg' [Hr [He [Hs Hl]]]]]].
      exists (doc :: docs'), stop, lg'. unfold bind at 1. unfold logging at 1.
      unfold bind. rewrite Hr. unfold ret.
      split; [reflexivity |]. split; [| split; [exact Hs |]].
      * simpl. intros H. apply orb_true_iff in H. apply orb_true_iff.
        destruct H as [H | H]; [left; exact H | right; exact (He H)].
      * intros x Hx. apply Hl. apply in_or_app. left. exact Hx.
Qed.

Lemma check_docs_run docs :
  forall idx lg,
  exists lg',
    (check_docs idx docs lg = (Normal tt, lg') \/
     exists e, check_docs idx docs lg = (Raised e, lg')) /\
    (forall x, In x lg -> In x lg').
Proof.
  induction docs as [|doc rest IH]; intros idx lg; simpl.
  - exists lg. unfold ret. auto.
  - destruct (list_of_str doc); simpl.
    + apply IH.
    + eexists. unfold bind, logging, raise. split; [right; eexists; reflexivity |].
      intros x Hx. apply in_or_app. left. exact Hx.
Qed.

Lemma existsb_unexpected_not_lists docs :
  existsb unexpected docs = true -> forallb is_list docs = false.
Proof.
  induction docs as [|doc rest IH]; simpl; intros H; [discriminate H |].
  apply orb_true_iff in H. destruct H as [H | H].
  - unfold unexpected in H. apply andb_true_iff in H. destruct H as [_ H].
    destruct (is_list doc); [discriminate H | reflexivity].
  - rewrite (IH H). apply andb_false_r.
Qed.

Lemma unwrap_batch_run docs lg :
  existsb unexpected docs = true ->
  exists lg',
    unwrap_batch (Some docs) lg = (Return_ (A := list pyval) None, lg') /\
    (forall x, In x lg -> In x lg').
Proof.
  intros Hbad. pose proof (existsb_unexpected_not_lists docs Hbad) as Hnl.
  unfold unwrap_batch. simpl read_local.
  destruct docs as [|doc rest]; [discriminate Hbad |].
  assert (Hret : forall (m : M (list pyval)),
             m lg = (Normal (doc :: rest), lg) ->
             exists lg',
               bind m (fun batch_documents =>
                         if negb (forallb is_list batch_documents)
                         then bind (logging ERROR
                                      "batch_documents is not a list of lists. Exiting." [])
                                (fun _ => return_ None)
                         else ret batch_documents) lg = (Return_ None, lg') /\
               (forall x, In x lg -> In x lg')).
  { intros m Hm. erewrite bind_normal by exact Hm. rewrite Hnl. simpl.
    eexists. unfold bind, logging, return_. split; [reflexivity |].
    intros x Hx. apply in_or_app. left. exact Hx. }
  unfold bind at 1, ret at 1.
  destruct doc as [| b | z | s | l | l]; destruct rest as [|d2 rest2];
    try (apply Hret; reflexivity).
  simpl in Hbad. discriminate Hbad.
Qed.

Lemma check_docs_counts docs :
  forall idx lg c lg',
    check_docs idx docs lg = (c, lg') ->
    count_log ERROR compute_error_fmt lg' = count_log ERROR compute_error_fmt lg.
Proof.
  induction docs as [|doc rest IH]; intros idx lg c lg' H; simpl in H.
  - inversion H. reflexivity.
  - destruct (list_of_str doc); simpl in H.
    + exact (IH _ _ _ _ H).
    + unfold bind, logging, raise in H. inversion H. count_logs. lia.
Qed.

(** The first loop writes no entry of the handler's, and when it runs to
    its end the second loop stops at the first falsy item that is not a
    list. *)
Lemma coerce_docs_then_check (L : Lib) docs :
  forall idx lg,
  exists docs' stop lg',
    coerce_docs L idx docs lg = (Normal (docs', stop), lg') /\
    count_log ERROR compute_error_fmt lg' = count_log ERROR compute_error_fmt lg /\
    (first_unexpected idx docs = None ->
     forall lg2,
       check_docs idx docs' lg2 =
         match first_falsy_non_list idx docs with
         | Some (i, d) =>
             (Raised (invalid_structure_error i),
              lg2 ++ [Log ERROR "Document at index {idx} has an unexpected structure: {doc}"
                        [ANat i; AVal d]])
         | None => (Normal tt, lg2)
         end).
Proof.
  induction docs as [|doc rest IH]; intros idx lg.
  - exists [], None, lg. repeat split.
  - simpl. destruct (truthy doc) eqn:T; simpl.
    + destruct doc as [| b | z | s | l | l]; simpl in T; try discriminate T; simpl;
        try (do 3 eexists; unfold bind, logging, ret;
             split; [reflexivity | split; [count_logs; lia | intros H; discriminate H]]).
      * destruct (IH (S idx) lg) as [docs' [stop [lg' [Hr [Hc Hk]]]]].
        exists (PList [PStr s] :: docs'), stop, lg'. unfold bind. rewrite Hr. unfold ret.
        split; [reflexivity |]. split; [exact Hc |].
        intros Hn lg2. simpl. exact (Hk Hn lg2).
      * destruct (IH (S idx) lg) as [docs' [stop [lg' [Hr [Hc Hk]]]]].
        eexists. exists stop, lg'. unfold bind. rewrite Hr. unfold ret.
        split; [reflexivity |]. split; [exact Hc |].
        intros Hn lg2. simpl. rewrite forallb_is_str_map. simpl. exact (Hk Hn lg2).
    + destruct (IH (S idx) (lg ++ [Log WARNING "Skipping empty document at index {idx}."
                                    [ANat idx]]))
        as [docs' [stop [lg' [Hr [Hc Hk]]]]].
      exists (doc :: docs'), stop, lg'. unfold bind at 1. unfold logging at 1.
      unfold bind. rewrite Hr. unfold ret. split; [reflexivity |].
      split; [rewrite Hc; count_logs; lia |].
      intros Hn lg2. simpl.
      destruct doc as [| b | z | s | [|t l] | l]; simpl in T; try discriminate T;
        simpl; try reflexivity.
      exact (Hk Hn lg2).
Qed.

Lemma unexpected_is_found docs :
  forall idx,
    existsb unexpected docs = true ->
    first_unexpected idx docs = None ->
    first_falsy_non_list idx docs <> None.
Proof.
  induction docs as [|doc rest IH]; simpl; intros idx H Hn; [discriminate H |].
  destruct (truthy doc) eqn:T; simpl in *.
  - destruct (unexpected doc) eqn:U; simpl in *; [discriminate Hn |].
    exact (IH _ H Hn).
  - destruct (is_list doc) eqn:Li; simpl.
    + unfold unexpected in H. rewrite Li in H. rewrite andb_false_r in H. simpl in H.
      exact (IH _ H Hn).
    + discriminate.
Qed.

Lemma unwrap_batch_counts (local : option (list pyval)) lg c lg' :
  unwrap_batch local lg = (c, lg') ->
  count_log ERROR compute_error_fmt lg' = count_log ERROR compute_error_fmt lg.
Proof.
  intros H. destruct local as [docs |]; [| inversion H; reflexivity].
  unfold unwrap_batch, read_local in H. unfold bind at 1, ret at 1 in H. cbv iota beta in H.
  destruct docs as [|doc rest].
  - unfold bind, logging, return_ in H. inversion H. count_logs. lia.
  - assert (Hlast : forall bd c0 lg0,
               (if negb (forallb is_list bd)
                then bind (logging ERROR
                             "batch_documents is not a list of lists. Exiting." [])
                       (fun _ => return_ None)
                else ret bd) lg = (c0, lg0) ->
               count_log ERROR compute_error_fmt lg0 =
                 count_log ERROR compute_error_fmt lg).
    { intros bd c0 lg0 H0. destruct (negb (forallb is_list bd)).
      - unfold bind, logging, return_ in H0. inversion H0. count_logs. lia.
      - inversion H0. reflexivity. }
    destruct doc as [| b | z | s | l | l]; destruct rest as [|d2 rest2];
      try (erewrite bind_normal in H by reflexivity;
           match type of H with
           | (if negb (forallb is_list ?bd) then _ else _) _ = _ => exact (Hlast bd _ _ H)
           end).
    destruct (forallb is_list l).
    + erewrite bind_normal in H by reflexivity. exact (Hlast l _ _ H).
    + unfold bind, logging, return_ in H. inversion H. count_logs. lia.
Qed.

Lemma non_sequence_is_unexpected docs :
  existsb (fun doc => negb (is_sequence doc)) docs = true ->
  existsb unexpected docs = true.
Proof.
  induction docs as [|doc rest IH]; simpl; intros H; [discriminate H |].
  apply orb_true_iff in H. apply orb_true_iff. destruct H as [H | H].
  - left. destruct doc; simpl in H; try discriminate H; reflexivity.
  - right. exact (IH H).
Qed.

(** The run of the normaliser on a collection that has an item which is
    neither a string nor a list. *)
Lemma rejected_collection_run (L : Lib) (W : World) (a : Args) (docs : list pyval) :
  get_client W = Ok tt ->
  validation_test_data a = Ok docs ->
  existsb unexpected docs = true ->
  exists e lg,
    normalization_error docs = Some e /\
    train_model_v2 L W a [] = (Return_ None, lg) /\
    In (Log ERROR compute_error_fmt [AExn e]) lg /\
    count_log ERROR compute_error_fmt lg = 1%nat.
Proof.
  intros Hclient Hdata Hbad.
  destruct (coerce_docs_run L docs 0 []) as [docs' [stop [lg1 [Hr [He [Hs _]]]]]].
  destruct (coerce_docs_then_check L docs 0 []) as [docs2 [stop2 [lg1' [Hr2 [Hc Hk]]]]].
  rewrite Hr in Hr2. inversion Hr2; subst docs2 stop2 lg1'. clear Hr2.
  change (count_log ERROR compute_error_fmt []) with 0%nat in Hc.
  assert (Hn : exists e lg2,
             normalization_error docs = Some e /\
             normalize L (Ok docs) [] = (Normal (Some docs'), lg2) /\
             In (Log ERROR compute_error_fmt [AExn e]) lg2 /\
             count_log ERROR compute_error_fmt lg2 = 1%nat).
  { unfold normalize, normalization_error. erewrite bind_normal by exact Hr.
    cbv iota beta.
    destruct (first_unexpected 0 docs) as [[i d] |] eqn:Hf; simpl in Hs; subst stop.
    - eexists. eexists. unfold bind, log_compute_error, logging, ret.
      split; [reflexivity |]. split; [reflexivity |].
      split; [apply in_or_app; right; left; reflexivity |].
      fold compute_error_fmt. count_logs. lia.
    - specialize (Hk eq_refl lg1).
      pose proof (unexpected_is_found docs 0 Hbad Hf) as Hsome.
      destruct (first_falsy_non_list 0 docs) as [[i d] |]; [| congruence].
      eexists. eexists. unfold bind, try_except. rewrite Hk.
      unfold log_compute_error, logging, ret. simpl option_map.
      split; [reflexivity |]. split; [reflexivity |].
      split; [apply in_or_app; right; left; reflexivity |].
      fold compute_error_fmt. count_logs. lia. }
  destruct Hn as [e [lg2 [Herr [Hn [Hin Hcount]]]]].
  destruct (unwrap_batch_run docs' lg2 (He Hbad)) as [lg3 [Hu Hkeep]].
  exists e, lg3. split; [exact Herr |].
  split.
  - unfold train_model_v2. rewrite Hclient, Hdata.
    erewrite bind_normal by reflexivity.
    erewrite bind_normal by exact Hn.
    erewrite bind_return by exact Hu. reflexivity.
  - split; [exact (Hkeep _ Hin) |].
    rewrite (unwrap_batch_counts _ _ _ _ Hu). exact Hcount.
Qed.

(** C2 (amended). A collection with an item that is neither a string nor a
    sequence produces no record, and no exception leaves the function: the
    [ValueError] of the normaliser is caught and logged by its own handler
    (l.112), once, and the call returns [None] at the list-of-lists check
    (l.131-133).  The error logged is [normalization_error]: when some
    truthy item is neither a string nor a list, that of the first such
    item, whose message gives the index and the type (l.100); otherwise
    that of the second loop for the first falsy item that is not a list,
    whose message gives the index only (l.106). *)
Theorem malformed_item_returns_none (L : Lib) (W : World) (a : Args) (docs : list pyval) :
  get_client W = Ok tt ->
  validation_test_data a = Ok docs ->
  existsb (fun doc => negb (is_sequence doc)) docs = true ->
  invoke L W a = Returns None /\
  exists e,
    normalization_error docs = Some e /\
    In (Log ERROR compute_error_fmt [AExn e]) (invoke_log L W a) /\
    count_log ERROR compute_error_fmt (invoke_log L W a) = 1%nat.
Proof.
  intros Hclient Hdata Hbad.
  destruct (rejected_collection_run L W a docs Hclient Hdata
              (non_sequence_is_unexpected docs Hbad)) as [e [lg [Herr [Hrun [Hin Hc]]]]].
  unfold invoke, invoke_log, run. rewrite Hrun. simpl.
  split; [reflexivity |]. exists e. auto.
Qed.

Lemma malformed_item_returns_none_witness :
  (let a := Ref.args_of "train" (Ok [PInt 5; PInt 0; PList [PStr "a"]]) in
   invoke Ref.lib Ref.world a = Returns None /\
   In (Log ERROR compute_error_fmt
         [AExn (Exn ValueError
                  "Unexpected type at index 0. Expected list or string, got: <class 'int'>")])
      (invoke_log Ref.lib Ref.world a)) /\
  (let a := Ref.args_of "train" (Ok [PStr ""; PInt 0; PList [PStr "a"]]) in
   invoke Ref.lib Ref.world a = Returns None /\
   In (Log ERROR compute_error_fmt
         [AExn (Exn ValueError "Document at index 0 contains invalid structure.")])
      (invoke_log Ref.lib Ref.world a)).
Proof.
  split; intros a.
  - destruct (malformed_item_returns_none Ref.lib Ref.world a
                [PInt 5; PInt 0; PList [PStr "a"]] eq_refl eq_refl eq_refl)
      as [Hnone [e [He [Hlog _]]]].
    vm_compute in He. inversion He; subst e. split; [exact Hnone | exact Hlog].
  - destruct (malformed_item_returns_none Ref.lib Ref.world a
                [PStr ""; PInt 0; PList [PStr "a"]] eq_refl eq_refl eq_refl)
      as [Hnone [e [He [Hlog _]]]].
    vm_compute in He. inversion He; subst e. split; [exact Hnone | exact Hlog].
Defined.

(** C2, as stated, fails: the integer 0 among valid string-lists.  Nothing
    is raised to the caller, and the one error that is logged names an index
    and no type: the first loop skips the falsy item and the second one
    rejects it. *)
Lemma falsy_item_is_rejected_without_its_type :
  let a := Ref.args_of "train" (Ok [PInt 0; PList [PStr "a"]; PList [PStr "b"]]) in
  run (train_model_v2 Ref.lib Ref.world a) =
    (Returns None,
     [ Log WARNING "Skipping empty document at index {idx}." [ANat 0];
       Log ERROR "Document at index {idx} has an unexpected structure: {doc}"
         [ANat 0; AVal (PInt 0)];
       Log ERROR compute_error_fmt
         [AExn (Exn ValueError "Document at index 0 contains invalid structure.")];
       Log ERROR "batch_documents is not a list of lists. Exiting." [] ]) /\
  (forall e, invoke Ref.lib Ref.world a <> Raises e) /\
  ~ In (Log ERROR compute_error_fmt [AExn (unexpected_type_error 0 (PInt 0))])
       (invoke_log Ref.lib Ref.world a).
Proof.
  intros a. split; [vm_compute; reflexivity |]. split.
  - intros e. vm_compute. discriminate.
  - vm_compute. intros [H | [H | [H | [H | []]]]]; discriminate H.
Qed.

(** ** Further properties of the function

    How a statement can end, and the rules that follow the syntax of the
    body for an ending it never has. *)

Inductive ending : Type := Falls | Returning | Raising | Exiting.

Definition ending_of {A} (c : ctl A) : ending :=
  match c with
  | Normal _ => Falls
  | Return_ _ => Returning
  | Raised _ => Raising
  | Exited => Exiting
  end.

(** [m] never ends the way [k] says. *)
Definition avoids {A} (k : ending) (m : M A) : Prop :=
  forall lg, ending_of (fst (m lg)) <> k.

(** [m] always falls through. *)
Definition falls_through {A} (m : M A) : Prop :=
  avoids Returning m /\ avoids Raising m /\ avoids Exiting m.

(** *** Notions of the properties below *)

(** What l.117 raises when [batch_documents] was never assigned. *)
Definition unbound_batch_documents : exn :=
  Exn UnboundLocalError
    "cannot access local variable 'batch_documents' where it is not associated with a value".

(** A document with at least one token to keep: a non-empty string, or a
    list with a truthy element. *)
Definition has_token (doc : pyval) : bool :=
  match doc with
  | PStr s => negb (String.eqb s "")
  | PList tokens => existsb truthy tokens
  | _ => false
  end.

(** A document already in normal form: a non-empty list of non-empty
    strings. *)
Definition canonical (doc : pyval) : bool :=
  match doc with
  | PList (t :: ts) => forallb (fun token => is_str token && truthy token) (t :: ts)
  | _ => false
  end.

(** The estimate is negative for the executor's bounds. *)
Definition negative_estimate : Ref.knobs := {|
  Ref.k_doc2bow := Ref.k_doc2bow Ref.calm;
  Ref.k_estimate := fun _ lo hi _ _ => if Z.eqb lo 1 then Ok (-3)%Z else Ok hi;
  Ref.k_coherence_metrics := Ref.k_coherence_metrics Ref.calm;
  Ref.k_convergence := Ref.k_convergence Ref.calm;
  Ref.k_wait := Ref.k_wait Ref.calm;
  Ref.k_future_result := Ref.k_future_result Ref.calm
|}.

(** Every wait times out. *)
Definition timeouts : Ref.knobs := {|
  Ref.k_doc2bow := Ref.k_doc2bow Ref.calm;
  Ref.k_estimate := Ref.k_estimate Ref.calm;
  Ref.k_coherence_metrics := Ref.k_coherence_metrics Ref.calm;
  Ref.k_convergence := Ref.k_convergence Ref.calm;
  Ref.k_wait := fun _ _ _ => Raise (Exn TimeoutError "wait timed out");
  Ref.k_future_result := Ref.k_future_result Ref.calm
|}.

(** What the locals of a returned record are, in terms of the arguments and
    of what the collaborators returned. *)
Set Implicit Arguments.

Record assembly_facts (L : Lib) (W : World) (a : Args) (v : locals) : Prop := {
  af_normalised :
    exists local lg lg1 lg2 lg3,
      normalize L (validation_test_data a) lg = (Normal local, lg1) /\
      unwrap_batch local lg2 = (Normal (l_batch_documents v), lg3);
  af_documents : forallb list_of_str (l_batch_documents v) = true;
  af_dictionary :
    Dictionary_new W (l_batch_documents v) = Ok (l_dictionary v) /\ l_dictionary v <> [];
  af_chunksize : exists corpus : list bow, l_chunksize v = chunksize_of (List.length corpus);
  af_priors :
    calculate_numeric_alpha W (alpha_str a) (n_topics a) = Ok (l_n_alpha v) /\
    calculate_numeric_beta W (beta_str a) (n_topics a) = Ok (l_n_beta v);
  af_model :
    exists corpus alpha eta m,
      corpus = converted W (l_dictionary v) (l_batch_documents v) /\
      l_chunksize v = chunksize_of (List.length corpus) /\
      py_float L (l_n_alpha v) = Ok alpha /\
      py_float L (l_n_beta v) = Ok eta /\
      LdaModel_new W corpus (unified_dictionary a)
        (LdaParams (n_topics a) (VFloat alpha) (VFloat eta) (random_state a) (passes a)
           (iterations a) (update_every a) (eval_every a) (l_chunksize v) true) = Ok m /\
      pickle_model L (Some m) = Ok (l_lda_model v);
  af_max_attempts :
    estimate_batches_large_docs_v2 W (data_source a) 5 50 (4 # 10) 3 = Ok (l_max_attempts v);
  af_extract :
    exists m num_words topics,
      extract_topics_with_get_topic_terms W m num_words = Ok (Ok topics);
  af_batch_size : l_batch_size v <> 0%Z;
  af_num_words : (0 <= l_num_words v)%Z;
  af_key : l_unique_primary_key v = unique_primary_key_of L W;
  af_text :
    exists tokens,
      flatten_docs (l_batch_documents v) = Ok (l_flattened_batch v) /\
      str_items (l_flattened_batch v) = Ok tokens /\
      l_flattened_batch_str v = (join " " tokens ++ l_unique_primary_key v)%string
}.

Unset Implicit Arguments.

Definition assembled (L : Lib) (W : World) (a : Args) (r : record) : Prop :=
  exists v, r = db_data_of (current_increment_data L W a v) /\ assembly_facts L W a v.

(** The world [w] with another result of
    [extract_topics_with_get_topic_terms]. *)
Definition with_extract (w : World) (x : res (Delayed value)) : World := {|
  get_client := get_client w;
  datetime_now := datetime_now w;
  strftime_now := strftime_now w;
  timestamp_now := timestamp_now w;
  random_uniform := random_uniform w;
  random_randint := random_randint w;
  Dictionary_new := Dictionary_new w;
  doc2bow := doc2bow w;
  calculate_numeric_alpha := calculate_numeric_alpha w;
  calculate_numeric_beta := calculate_numeric_beta w;
  LdaModel_new := LdaModel_new w;
  calculate_perplexity_threshold := calculate_perplexity_threshold w;
  estimate_batches_large_docs_v2 := estimate_batches_large_docs_v2 w;
  calculate_torch_coherence := calculate_torch_coherence w;
  calculate_coherence_metrics := calculate_coherence_metrics w;
  calculate_convergence := calculate_convergence w;
  calculate_perplexity_score := calculate_perplexity_score w;
  extract_topics_with_get_topic_terms := fun _ _ => x;
  json_dumps := json_dumps w;
  convert_float32_to_float := convert_float32_to_float w;
  client_submit := client_submit w;
  wait := wait w;
  future_is_error := future_is_error w;
  client_retry := client_retry w;
  future_result := future_result w;
  model_num_topics := model_num_topics w;
  model_has_state := model_has_state w;
  show_topic := show_topic w;
  show_topic_words := show_topic_words w;
  top_topics_words := top_topics_words w
|}.

(** A document in the form the normaliser hands on: a list of strings. *)
Definition token_list (tokens : list string) : pyval := PList (map PStr tokens).

(** An item the first loop leaves as it is and that is not a list: anything
    but a list and a non-empty string, so also the empty string, [None], 0
    and the empty tuple. *)
Definition left_non_list (doc : pyval) : bool :=
  negb (is_list doc) && negb (is_str doc && truthy doc).

(** *** Endings that a statement never has *)

Section Endings.

Context {A B : Type}.
Variable k : ending.

Lemma av_ret (a : A) : k <> Falls -> avoids k (ret a).
Proof. intros Hk lg. simpl. congruence. Qed.

Lemma av_logging lv fmt args : k <> Falls -> avoids k (logging lv fmt args).
Proof. intros Hk lg. simpl. congruence. Qed.

Lemma av_dask_delayed (x : res A) : k <> Falls -> avoids k (dask_delayed x).
Proof. intros Hk lg. simpl. congruence. Qed.

Lemma av_raise (e : exn) : k <> Raising -> avoids k (raise e : M A).
Proof. intros Hk lg. simpl. congruence. Qed.

Lemma av_return (r : option record) : k <> Returning -> avoids k (return_ r : M A).
Proof. intros Hk lg. simpl. congruence. Qed.

Lemma av_sys_exit : k <> Exiting -> avoids k (sys_exit : M A).
Proof. intros Hk lg. simpl. congruence. Qed.

Lemma av_call (x : res A) : k <> Falls -> k <> Raising -> avoids k (call x).
Proof. intros Hf Hr lg. destruct x; simpl; congruence. Qed.

Lemma av_read_local name (v : option A) :
  k <> Falls -> k <> Raising -> avoids k (read_local name v).
Proof. intros Hf Hr lg. destruct v; simpl; congruence. Qed.

Lemma av_bind (m : M A) (f : A -> M B) :
  avoids k m -> (forall a, avoids k (f a)) -> avoids k (bind m f).
Proof.
  intros Hm Hf lg. unfold bind. specialize (Hm lg).
  destruct (m lg) as [[a | r | e |] lg1]; simpl in *; try exact Hm. apply Hf.
Qed.

Lemma av_bind_post (Q : A -> Prop) (m : M A) (f : A -> M B) :
  avoids k m -> normally m Q -> (forall a, Q a -> avoids k (f a)) -> avoids k (bind m f).
Proof.
  intros Hm HQ Hf lg. unfold bind. specialize (Hm lg).
  destruct (m lg) as [[a | r | e |] lg1] eqn:E; simpl in *; try exact Hm.
  apply Hf. eapply HQ. exact E.
Qed.

Lemma av_try_except (body : M A) (handler : exn -> M A) :
  k <> Raising -> avoids k body -> (forall e, avoids k (handler e)) ->
  avoids k (try_except body handler).
Proof.
  intros Hk Hb Hh lg. unfold try_except. specialize (Hb lg).
  destruct (body lg) as [[a | r | e |] lg1]; simpl in *; try exact Hb. apply Hh.
Qed.

Lemma av_try_except_TypeError (body : M A) (handler : exn -> M A) :
  k <> Raising -> avoids k body -> (forall e, avoids k (handler e)) ->
  avoids k (try_except_TypeError body handler).
Proof.
  intros Hk Hb Hh lg. unfold try_except_TypeError. specialize (Hb lg).
  destruct (body lg) as [[a | r | e |] lg1]; simpl in *; try exact Hb.
  destruct (is_TypeError e); [apply Hh | exact Hb].
Qed.

End Endings.

(** What a handler for every exception catches does not leave it. *)
Lemma av_try_except_raising {A} (body : M A) (handler : exn -> M A) :
  avoids Returning body -> avoids Exiting body ->
  (forall e, falls_through (handler e)) ->
  falls_through (try_except body handler).
Proof.
  intros Hr Hx Hh. repeat split; intros lg; unfold try_except;
    specialize (Hr lg); specialize (Hx lg);
    destruct (body lg) as [[a | r | e |] lg1]; simpl in *; try congruence;
    destruct (Hh e) as [H1 [H2 H3]]; auto.
Qed.

Lemma falls_through_run {A} (m : M A) :
  falls_through m -> forall lg, exists a lg', m lg = (Normal a, lg').
Proof.
  intros [Hr [He Hx]] lg. specialize (Hr lg). specialize (He lg). specialize (Hx lg).
  destruct (m lg) as [[a | r | e |] lg1]; simpl in *; try congruence. eauto.
Qed.

Create HintDb av discriminated.
#[export] Hint Resolve av_ret av_logging av_dask_delayed av_raise av_return av_sys_exit
  av_call av_read_local : av.
#[export] Hint Extern 1 (_ <> _) => discriminate : av.

Ltac av_step :=
  match goal with
  | |- forall _, _ => intro
  | |- avoids _ (bind _ _) => apply av_bind
  | |- avoids _ (try_except _ _) => apply av_try_except; [discriminate | |]
  | |- avoids _ (try_except_TypeError _ _) =>
      apply av_try_except_TypeError; [discriminate | |]
  | |- avoids _ (match ?x with _ => _ end) => destruct x
  | |- avoids _ _ => solve [auto with av]
  end.

Ltac av := repeat av_step.

(** *** [sys.exit()] is never reached *)

Section NoExit.

Variable L : Lib.
Variable W : World.

Lemma ax_coerce_docs docs : forall idx, avoids Exiting (coerce_docs L idx docs).
Proof. induction docs as [|doc rest IH]; intros idx; simpl; av. Qed.

Lemma ax_check_docs docs : forall idx, avoids Exiting (check_docs idx docs).
Proof. induction docs as [|doc rest IH]; intros idx; simpl; av. Qed.

#[local] Hint Resolve ax_coerce_docs ax_check_docs : av.

Lemma ax_normalize data : avoids Exiting (normalize L data).
Proof. unfold normalize, log_compute_error. av. Qed.

Lemma ax_unwrap_batch local : avoids Exiting (unwrap_batch local).
Proof. unfold unwrap_batch. av. Qed.

Lemma ax_build_dictionary docs : avoids Exiting (build_dictionary W docs).
Proof. unfold build_dictionary. av. Qed.

Lemma ax_bow_document phase d doc st : avoids Exiting (bow_document W phase d doc st).
Proof. unfold bow_document, append_bow. av. Qed.

#[local] Hint Resolve ax_normalize ax_unwrap_batch ax_build_dictionary ax_bow_document : av.

Lemma ax_bow_loop phase d docs : forall st, avoids Exiting (bow_loop W phase d docs st).
Proof. induction docs as [|doc rest IH]; intros st; simpl; av. Qed.

#[local] Hint Resolve ax_bow_loop : av.

Lemma ax_corpus_builder a docs : avoids Exiting (corpus_builder W a docs).
Proof. unfold corpus_builder. av. Qed.

Lemma ax_read_corpus phase st : avoids Exiting (read_corpus phase st).
Proof. unfold read_corpus. av. Qed.

Lemma ax_compute_model_bytes b : avoids Exiting (compute_model_bytes b).
Proof. unfold compute_model_bytes. av. Qed.

Lemma ax_threshold_task a m corpus : avoids Exiting (threshold_task W a m corpus).
Proof. unfold threshold_task. av. Qed.

Lemma ax_coherence_task a m docs : avoids Exiting (coherence_task W a m docs).
Proof. unfold coherence_task. av. Qed.

Lemma ax_coherence_stage a m docs task max_attempts :
  avoids Exiting (coherence_stage L W a m docs task max_attempts).
Proof. unfold coherence_stage. av. Qed.

Lemma ax_convergence_task m corpus : avoids Exiting (convergence_task W m corpus).
Proof. unfold convergence_task. av. Qed.

Lemma ax_perplexity_task m corpus : avoids Exiting (perplexity_task W m corpus).
Proof. unfold perplexity_task. av. Qed.

Lemma ax_extract_topics m num_words : avoids Exiting (extract_topics W m num_words).
Proof. unfold extract_topics. av. Qed.

Lemma ax_serialize_topics a task payload :
  avoids Exiting (serialize_topics W a task payload).
Proof. unfold serialize_topics. av. Qed.

Lemma ax_make_batches a corpus : avoids Exiting (make_batches W a corpus).
Proof. unfold make_batches. av. Qed.

Lemma ax_submit_loop m total batches :
  forall idx futures, avoids Exiting (submit_loop W m total idx batches futures).
Proof. induction batches as [|b rest IH]; intros idx futures; simpl; av. Qed.

Lemma ax_log_failed done_batches : avoids Exiting (log_failed W done_batches).
Proof. induction done_batches as [|f rest IH]; simpl; av. Qed.

Lemma ax_log_unresolved fs : avoids Exiting (log_unresolved fs).
Proof. induction fs as [|f rest IH]; simpl; av. Qed.

#[local] Hint Resolve ax_corpus_builder ax_read_corpus ax_compute_model_bytes
  ax_threshold_task ax_coherence_task ax_coherence_stage ax_convergence_task
  ax_perplexity_task ax_extract_topics ax_serialize_topics ax_make_batches ax_submit_loop
  ax_log_failed ax_log_unresolved : av.

Lemma ax_retry_unresolved not_done : avoids Exiting (retry_unresolved W not_done).
Proof. unfold retry_unresolved. av. Qed.

#[local] Hint Resolve ax_retry_unresolved : av.

Lemma ax_gather futures : avoids Exiting (gather W futures).
Proof. unfold gather. av. Qed.

#[local] Hint Resolve ax_gather : av.

Lemma ax_batch_executor a m corpus : avoids Exiting (batch_executor W a m corpus).
Proof. unfold batch_executor. av. Qed.

Lemma ax_serialize_validation a results :
  avoids Exiting (serialize_validation L W a results).
Proof. unfold serialize_validation. av. Qed.

Lemma ax_log_value_types kv : avoids Exiting (log_value_types kv).
Proof. induction kv as [|[k v] rest IH]; simpl; av. Qed.

#[local] Hint Resolve ax_log_value_types : av.

Lemma ax_log_item_types items : avoids Exiting (log_item_types items).
Proof. induction items as [|v rest IH]; simpl; av. Qed.

Lemma ax_topic_words_cascade a v e : avoids Exiting (topic_words_cascade L W a v e).
Proof. unfold topic_words_cascade. av. Qed.

Lemma ax_test_show_topic m : avoids Exiting (test_show_topic W m).
Proof. unfold test_show_topic. av. Qed.

#[local] Hint Resolve ax_log_item_types ax_topic_words_cascade ax_test_show_topic : av.

Lemma ax_topic_words_block a m docs results :
  avoids Exiting (topic_words_block L W a m docs results).
Proof. unfold topic_words_block. av. Qed.

Lemma ax_flatten_batch docs : avoids Exiting (flatten_batch docs).
Proof. unfold flatten_batch. av. Qed.

Lemma ax_warn_placeholder name payload : avoids Exiting (warn_placeholder name payload).
Proof. unfold warn_placeholder. av. Qed.

Lemma ax_log_ndarrays db : avoids Exiting (log_ndarrays db).
Proof. induction db as [|[k v] rest IH]; simpl; av. Qed.

#[local] Hint Resolve ax_batch_executor ax_serialize_validation ax_topic_words_block
  ax_flatten_batch ax_warn_placeholder ax_log_ndarrays : av.

(** Past l.190 the phase is one of the three keys of [corpus_data]. *)
Lemma n_read_corpus phase st :
  normally (read_corpus phase st) (fun _ => phase_key phase = true).
Proof.
  intros lg c lg' H. unfold read_corpus in H.
  destruct (phase_key phase); [reflexivity | discriminate H].
Qed.

Lemma ax_model_stage a corpus n_alpha n_beta chunksize :
  phase_key (phase a) = true ->
  avoids Exiting (model_stage L W a corpus n_alpha n_beta chunksize).
Proof.
  intros Hp. unfold model_stage. unfold phase_key in Hp.
  destruct (String.eqb (phase a) "validation" || String.eqb (phase a) "test") eqn:E.
  - av.
  - destruct (String.eqb (phase a) "train") eqn:Et.
    + av.
    + apply orb_false_iff in E. destruct E as [E1 E2]. rewrite E1, E2 in Hp.
      discriminate Hp.
Qed.

Lemma train_model_v2_avoids_exit a : avoids Exiting (train_model_v2 L W a).
Proof.
  unfold train_model_v2. cbv zeta.
  apply av_bind; [solve [av] | intro].
  apply av_bind; [solve [av] | intro].
  apply av_bind; [solve [av] | intro].
  apply av_bind; [solve [av] | intros [dictionary st]].
  eapply av_bind_post; [solve [av] | apply n_read_corpus | intros corpus Hp].
  apply av_bind; [solve [av] | intro].
  apply av_bind; [solve [av] | intro].
  apply av_bind; [apply ax_model_stage; exact Hp | intros [ldamodel ldamodel_bytes]].
  av.
Qed.

End NoExit.

(** X1. [sys.exit()] (l.242) is never reached: a phase that is none of
    'train', 'validation', 'test' fails earlier, at the latest with the
    [KeyError] of [corpus_data[phase]] at l.190, so no call ends the
    process. *)
Theorem sys_exit_is_unreachable (L : Lib) (W : World) (a : Args) :
  invoke L W a <> Exits.
Proof.
  unfold invoke, run. pose proof (train_model_v2_avoids_exit L W a []) as H.
  destruct (train_model_v2 L W a []) as [[u | r | e |] lg]; simpl in *; congruence.
Qed.

(** *** Which calls return a record *)

(** X2. A record is returned only in the 'train' phase, and its 'type'
    field then says so: 'validation', 'test' and every other phase end
    without a record. *)
Theorem record_only_in_train_phase (L : Lib) (W : World) (a : Args) (r : record) :
  invoke L W a = Returns (Some r) ->
  phase a = "train" /\ get "type" r = Some (VStr "train").
Proof.
  intros H. apply invoke_record in H. destruct H as [v [-> F]].
  pose proof (rf_phase F) as Hp. split; [exact Hp |].
  read_field v. rewrite Hp. reflexivity.
Qed.

Lemma record_only_in_train_phase_witness :
  exists r, invoke Ref.lib Ref.world Ref.train_args = Returns (Some r) /\
            get "type" r = Some (VStr "train") /\
            invoke Ref.lib Ref.world (Ref.args_of "test" (Ok Ref.docs)) =
              Raises (Exn AttributeError "'bytes' object has no attribute 'compute'").
Proof.
  eexists. split; [| split].
  - vm_compute. reflexivity.
  - apply (record_only_in_train_phase Ref.lib Ref.world Ref.train_args). vm_compute.
    reflexivity.
  - vm_compute. reflexivity.
Defined.

(** *** The edges of the normaliser *)

(** X3. When resolving the deferred documents raises (l.76), the error is
    logged by the handler of l.112 and nothing else happens there:
    [batch_documents] was never assigned, so the check of l.117 raises
    [UnboundLocalError] to the caller instead of returning [None]. *)
Theorem unresolved_documents_raise (L : Lib) (W : World) (a : Args) (e : exn) :
  get_client W = Ok tt ->
  validation_test_data a = Raise e ->
  run (train_model_v2 L W a) =
    (Raises unbound_batch_documents, [Log ERROR compute_error_fmt [AExn e]]).
Proof.
  intros Hc Hd. unfold run, train_model_v2. rewrite Hc, Hd. reflexivity.
Qed.

Lemma unresolved_documents_raise_witness :
  run (train_model_v2 Ref.lib Ref.world
         (Ref.args_of "train" (Raise (Exn RuntimeError "worker lost")))) =
    (Raises unbound_batch_documents,
     [Log ERROR compute_error_fmt [AExn (Exn RuntimeError "worker lost")]]).
Proof.
  apply (unresolved_documents_raise Ref.lib Ref.world
           (Ref.args_of "train" (Raise (Exn RuntimeError "worker lost")))
           (Exn RuntimeError "worker lost")); reflexivity.
Defined.

Lemma existsb_truthy_filter (l : list pyval) :
  existsb truthy l = true -> filter truthy l <> [].
Proof.
  induction l as [|x l IH]; simpl; intros H; [discriminate H |].
  destruct (truthy x); [discriminate | exact (IH H)].
Qed.

Lemma strs_are_not_lists (l : list pyval) :
  l <> [] -> forallb is_str l = true -> forallb is_list l = false.
Proof.
  destruct l as [|x l]; [congruence |]. simpl. intros _ H.
  apply andb_true_iff in H. destruct H as [H _]. destruct x; try discriminate H.
  reflexivity.
Qed.

Lemma normalize_single (L : Lib) (doc : pyval) (lg : list logrec) :
  has_token doc = true ->
  exists inner,
    normalize L (Ok [doc]) lg = (Normal (Some [PList inner]), lg) /\
    inner <> [] /\ forallb is_str inner = true.
Proof.
  intros Ht. destruct doc as [| b | z | s | tokens | l]; simpl in Ht; try discriminate Ht.
  - exists [PStr s]. assert (Hs : truthy (PStr s) = true) by exact Ht.
    unfold normalize, coerce_docs. rewrite Hs. simpl.
    split; [reflexivity |]. split; [discriminate | reflexivity].
  - pose proof (existsb_truthy_filter tokens Ht) as Hf.
    assert (Hs : truthy (PList tokens) = true).
    { destruct tokens; [discriminate Ht | reflexivity]. }
    exists (map (fun token => PStr (py_str L token)) (filter truthy tokens)).
    unfold normalize, coerce_docs. rewrite Hs.
    unfold bind, ret, try_except. simpl.
    rewrite (forallb_is_str_map (py_str L)). simpl.
    split; [reflexivity |]. split; [| reflexivity].
    destruct (filter truthy tokens); [congruence | discriminate].
Qed.

(** X4. A collection of exactly one document that has a token never gets
    past the unwrapping of l.122-128: after normalisation it is one list of
    strings, which the check for a list of lists rejects, and the call
    returns [None]. *)
Theorem single_document_returns_none (L : Lib) (W : World) (a : Args) (doc : pyval) :
  get_client W = Ok tt ->
  validation_test_data a = Ok [doc] ->
  has_token doc = true ->
  run (train_model_v2 L W a) =
    (Returns None,
     [Log ERROR "Nested batch_documents contains invalid structure. Skipping flattening."
        []]).
Proof.
  intros Hc Hd Ht.
  destruct (normalize_single L doc [] Ht) as [inner [Hn [Hne Hstr]]].
  pose proof (strs_are_not_lists inner Hne Hstr) as Hnl.
  unfold run, train_model_v2. rewrite Hc, Hd.
  erewrite bind_normal by reflexivity.
  erewrite bind_normal by exact Hn.
  erewrite bind_return; [reflexivity |].
  unfold unwrap_batch, read_local. unfold bind at 1, ret at 1. cbv iota beta.
  unfold bind at 1. rewrite Hnl. reflexivity.
Qed.

Lemma single_document_returns_none_witness :
  fst (run (train_model_v2 Ref.lib Ref.world
              (Ref.args_of "train" (Ok [PList [PStr "alpha"; PStr "beta"]])))) =
    Returns None /\
  fst (run (train_model_v2 Ref.lib Ref.world (Ref.args_of "train" (Ok [PStr "alpha"])))) =
    Returns None.
Proof.
  split.
  - rewrite (single_document_returns_none Ref.lib Ref.world
               (Ref.args_of "train" (Ok [PList [PStr "alpha"; PStr "beta"]]))
               (PList [PStr "alpha"; PStr "beta"])); reflexivity.
  - rewrite (single_document_returns_none Ref.lib Ref.world
               (Ref.args_of "train" (Ok [PStr "alpha"])) (PStr "alpha")); reflexivity.
Defined.

Lemma canonical_tokens (L : Lib) (l : list pyval) :
  forallb (fun token => is_str token && truthy token) l = true ->
  map (fun token => PStr (py_str L token)) (filter truthy l) = l /\
  forallb is_str l = true.
Proof.
  induction l as [|t l IH]; simpl; intros H; [split; reflexivity |].
  apply andb_true_iff in H. destruct H as [Ht Hl].
  apply andb_true_iff in Ht. destruct Ht as [Hs Htr].
  destruct (IH Hl) as [IH1 IH2]. rewrite Htr, Hs. simpl. rewrite IH1.
  destruct t; try discriminate Hs. split; [reflexivity | exact IH2].
Qed.

Lemma coerce_docs_canonical (L : Lib) (docs : list pyval) :
  forallb canonical docs = true ->
  forall idx lg, coerce_docs L idx docs lg = (Normal (docs, None), lg).
Proof.
  induction docs as [|doc rest IH]; intros H idx lg; [reflexivity |].
  simpl in H. apply andb_true_iff in H. destruct H as [Hd Hr].
  destruct doc as [| b | z | s | [|t ts] | l]; try discriminate Hd.
  unfold canonical in Hd. destruct (canonical_tokens L (t :: ts) Hd) as [Hmap _].
  cbn [coerce_docs truthy negb]. cbv iota. unfold bind. rewrite (IH Hr). unfold ret.
  rewrite Hmap. reflexivity.
Qed.

Lemma check_docs_canonical (L : Lib) (docs : list pyval) :
  forallb canonical docs = true ->
  forall idx lg, check_docs idx docs lg = (Normal tt, lg).
Proof.
  induction docs as [|doc rest IH]; intros H idx lg; [reflexivity |].
  simpl in H. apply andb_true_iff in H. destruct H as [Hd Hr].
  destruct doc as [| b | z | s | [|t ts] | l]; try discriminate Hd.
  unfold canonical in Hd. destruct (canonical_tokens L (t :: ts) Hd) as [_ Hstr].
  cbn [check_docs list_of_str]. rewrite Hstr. cbn [negb]. cbv iota. apply (IH Hr).
Qed.

Lemma canonical_are_lists (docs : list pyval) :
  forallb canonical docs = true -> forallb is_list docs = true.
Proof.
  induction docs as [|doc rest IH]; simpl; intros H; [reflexivity |].
  apply andb_true_iff in H. destruct H as [Hd Hr]. rewrite (IH Hr).
  destruct doc; try discriminate Hd. reflexivity.
Qed.

(** X5. A batch of at least two documents, each a non-empty list of
    non-empty strings, passes the normaliser (l.74-133) unchanged, in order,
    and without a log entry. *)
Theorem canonical_batch_is_unchanged (L : Lib) (docs : list pyval) (lg : list logrec) :
  (2 <= List.length docs)%nat ->
  forallb canonical docs = true ->
  bind (normalize L (Ok docs)) unwrap_batch lg = (Normal docs, lg).
Proof.
  intros Hlen Hc.
  assert (Hn : normalize L (Ok docs) lg = (Normal (Some docs), lg)).
  { unfold normalize, bind, try_except. rewrite (coerce_docs_canonical L docs Hc).
    rewrite (check_docs_canonical L docs Hc). reflexivity. }
  erewrite bind_normal by exact Hn.
  pose proof (canonical_are_lists docs Hc) as Hl.
  destruct docs as [|d1 [|d2 rest]]; simpl in Hlen; try lia.
  unfold unwrap_batch, read_local. unfold bind at 1, ret at 1. cbv iota beta.
  assert (Hm : match d1 :: d2 :: rest with
               | [PList inner] =>
                   if forallb is_list inner then ret inner
                   else bind (logging ERROR
                                "Nested batch_documents contains invalid structure. Skipping flattening."
                                []) (fun _ => return_ None)
               | _ => ret (d1 :: d2 :: rest)
               end = ret (d1 :: d2 :: rest)).
  { destruct d1; reflexivity. }
  rewrite Hm. unfold bind, ret. rewrite Hl. reflexivity.
Qed.

Lemma canonical_batch_is_unchanged_witness :
  bind (normalize Ref.lib (Ok Ref.docs)) unwrap_batch [] = (Normal Ref.docs, []).
Proof.
  apply (canonical_batch_is_unchanged Ref.lib Ref.docs []).
  - simpl. lia.
  - reflexivity.
Defined.

Lemma coerce_docs_shape (L : Lib) docs :
  forall idx lg,
  exists docs' stop lg',
    coerce_docs L idx docs lg = (Normal (docs', stop), lg') /\
    match stop with
    | None => forallb (fun d => list_of_str d || negb (is_list d)) docs' = true
    | Some _ => forallb is_list docs' = false
    end.
Proof.
  induction docs as [|doc rest IH]; intros idx lg.
  - exists [], None, lg. split; reflexivity.
  - simpl. destruct (truthy doc) eqn:T; simpl.
    + destruct doc as [| b | z | s | l | l]; simpl in T; try discriminate T;
        try (do 3 eexists; unfold bind, logging, ret; split; reflexivity).
      * destruct (IH (S idx) lg) as [docs' [stop [lg' [Hr Hs]]]].
        exists (PList [PStr s] :: docs'), stop, lg'. unfold bind. rewrite Hr. unfold ret.
        split; [reflexivity |]. destruct stop; simpl; [| exact Hs].
        rewrite Hs. reflexivity.
      * destruct (IH (S idx) lg) as [docs' [stop [lg' [Hr Hs]]]].
        eexists. exists stop, lg'. unfold bind. rewrite Hr. unfold ret.
        split; [reflexivity |]. destruct stop; simpl.
        -- exact Hs.
        -- rewrite forallb_is_str_map. exact Hs.
    + destruct (IH (S idx) (lg ++ [Log WARNING "Skipping empty document at index {idx}."
                                    [ANat idx]]))
        as [docs' [stop [lg' [Hr Hs]]]].
      exists (doc :: docs'), stop, lg'. unfold bind at 1. unfold logging at 1.
      unfold bind. rewrite Hr. unfold ret. split; [reflexivity |].
      destruct stop; simpl.
      * rewrite Hs. apply andb_false_r.
      * rewrite Hs. rewrite andb_true_r.
        destruct doc as [| b | z | s | [|t l] | l]; simpl in T; try discriminate T;
          reflexivity.
Qed.

Lemma normalize_shape (L : Lib) docs lg :
  exists docs' lg',
    normalize L (Ok docs) lg = (Normal (Some docs'), lg') /\
    (forallb (fun d => list_of_str d || negb (is_list d)) docs' = true \/
     forallb is_list docs' = false).
Proof.
  unfold normalize.
  destruct (coerce_docs_shape L docs 0 lg) as [docs' [stop [lg1 [Hr Hs]]]].
  erewrite bind_normal by exact Hr. cbv iota beta. destruct stop as [e |].
  - exists docs'. eexists. unfold bind, log_compute_error, logging, ret.
    split; [reflexivity | right; exact Hs].
  - destruct (check_docs_run docs' 0 lg1) as [lg2 [[Hc | [e Hc]] _]];
      exists docs'; eexists; unfold bind, try_except; rewrite Hc;
      unfold log_compute_error, logging, ret; (split; [reflexivity | left; exact Hs]).
Qed.

Lemma unwrap_batch_normal (docs bd : list pyval) (lg lg' : list logrec) :
  unwrap_batch (Some docs) lg = (Normal bd, lg') ->
  forallb is_list bd = true /\
  (bd = docs \/ exists inner, docs = [PList inner] /\ bd = inner).
Proof.
  unfold unwrap_batch, read_local. unfold bind at 1, ret at 1. cbv iota beta.
  destruct docs as [|d rest]; [intros H; discriminate H |].
  assert (Hfin : forall x : list pyval,
             bind (ret x)
               (fun batch_documents =>
                  if negb (forallb is_list batch_documents)
                  then bind (logging ERROR "batch_documents is not a list of lists. Exiting."
                               []) (fun _ => return_ None)
                  else ret batch_documents) lg = (Normal bd, lg') ->
             forallb is_list bd = true /\ bd = x).
  { intros x H. unfold bind at 1, ret at 1 in H.
    destruct (forallb is_list x) eqn:E; simpl in H; [| discriminate H].
    inversion H; subst. split; [exact E | reflexivity]. }
  destruct d as [| b | z | s | inner | l]; destruct rest as [|d2 rest2];
    try (intros H; apply Hfin in H; destruct H as [H1 H2]; split; [exact H1 | left; exact H2]).
  intros H. destruct (forallb is_list inner) eqn:Ei.
  - apply Hfin in H. destruct H as [H1 H2]. split; [exact H1 |]. right. eauto.
  - discriminate H.
Qed.

Lemma strs_and_lists_is_nil (l : list pyval) :
  forallb is_str l = true -> forallb is_list l = true -> l = [].
Proof.
  destruct l as [|x l]; [reflexivity |]. simpl. intros H1 H2.
  apply andb_true_iff in H1. apply andb_true_iff in H2.
  destruct x; simpl in *; destruct H1; destruct H2; discriminate.
Qed.

Lemma shaped_lists_are_str_lists (docs : list pyval) :
  forallb (fun d => list_of_str d || negb (is_list d)) docs = true ->
  forallb is_list docs = true -> forallb list_of_str docs = true.
Proof.
  induction docs as [|d rest IH]; simpl; intros H1 H2; [reflexivity |].
  apply andb_true_iff in H1. apply andb_true_iff in H2.
  destruct H1 as [Hd Hr]. destruct H2 as [Hl Hrl]. rewrite (IH Hr Hrl).
  rewrite Hl in Hd. simpl in Hd. rewrite orb_false_r in Hd. rewrite Hd. reflexivity.
Qed.

Lemma unwrap_after_normalize (L : Lib) (data : Delayed (list pyval))
      (local : option (list pyval)) (bd : list pyval) (lg lg1 lg2 lg' : list logrec) :
  normalize L data lg = (Normal local, lg1) ->
  unwrap_batch local lg2 = (Normal bd, lg') ->
  forallb list_of_str bd = true.
Proof.
  intros Hn H. destruct data as [docs | e].
  - destruct (normalize_shape L docs lg) as [docs' [lg0 [Hn' Hs]]].
    rewrite Hn' in Hn. inversion Hn; subst. clear Hn.
    apply unwrap_batch_normal in H. destruct H as [Hl [-> | [inner [-> ->]]]].
    + destruct Hs as [Hs | Hs]; [| congruence].
      apply shaped_lists_are_str_lists; assumption.
    + destruct Hs as [Hs | Hs]; [| discriminate Hs].
      simpl in Hs. rewrite orb_false_r, andb_true_r in Hs.
      rewrite (strs_and_lists_is_nil inner Hs Hl). reflexivity.
  - unfold normalize, bind, log_compute_error, logging, ret in Hn.
    inversion Hn; subst. discriminate H.
Qed.

(** X6. Whatever the raw collection holds, when the normaliser (l.74-133)
    lets the call go on, every document of [batch_documents] is a list of
    strings.  (A document may still be the empty list.) *)
Theorem normalised_documents_are_string_lists (L : Lib) (data : Delayed (list pyval))
        (bd : list pyval) (lg lg' : list logrec) :
  bind (normalize L data) unwrap_batch lg = (Normal bd, lg') ->
  forallb list_of_str bd = true.
Proof.
  intros H. unfold bind in H.
  destruct (normalize L data lg) as [[local | r | e |] lg1] eqn:Hn; try discriminate H.
  exact (unwrap_after_normalize L data local bd lg lg1 lg1 lg' Hn H).
Qed.

Lemma normalised_documents_are_string_lists_witness :
  exists bd lg',
    bind (normalize Ref.lib (Ok [PStr "alpha"; PList [PInt 7; PStr ""; PStr "beta"]; PList []]))
      unwrap_batch [] = (Normal bd, lg') /\
    bd = [PList [PStr "alpha"]; PList [PStr "7"; PStr "beta"]; PList []] /\
    forallb list_of_str bd = true.
Proof.
  do 2 eexists. split; [vm_compute; reflexivity |]. split; [reflexivity |].
  eapply (normalised_documents_are_string_lists Ref.lib
            (Ok [PStr "alpha"; PList [PInt 7; PStr ""; PStr "beta"]; PList []]) _ []).
  vm_compute. reflexivity.
Defined.

(** *** The batches of the executor *)

Lemma chunks_concat {A} (k : nat) :
  (1 <= k)%nat ->
  forall fuel (l : list A), (List.length l <= fuel)%nat -> List.concat (chunks fuel k l) = l.
Proof.
  intros Hk. induction fuel as [|fuel IH]; intros l Hl.
  - destruct l; [reflexivity | simpl in Hl; lia].
  - destruct l as [|x l]; [reflexivity |].
    cbn [chunks List.concat]. rewrite IH.
    + apply firstn_skipn.
    + rewrite length_skipn. change (List.length (x :: l)) with (S (List.length l)) in *. lia.
Qed.

Lemma chunks_sizes {A} (k : nat) :
  (1 <= k)%nat ->
  forall fuel (l : list A),
    Forall (fun b => (1 <= List.length b <= k)%nat) (chunks fuel k l).
Proof.
  intros Hk. induction fuel as [|fuel IH]; intros l; [constructor |].
  destruct l as [|x l]; [constructor |].
  cbn [chunks]. constructor; [| apply IH].
  rewrite length_firstn. change (List.length (x :: l)) with (S (List.length l)). lia.
Qed.

(** X7. When the estimate for bounds 1 and 15 is not negative, the batches
    of l.410 are a partition of the corpus: put end to end they are the
    corpus, in its order, and each holds at least one document and at most
    [batch_size], the estimate clamped to the corpus length, or 5 when that
    is zero. *)
Theorem batches_partition_the_corpus (W : World) (a : Args) (corpus : list bow)
        (estimate : Z) (lg : list logrec) :
  estimate_batches_large_docs_v2 W (data_source a) 1 15 (4 # 10) 3 = Ok estimate ->
  (0 <= estimate)%Z ->
  let clamped := Z.min (Z.of_nat (List.length corpus)) estimate in
  let batch_size := if Z.eqb clamped 0 then 5%Z else clamped in
  exists batches,
    fst (make_batches W a corpus lg) = Normal (map DocsBatch batches, batch_size) /\
    List.concat batches = corpus /\
    Forall (fun b => (1 <= List.length b <= Z.to_nat batch_size)%nat) batches.
Proof.
  intros He Hpos clamped batch_size.
  assert (Hbs : (1 <= batch_size)%Z).
  { unfold batch_size. destruct (Z.eqb clamped 0) eqn:E; [lia |].
    apply Z.eqb_neq in E. unfold clamped in *. lia. }
  exists (chunks (List.length corpus) (Z.to_nat batch_size) corpus).
  split; [| split].
  - unfold make_batches. rewrite He. fold clamped. fold batch_size. unfold partition.
    destruct (Z.eqb batch_size 0) eqn:E0; [apply Z.eqb_eq in E0; lia |].
    destruct (Z.ltb batch_size 0) eqn:E1; [apply Z.ltb_lt in E1; lia |]. reflexivity.
  - apply chunks_concat; lia.
  - apply chunks_sizes. lia.
Qed.

Lemma batches_partition_the_corpus_witness :
  exists batches,
    fst (make_batches (Ref.world_of Ref.slow) Ref.train_args
           (Ref.corpus2 ++ Ref.corpus2 ++ [[(2, 3)]]%nat) []) =
      Normal (map DocsBatch batches, 1%Z) /\
    List.concat batches = Ref.corpus2 ++ Ref.corpus2 ++ [[(2, 3)]]%nat /\
    List.length batches = 5%nat.
Proof.
  destruct (batches_partition_the_corpus (Ref.world_of Ref.slow) Ref.train_args
              (Ref.corpus2 ++ Ref.corpus2 ++ [[(2, 3)]]%nat) 1 [] eq_refl)
    as [batches [Hm [Hc Hs]]]; [lia |].
  exists batches. split; [exact Hm |]. split; [exact Hc |].
  simpl in Hm. inversion Hm as [Hb]. clear Hm.
  apply (f_equal (@List.length batch)) in Hb. rewrite length_map in Hb.
  simpl in Hb. symmetry. exact Hb.
Defined.

(** X8. A negative estimate leaves no batch at all: the slicing of l.410
    runs over an empty range, nothing is submitted for any document, and
    [batch_size] keeps the negative value. *)
Theorem negative_estimate_gives_no_batch (W : World) (a : Args) (corpus : list bow)
        (estimate : Z) (lg : list logrec) :
  estimate_batches_large_docs_v2 W (data_source a) 1 15 (4 # 10) 3 = Ok estimate ->
  (estimate < 0)%Z ->
  make_batches W a corpus lg = (Normal ([], estimate), lg).
Proof.
  intros He Hneg. unfold make_batches. rewrite He.
  assert (Hmin : Z.min (Z.of_nat (List.length corpus)) estimate = estimate) by lia.
  rewrite Hmin. unfold partition.
  assert (E0 : Z.eqb estimate 0 = false) by (apply Z.eqb_neq; lia).
  assert (E1 : Z.ltb estimate 0 = true) by (apply Z.ltb_lt; lia).
  rewrite !E0, E1. reflexivity.
Qed.

Lemma negative_estimate_gives_no_batch_witness :
  make_batches (Ref.world_of negative_estimate) Ref.train_args Ref.corpus2 [] =
    (Normal ([], (-3)%Z), []).
Proof.
  apply (negative_estimate_gives_no_batch (Ref.world_of negative_estimate) Ref.train_args
           Ref.corpus2 (-3) []); [reflexivity | lia].
Defined.

(** X9. The submission loop (l.417-433) never raises and stops at the
    first submission that does: the futures it leaves are those of the
    batches before it, in order, so their number is the number of batches
    when every submission succeeds and at most [i] when the one at position
    [i] fails; the batches after a failure are not submitted. *)
Theorem submit_loop_stops_at_first_failure (W : World) (m : pymodel)
        (batches : list batch) (lg : list logrec) :
  exists futures lg',
    submit_loop W m (List.length batches) 0 batches [] lg = (Normal futures, lg') /\
    futures = submitted W m 0 batches /\
    (List.length futures <= List.length batches)%nat /\
    ((forall i b, nth_error batches i = Some b -> exists f, client_submit W i m b = Ok f) ->
     List.length futures = List.length batches) /\
    (forall i b e, nth_error batches i = Some b -> client_submit W i m b = Raise e ->
                   (List.length futures <= i)%nat).
Proof.
  destruct (submit_loop_run W m (List.length batches) batches 0%nat [] lg) as [lg' H].
  destruct (submitted_length W m batches 0) as [H1 [H2 H3]].
  exists (submitted W m 0 batches), lg'. split; [exact H |]. split; [reflexivity |].
  split; [exact H1 |]. split; [exact H2 | exact H3].
Qed.

(** *** The executor as a whole *)

Section ExecutorEnds.

Variable W : World.

Lemma ar_submit_loop m total batches :
  forall idx futures, avoids Returning (submit_loop W m total idx batches futures).
Proof. induction batches as [|b rest IH]; intros idx futures; simpl; av. Qed.

Lemma ar_log_failed done_batches : avoids Returning (log_failed W done_batches).
Proof. induction done_batches as [|f rest IH]; simpl; av. Qed.

Lemma ar_log_unresolved fs : avoids Returning (log_unresolved fs).
Proof. induction fs as [|f rest IH]; simpl; av. Qed.

#[local] Hint Resolve ar_submit_loop ar_log_failed ar_log_unresolved : av.

Lemma ar_retry_unresolved not_done : avoids Returning (retry_unresolved W not_done).
Proof. unfold retry_unresolved. av. Qed.

#[local] Hint Resolve ar_retry_unresolved : av.

Lemma ar_gather futures : avoids Returning (gather W futures).
Proof. unfold gather. av. Qed.

Lemma make_batches_falls a corpus lg :
  exists batches batch_size lg',
    make_batches W a corpus lg = (Normal (batches, batch_size), lg').
Proof.
  unfold make_batches.
  destruct (estimate_batches_large_docs_v2 W (data_source a) 1 15 (4 # 10) 3).
  - destruct (partition _ corpus); do 3 eexists; reflexivity.
  - do 3 eexists. reflexivity.
Qed.

End ExecutorEnds.

(** X10. The executor (l.397-477) always falls through with a result list
    and a batch size: whatever is raised while submitting, waiting, retrying
    or fetching is absorbed.  When the first [wait] raises (as a timeout
    does), the result is the one-element error list of l.477, tagged with
    the phase. *)
Theorem executor_absorbs_every_failure (W : World) (a : Args) (m : pymodel)
        (corpus : list bow) (lg : list logrec) :
  exists results batch_size lg',
    batch_executor W a m corpus lg = (Normal (results, batch_size), lg') /\
    ((forall futures, exists e, wait W 1 futures 300 = Raise e) ->
     results = executor_sentinel (phase a)).
Proof.
  destruct (make_batches_falls W a corpus lg) as [batches [batch_size [lg1 Hm]]].
  destruct (submit_loop_run W m (List.length batches) batches 0%nat [] lg1) as [lg2 Hs].
  change ([] ++ submitted W m 0 batches) with (submitted W m 0 batches) in Hs.
  remember (submitted W m 0 batches) as futures eqn:Hf. clear Hf.
  unfold batch_executor. erewrite bind_normal by exact Hm. cbv iota beta.
  unfold bind at 1, try_except. erewrite bind_normal by exact Hs.
  pose proof (ar_gather W futures lg2) as Hr.
  pose proof (ax_gather W futures lg2) as Hx.
  destruct (gather W futures lg2) as [[results | r | e |] lg3] eqn:Hg; simpl in Hr, Hx;
    try congruence.
  - exists results, batch_size, lg3. unfold ret. split; [reflexivity |].
    intros Hw. destruct (Hw futures) as [e He].
    unfold gather in Hg. unfold bind at 1 in Hg. rewrite He in Hg. discriminate Hg.
  - eexists. exists batch_size. eexists. unfold bind, logging, ret.
    split; [reflexivity | reflexivity].
Qed.

Lemma executor_absorbs_every_failure_witness :
  exists lg',
    batch_executor (Ref.world_of timeouts) Ref.train_args (Some (Model 1)) Ref.corpus2 [] =
      (Normal (executor_sentinel "train", 2%Z), lg').
Proof.
  destruct (executor_absorbs_every_failure (Ref.world_of timeouts) Ref.train_args
              (Some (Model 1)) Ref.corpus2 []) as [results [batch_size [lg' [Hrun Hsent]]]].
  exists lg'. rewrite Hrun. rewrite Hsent.
  - f_equal. f_equal. f_equal.
    assert (H : fst (batch_executor (Ref.world_of timeouts) Ref.train_args (Some (Model 1))
                       Ref.corpus2 []) = Normal (executor_sentinel "train", 2%Z))
      by (vm_compute; reflexivity).
    rewrite Hrun in H. simpl in H. inversion H. reflexivity.
  - intros futures. eexists. reflexivity.
Defined.

(** *** The two other cascades *)

(** X11. The cascade of the validation results (l.480-513) always ends in
    a text and never raises: the text of the first of its three encoders
    that succeeds, or, when all three fail, the error sentinel of the
    phase. *)
Theorem validation_cascade_always_encodes (L : Lib) (W : World) (a : Args)
        (results : list value) (lg : list logrec) :
  exists text lg',
    serialize_validation L W a results lg = (Normal text, lg') /\
    match json_dumps W DefaultHook (VList results) with
    | Ok t => text = t
    | Raise _ =>
        match json_dumps W NumpyEnc (VList results) with
        | Ok t => text = t
        | Raise _ =>
            match json_dumps W Plain (VList results) with
            | Ok t => text = t
            | Raise _ => text = sentinel_json (phase a)
            end
        end
    end.
Proof.
  unfold serialize_validation, third_attempt, try_except, call, bind, logging, ret, raise.
  destruct (json_dumps W DefaultHook (VList results)); [eauto |].
  destruct (json_dumps W NumpyEnc (VList results)); [eauto |].
  destruct (json_dumps W Plain (VList results)); eauto.
Qed.

(** X12. The cascade of the extracted topics (l.347-384) never raises
    either, but it does not encode the topics a second time: when computing
    or encoding them fails, the payload is what [convert_float32_to_float]
    returns on the fixed three-element list of l.357 (not a text), or the
    encoding of that list when the conversion raises.  Without a task
    (extraction failed at l.341) the payload is left as it was. *)
Theorem topics_cascade_outcome (W : World) (a : Args) (task : option (Delayed value))
        (payload : value) (lg : list logrec) :
  exists p lg',
    serialize_topics W a task payload lg = (Normal p, lg') /\
    match task with
    | None => p = payload
    | Some t =>
        match res_bind t (json_dumps W NumpyEnc) with
        | Ok text => p = VStr text
        | Raise _ =>
            match convert_float32_to_float W failed_extract_value with
            | Ok converted => p = converted
            | Raise _ => p = VStr failed_extract_json
            end
        end
    end.
Proof.
  unfold serialize_topics. destruct task as [t |]; [| eexists; eexists; split; reflexivity].
  unfold try_except, call, bind, logging, ret, raise.
  destruct t as [topics | e]; simpl.
  - destruct (json_dumps W NumpyEnc topics); simpl; [eauto |].
    destruct (convert_float32_to_float W failed_extract_value); simpl; eauto.
  - destruct (convert_float32_to_float W failed_extract_value); simpl; eauto.
Qed.

(** *** Where the fields of a record come from *)

Ltac unfold_m :=
  unfold bind, call, ret, raise, return_, sys_exit, logging, dask_delayed, try_except,
    try_except_TypeError in *.

Section Assembly.

Variable L : Lib.
Variable W : World.

Lemma n_read_local {A} name (v : option A) :
  normally (read_local name v) (fun x => v = Some x).
Proof. intros lg x lg' H. destruct v; inversion H. reflexivity. Qed.

Lemma n_unwrap_batch_lists local :
  normally (unwrap_batch local) (fun bd => forallb is_list bd = true).
Proof.
  intros lg bd lg' H. destruct local as [docs |]; [| discriminate H].
  apply unwrap_batch_normal in H. exact (proj1 H).
Qed.

Lemma n_corpus_builder a docs :
  normally (corpus_builder W a docs)
    (fun p => Dictionary_new W docs = Ok (fst p) /\ fst p <> [] /\
              (phase_key (phase a) = true -> corpus (snd p) = converted W (fst p) docs)).
Proof.
  intros lg [d st] lg' H. unfold corpus_builder in H. unfold bind at 1 in H.
  destruct (build_dictionary W docs lg) as [[d0 | r | e |] lg1] eqn:Hb; try discriminate H.
  unfold bind at 1 in H.
  destruct (bow_loop W (phase a) d0 docs (BowState [] 0 0) lg1) as [[st0 | r | e |] lg2]
    eqn:Hl; try discriminate H.
  inversion H; subst. clear H. simpl.
  assert (Hc : phase_key (phase a) = true -> corpus st = converted W d docs).
  { intros Hp.
    destruct (bow_loop_run W (phase a) d docs Hp (BowState [] 0 0) lg1)
      as [st' [lg'' [Hr [Hc _]]]].
    rewrite Hr in Hl. inversion Hl; subst. exact Hc. }
  unfold build_dictionary, try_except_TypeError, call, bind, ret, raise, logging, return_
    in Hb.
  destruct (Dictionary_new W docs) as [d1 | e]; simpl in Hb.
  - destruct d1 as [|p d1]; simpl in Hb; [discriminate Hb |].
    inversion Hb; subst. split; [reflexivity | split; [discriminate | exact Hc]].
  - destruct (is_TypeError e); discriminate Hb.
Qed.

Lemma n_read_corpus_value phase st :
  normally (read_corpus phase st) (fun c => phase_key phase = true /\ c = corpus st).
Proof.
  intros lg c lg' H. unfold read_corpus in H.
  destruct (phase_key phase); [| discriminate H].
  inversion H. split; reflexivity.
Qed.

Lemma n_model_stage_trained a corpus n_alpha n_beta chunksize :
  normally (model_stage L W a corpus n_alpha n_beta chunksize)
    (fun p =>
       (exists b, snd p = EagerBytes b) \/
       (exists alpha eta m,
          py_float L n_alpha = Ok alpha /\
          py_float L n_beta = Ok eta /\
          LdaModel_new W corpus (unified_dictionary a)
            (LdaParams (n_topics a) (VFloat alpha) (VFloat eta) (random_state a) (passes a)
               (iterations a) (update_every a) (eval_every a) chunksize true) = Ok m /\
          snd p = DelayedBytes (pickle_model L (Some m)))).
Proof.
  intros lg [m b] lg' H. unfold model_stage in H.
  destruct (String.eqb (phase a) "validation" || String.eqb (phase a) "test").
  - left. unfold_m. destruct (pickle_model L (ldamodel_parameter a)); inversion H; subst.
    simpl. eauto.
  - destruct (String.eqb (phase a) "train"); [| discriminate H].
    right. unfold_m.
    destruct (py_float L n_alpha) as [alpha |] eqn:Ea; [| discriminate H].
    destruct (py_float L n_beta) as [eta |] eqn:Eb; [| discriminate H].
    destruct (LdaModel_new W _ _ _) eqn:E; inversion H; subst. simpl.
    exists alpha, eta. eauto.
Qed.

Lemma n_extract_topics m num_words :
  normally (extract_topics W m num_words)
    (fun p => forall task, fst p = Some task ->
                           extract_topics_with_get_topic_terms W m num_words = Ok task).
Proof.
  intros lg [t payload] lg' H task Ht. simpl in Ht. subst t.
  unfold extract_topics in H. unfold_m.
  destruct (extract_topics_with_get_topic_terms W m num_words); inversion H; subst.
  reflexivity.
Qed.

Lemma n_batch_executor a m corpus :
  normally (batch_executor W a m corpus) (fun p => snd p <> 0%Z).
Proof.
  intros lg [results bs] lg' H. unfold batch_executor in H. unfold bind at 1 in H.
  destruct (make_batches W a corpus lg) as [[[batches bs0] | r | e |] lg1] eqn:Hm;
    try discriminate H.
  unfold bind at 1 in H.
  destruct (try_except _ _ lg1) as [[res | r | e |] lg2]; try discriminate H.
  inversion H; subst. clear H. simpl.
  unfold make_batches in Hm.
  destruct (estimate_batches_large_docs_v2 W (data_source a) 1 15 (4 # 10) 3) as [est | e].
  - set (c := Z.min (Z.of_nat (List.length corpus)) est) in *.
    assert (Hnz : (if Z.eqb c 0 then 5%Z else c) <> 0%Z).
    { destruct (Z.eqb c 0) eqn:E; [lia | apply Z.eqb_neq; exact E]. }
    destruct (partition _ corpus); unfold bind, logging, ret in Hm; inversion Hm; subst;
      exact Hnz.
  - unfold bind, logging, ret in Hm. inversion Hm; subst. lia.
Qed.

Lemma flatten_docs_lists docs :
  forallb is_list docs = true -> exists items, flatten_docs docs = Ok items.
Proof.
  induction docs as [|d rest IH]; simpl; intros H; [eauto |].
  apply andb_true_iff in H. destruct H as [Hd Hr]. destruct (IH Hr) as [items Hi].
  destruct d; try discriminate Hd. simpl. rewrite Hi. simpl. eauto.
Qed.

Lemma n_flatten_batch docs :
  forallb is_list docs = true ->
  normally (flatten_batch docs) (fun items => flatten_docs docs = Ok items).
Proof.
  intros Hl lg items lg' H. destruct (flatten_docs_lists docs Hl) as [items0 Hi].
  unfold flatten_batch in H. unfold_m. rewrite Hi in H. simpl in H. inversion H; subst.
  exact Hi.
Qed.

Lemma str_lists_are_lists docs :
  forallb list_of_str docs = true -> forallb is_list docs = true.
Proof.
  induction docs as [|d rest IH]; simpl; intros H; [reflexivity |].
  apply andb_true_iff in H. destruct H as [Hd Hr]. rewrite (IH Hr).
  destruct d; try discriminate Hd. reflexivity.
Qed.

#[local] Hint Resolve ro_coerce_docs ro_check_docs ro_normalize ro_unwrap_batch
  ro_build_dictionary ro_append_bow ro_bow_document ro_bow_loop ro_corpus_builder
  ro_read_corpus ro_model_stage ro_compute_model_bytes ro_threshold_task ro_coherence_task
  ro_coherence_stage ro_convergence_task ro_perplexity_task ro_extract_topics
  ro_serialize_topics ro_make_batches ro_submit_loop ro_log_failed ro_log_unresolved
  ro_retry_unresolved ro_gather ro_batch_executor ro_serialize_validation
  ro_log_value_types ro_log_item_types ro_topic_words_cascade ro_test_show_topic
  ro_topic_words_block ro_flatten_batch ro_warn_placeholder ro_log_ndarrays : ro.

Ltac next := apply ro_bind; [solve [ro] | intro].
Ltac next_with lem := eapply ro_bind_post; [solve [ro] | apply lem | intro; intro].

Lemma returned_record_is_assembled a :
  returns_only (train_model_v2 L W a) (assembled L W a).
Proof.
  unfold train_model_v2. cbv zeta.
  next.
  eapply ro_bind_post with
    (Q := fun local => exists lg lg1,
                         normalize L (validation_test_data a) lg = (Normal local, lg1));
    [solve [ro] | intros lg local lg1 H; eauto | intros local [lg0 [lg1 Hn]]].
  eapply ro_bind_post with
    (Q := fun bd => forallb list_of_str bd = true /\
                    exists lg lg', unwrap_batch local lg = (Normal bd, lg'));
    [solve [ro]
    | intros lg bd lg' H; split;
        [exact (unwrap_after_normalize L _ _ _ _ _ _ _ Hn H) | eauto]
    | intros bd [Hbd [lg2 [lg3 Hu]]]].
  eapply ro_bind_post;
    [solve [ro] | apply n_corpus_builder | intros [d st] [Hd [Hne Hconv]]].
  simpl in Hd, Hne, Hconv.
  eapply ro_bind_post;
    [solve [ro] | apply n_read_corpus_value | intros corpus [Hphase Hcorpus]].
  specialize (Hconv Hphase). rewrite Hconv in Hcorpus. clear Hconv.
  next_with (@n_call value). next_with (@n_call value).
  eapply ro_bind_post;
    [solve [ro] | apply n_model_stage_trained | intros [ldamodel ldamodel_bytes] Hstage].
  next.
  next_with (@n_call Z).
  next. next. next. next. next.
  eapply ro_bind_post;
    [solve [ro] | apply n_extract_topics | intros [task payload] Hext].
  next.
  eapply ro_bind_post;
    [solve [ro] | apply n_batch_executor | intros [results batch_size] Hbs].
  simpl in Hext, Hbs.
  next. next.
  next_with (@n_read_local (Delayed value)).
  next. next. next.
  next_with (@n_call value).
  next. next. next.
  eapply ro_bind_post;
    [solve [ro] | apply n_flatten_batch; apply str_lists_are_lists; exact Hbd
    | intros flattened Hflat].
  next_with (@n_call string).
  destruct Hstage as [[b Hb] | [alpha [eta [m [Halpha [Heta [Hm Hb]]]]]]]; simpl in Hb;
    subst ldamodel_bytes; [apply ro_bind_raise |].
  next_with (@n_call bytes).
  apply ro_bind; [solve [ro] | intros _].
  apply ro_return_some.
  eexists. split; [reflexivity |]. cbv beta in *.
  match goal with
  | Hj : str_join " " flattened = Ok ?s |- _ =>
      unfold str_join in Hj; destruct (str_items flattened) as [tokens |] eqn:Hitems;
        simpl in Hj; [inversion Hj; subst s | discriminate Hj]
  end.
  subst. constructor; simpl; eauto.
  - exists local, lg0, lg1, lg2, lg3. split; assumption.
  - exists (converted W d bd), alpha, eta, m. repeat split; assumption.
  - unfold num_words_of. lia.
Qed.

End Assembly.

Lemma invoke_assembled (L : Lib) (W : World) (a : Args) (r : record) :
  invoke L W a = Returns (Some r) -> assembled L W a r.
Proof.
  unfold invoke, run. intros H.
  destruct (train_model_v2 L W a []) as [[u | r0 | e |] lg] eqn:E; simpl in H;
    inversion H; subst.
  eapply returned_record_is_assembled; eauto.
Qed.

Lemma str_items_length (items : list pyval) :
  forall tokens, str_items items = Ok tokens -> List.length tokens = List.length items.
Proof.
  induction items as [|x items IH]; simpl; intros tokens H.
  - inversion H. reflexivity.
  - destruct x; try discriminate H.
    destruct (str_items items) as [ss |]; simpl in H; [| discriminate H].
    inversion H; subst. simpl. f_equal. apply IH. reflexivity.
Qed.

Lemma str_lists_are_token_lists (bd : list pyval) :
  forallb list_of_str bd = true -> exists docs, bd = map token_list docs.
Proof.
  induction bd as [|d rest IH]; simpl; intros H.
  - exists []. reflexivity.
  - apply andb_true_iff in H. destruct H as [Hd Hr]. destruct (IH Hr) as [docs ->].
    destruct d as [| b | z | s | l | l]; try discriminate Hd. simpl in Hd.
    assert (Hl : exists tokens, l = map PStr tokens).
    { clear -Hd. induction l as [|t l IHl]; simpl in Hd.
      - exists []. reflexivity.
      - apply andb_true_iff in Hd. destruct Hd as [Ht Hl]. destruct (IHl Hl) as [ts ->].
        destruct t; try discriminate Ht. eexists (_ :: ts). reflexivity. }
    destruct Hl as [tokens ->]. exists (tokens :: docs). reflexivity.
Qed.

Lemma flatten_token_lists (docs : list (list string)) :
  flatten_docs (map token_list docs) = Ok (map PStr (List.concat docs)).
Proof.
  induction docs as [|d rest IH]; simpl; [reflexivity |].
  rewrite IH. simpl. rewrite map_app. reflexivity.
Qed.

Lemma str_items_strs (tokens : list string) : str_items (map PStr tokens) = Ok tokens.
Proof. induction tokens as [|t l IH]; simpl; [reflexivity | rewrite IH; reflexivity]. Qed.

(** X13. In a returned record the batch that 'text_json' pickles is what
    the normaliser made of the call's documents, a list of lists of
    strings; 'text' pickles its tokens, document after document; both
    digests are taken over one and the same string, those tokens joined by
    single spaces and followed directly by the record's own 'time_key'; and
    'num_word' is the number of those tokens. *)
Theorem digests_cover_text_and_key (L : Lib) (W : World) (a : Args) (r : record) :
  invoke L W a = Returns (Some r) ->
  exists (docs : list (list string)) (key : string),
    (exists local lg lg1 lg2 lg3,
       normalize L (validation_test_data a) lg = (Normal local, lg1) /\
       unwrap_batch local lg2 = (Normal (map token_list docs), lg3)) /\
    get "text_json" r = Some (VBytes (pickle_pyval L (PList (map token_list docs)))) /\
    get "text" r = Some (VBytes (pickle_pyval L (PList (map PStr (List.concat docs))))) /\
    key = unique_primary_key_of L W /\
    get "time_key" r = Some (VStr key) /\
    get "text_sha256" r =
      Some (VStr (sha256_hex L (join " " (List.concat docs) ++ key)%string)) /\
    get "text_md5" r =
      Some (VStr (md5_hex L (join " " (List.concat docs) ++ key)%string)) /\
    get "num_word" r = Some (VInt (Z.of_nat (List.length (List.concat docs)))).
Proof.
  intros H. apply invoke_assembled in H. destruct H as [v [-> F]].
  destruct (af_text F) as [tokens [Hflat [Hitems Hstr]]].
  pose proof (af_num_words F) as Hnw. pose proof (af_key F) as Hkey.
  destruct (af_normalised F) as [local [lg [lg1 [lg2 [lg3 [Hn Hu]]]]]].
  destruct (str_lists_are_token_lists _ (af_documents F)) as [docs Hdocs].
  rewrite Hdocs in Hflat, Hu. rewrite flatten_token_lists in Hflat.
  inversion Hflat as [Hfl]. rewrite <- Hfl in Hitems. rewrite str_items_strs in Hitems.
  inversion Hitems as [Htok]. subst tokens.
  exists docs, (unique_primary_key_of L W).
  split; [exists local, lg, lg1, lg2, lg3; split; assumption |].
  repeat split; read_field v; rewrite <- ?Hfl, ?Hdocs, ?Hstr, ?Hkey; try reflexivity.
  destruct (Z.eqb _ (-1)) eqn:E; [apply Z.eqb_eq in E; lia |].
  simpl. rewrite length_map. reflexivity.
Qed.

(** The reference train run returns a record. *)
Lemma ref_train_run_returns :
  exists r, invoke Ref.lib Ref.world Ref.train_args = Returns (Some r).
Proof. eexists. vm_compute. reflexivity. Qed.

Lemma digests_cover_text_and_key_witness :
  exists r docs key,
    invoke Ref.lib Ref.world Ref.train_args = Returns (Some r) /\
    get "text_json" r =
      Some (VBytes (pickle_pyval Ref.lib (PList (map token_list docs)))) /\
    get "time_key" r = Some (VStr key) /\
    get "text_sha256" r =
      Some (VStr (sha256_hex Ref.lib (join " " (List.concat docs) ++ key)%string)) /\
    get "num_word" r = Some (VInt (Z.of_nat (List.length (List.concat docs)))).
Proof.
  destruct ref_train_run_returns as [r Hr].
  destruct (digests_cover_text_and_key Ref.lib Ref.world Ref.train_args r Hr)
    as [docs [key [_ [Hj [_ [_ [Hk [Hs [_ Hn]]]]]]]]].
  exists r, docs, key. auto.
Defined.

(** X14. In a returned record 'batch_size' is never 0 (it is -1 when the
    estimate raised, 5 when the clamped estimate was zero), and 'chunksize'
    is the decimal text of a number that is at least 1. *)
Theorem batch_and_chunk_sizes_are_not_zero (L : Lib) (W : World) (a : Args) (r : record) :
  invoke L W a = Returns (Some r) ->
  exists batch_size chunksize,
    get "batch_size" r = Some (VInt batch_size) /\ batch_size <> 0%Z /\
    get "chunksize" r = Some (VStr (str_nat chunksize)) /\ (1 <= chunksize)%nat.
Proof.
  intros H. apply invoke_assembled in H. destruct H as [v [-> F]].
  pose proof (af_batch_size F) as Hb. destruct (af_chunksize F) as [corpus Hc].
  exists (l_batch_size v), (l_chunksize v).
  repeat split; try (read_field v; subst; reflexivity); [exact Hb |].
  rewrite Hc. unfold chunksize_of. lia.
Qed.

Lemma batch_and_chunk_sizes_are_not_zero_witness :
  exists r batch_size chunksize,
    invoke Ref.lib Ref.world Ref.train_args = Returns (Some r) /\
    get "batch_size" r = Some (VInt batch_size) /\ batch_size <> 0%Z /\
    get "chunksize" r = Some (VStr (str_nat chunksize)) /\ (1 <= chunksize)%nat.
Proof.
  destruct ref_train_run_returns as [r Hr].
  destruct (batch_and_chunk_sizes_are_not_zero Ref.lib Ref.world Ref.train_args r Hr)
    as [batch_size [chunksize H]].
  exists r, batch_size, chunksize. split; [exact Hr | exact H].
Defined.

(** X15. The model whose bytes a returned record holds was trained on the
    corpus converted from the record's batch with the record's own
    dictionary, and with the unified dictionary as [id2word]; with the topic
    count, seed, passes, iterations and cadences of the call; with
    [float(n_alpha)] and [float(n_beta)] of the numeric priors that the
    record reports unconverted; with the chunk size that the record reports,
    a fifth of the corpus length and at least 1; and with
    [per_word_topics=True] whatever the [per_word_topics] argument, which
    the record reports unchanged. *)
Theorem model_bytes_lineage (L : Lib) (W : World) (a : Args) (r : record) :
  invoke L W a = Returns (Some r) ->
  exists batch dictionary m n_alpha n_beta alpha eta model_bytes,
    let corpus := converted W dictionary batch in
    let chunksize := chunksize_of (List.length corpus) in
    Dictionary_new W batch = Ok dictionary /\
    calculate_numeric_alpha W (alpha_str a) (n_topics a) = Ok n_alpha /\
    calculate_numeric_beta W (beta_str a) (n_topics a) = Ok n_beta /\
    py_float L n_alpha = Ok alpha /\
    py_float L n_beta = Ok eta /\
    LdaModel_new W corpus (unified_dictionary a)
      (LdaParams (n_topics a) (VFloat alpha) (VFloat eta) (random_state a) (passes a)
         (iterations a) (update_every a) (eval_every a) chunksize true) = Ok m /\
    pickle_model L (Some m) = Ok model_bytes /\
    get "lda_model" r = Some (VBytes model_bytes) /\
    get "text_json" r = Some (VBytes (pickle_pyval L (PList batch))) /\
    get "dictionary" r = Some (VBytes (pickle_dictionary L dictionary)) /\
    get "n_alpha" r = Some (safe_serialize_for_postgres n_alpha) /\
    get "n_beta" r = Some (safe_serialize_for_postgres n_beta) /\
    get "chunksize" r = Some (VStr (str_nat chunksize)) /\
    get "per_word_topics" r = Some (VBool (per_word_topics a)).
Proof.
  intros H. apply invoke_assembled in H. destruct H as [v [-> F]].
  destruct (af_priors F) as [Ha Hb]. destruct (af_dictionary F) as [Hd _].
  destruct (af_model F) as [corpus [alpha [eta [m [Hc [Hk [Hfa [Hfb [Hm Hp]]]]]]]]].
  subst corpus. rewrite Hk in Hm.
  exists (l_batch_documents v), (l_dictionary v), m, (l_n_alpha v), (l_n_beta v), alpha, eta,
    (l_lda_model v).
  cbv zeta. repeat split; try assumption; read_field v; rewrite ?Hk; reflexivity.
Qed.

Lemma model_bytes_lineage_witness :
  exists r m,
    invoke Ref.lib Ref.world Ref.train_args = Returns (Some r) /\
    LdaModel_new Ref.world Ref.corpus2 (unified_dictionary Ref.train_args)
      (LdaParams 5 (VFloat (1 # 10)) (VFloat (1 # 10)) 42 1 10 1 1 1 true) = Ok m /\
    get "chunksize" r = Some (VStr "1") /\
    get "per_word_topics" r = Some (VBool true).
Proof.
  destruct ref_train_run_returns as [r Hr].
  destruct (model_bytes_lineage Ref.lib Ref.world Ref.train_args r Hr)
    as [batch [dictionary [m [n_alpha [n_beta [alpha [eta [model_bytes H]]]]]]]].
  cbv zeta in H.
  destruct H as [Hd [Ha [Hb [Hfa [Hfb [Hm [_ [_ [Hj [Hdict [_ [_ [Hc Hw]]]]]]]]]]]]].
  exists r, m. split; [exact Hr |].
  vm_compute in Hr. inversion Hr; subst r. clear Hr.
  vm_compute in Ha, Hb. inversion Ha; subst n_alpha. inversion Hb; subst n_beta.
  vm_compute in Hfa, Hfb. inversion Hfa; subst alpha. inversion Hfb; subst eta.
  split; [| split; [reflexivity | reflexivity]].
  vm_compute. vm_compute in Hm. exact Hm.
Defined.

(** X16. The 'dictionary' of a returned record is the pickled phase-local
    dictionary, built from the normalised batch and not empty, and
    'text_json' is the pickle of that same batch, every document of which is
    a list of strings. *)
Theorem dictionary_and_batch_fields (L : Lib) (W : World) (a : Args) (r : record) :
  invoke L W a = Returns (Some r) ->
  exists batch_documents dictionary,
    forallb list_of_str batch_documents = true /\
    Dictionary_new W batch_documents = Ok dictionary /\
    dictionary <> [] /\
    get "dictionary" r = Some (VBytes (pickle_dictionary L dictionary)) /\
    get "text_json" r = Some (VBytes (pickle_pyval L (PList batch_documents))).
Proof.
  intros H. apply invoke_assembled in H. destruct H as [v [-> F]].
  destruct (af_dictionary F) as [Hd Hne]. pose proof (af_documents F) as Hdocs.
  exists (l_batch_documents v), (l_dictionary v).
  repeat split; try assumption; read_field v; reflexivity.
Qed.

Lemma dictionary_and_batch_fields_witness :
  exists r batch_documents dictionary,
    invoke Ref.lib Ref.world Ref.train_args = Returns (Some r) /\
    Dictionary_new Ref.world batch_documents = Ok dictionary /\
    dictionary <> [] /\
    get "dictionary" r = Some (VBytes (pickle_dictionary Ref.lib dictionary)).
Proof.
  destruct ref_train_run_returns as [r Hr].
  destruct (dictionary_and_batch_fields Ref.lib Ref.world Ref.train_args r Hr)
    as [batch_documents [dictionary [_ [Hd [Hne [Hf _]]]]]].
  exists r, batch_documents, dictionary. auto.
Defined.

(** X17. A failure of the topic extraction is not absorbed, although both
    of its steps have a handler: when [extract_topics_with_get_topic_terms]
    raises (l.341), [topics_to_store_task] stays unassigned and l.640 raises
    [UnboundLocalError]; when its task raises on [compute] (l.350), the
    same task is computed again at l.639, outside every handler.  Either
    way no record is returned. *)
Theorem topic_extraction_failure_returns_no_record (L : Lib) (W : World) (a : Args) :
  (forall m num_words topics,
     extract_topics_with_get_topic_terms W m num_words <> Ok (Ok topics)) ->
  forall r, invoke L W a <> Returns (Some r).
Proof.
  intros Hfail r H. apply invoke_assembled in H. destruct H as [v [_ F]].
  destruct (af_extract F) as [m [num_words [topics Hx]]].
  exact (Hfail m num_words topics Hx).
Qed.

Lemma topic_extraction_failure_returns_no_record_witness :
  invoke Ref.lib (with_extract Ref.world (Raise (Exn RuntimeError "no topics")))
    Ref.train_args =
    Raises (Exn UnboundLocalError
              "cannot access local variable 'topics_to_store_task' where it is not associated with a value") /\
  invoke Ref.lib (with_extract Ref.world (Ok (Raise (Exn RuntimeError "no topics"))))
    Ref.train_args = Raises (Exn RuntimeError "no topics") /\
  forall r,
    invoke Ref.lib (with_extract Ref.world (Ok (Raise (Exn RuntimeError "no topics"))))
      Ref.train_args <> Returns (Some r).
Proof.
  split; [vm_compute; reflexivity |]. split; [vm_compute; reflexivity |].
  apply (topic_extraction_failure_returns_no_record Ref.lib
           (with_extract Ref.world (Ok (Raise (Exn RuntimeError "no topics"))))
           Ref.train_args).
  intros m num_words topics H. discriminate H.
Defined.

(** X18. The three task metrics of a returned record are what the metric
    functions returned, each called on the same model and corpus with the
    default score as its last argument: no handler has replaced any of them
    by the default. *)
Theorem task_metrics_are_the_functions_values (L : Lib) (W : World) (a : Args)
        (r : record) :
  invoke L W a = Returns (Some r) ->
  exists m corpus threshold convergence perplexity,
    calculate_perplexity_threshold W m corpus DEFAULT_SCORE = Ok threshold /\
    calculate_convergence W m corpus DEFAULT_SCORE = Ok convergence /\
    calculate_perplexity_score W m corpus DEFAULT_SCORE = Ok perplexity /\
    get "perplexity_threshold" r = Some (safe_serialize_for_postgres threshold) /\
    get "convergence" r = Some (safe_serialize_for_postgres convergence) /\
    get "perplexity" r = Some (safe_serialize_for_postgres perplexity).
Proof.
  intros H. apply invoke_record in H. destruct H as [v [-> F]].
  destruct (rf_metrics F) as [m [corpus [Ht [Hc Hp]]]].
  exists m, corpus, (l_threshold v), (l_convergence_score v), (l_perplexity_score v).
  repeat split; try assumption; read_field v; reflexivity.
Qed.

Lemma task_metrics_are_the_functions_values_witness :
  exists r,
    invoke Ref.lib Ref.world Ref.train_args = Returns (Some r) /\
    get "convergence" r = Some (VFloat (8 # 10)) /\
    get "perplexity" r = Some (VFloat (9 # 10)).
Proof.
  destruct ref_train_run_returns as [r Hr].
  destruct (task_metrics_are_the_functions_values Ref.lib Ref.world Ref.train_args r Hr)
    as [m [corpus [t [c [p [_ [Hc [Hp [_ [Hgc Hgp]]]]]]]]]].
  exists r. split; [exact Hr |].
  simpl in Hc, Hp. inversion Hc; subst c. inversion Hp; subst p.
  split; [exact Hgc | exact Hgp].
Defined.

(** X19. The five coherence fields of a returned record are either the
    fallback draw, all five, or the entries of the mapping that
    [calculate_coherence_metrics] returned: 'coherence' is its
    'coherence_score', and 'mean_coherence', 'median_coherence',
    'mode_coherence' and 'std_coherence' are the entries of the same
    names. *)
Theorem coherence_fields_follow_the_mapping (L : Lib) (W : World) (a : Args) (r : record) :
  invoke L W a = Returns (Some r) ->
  Forall (fun k => get k r = Some (VFloat (rng_choice L coherence_seed
                                            fallback_coherence_values))) coherence_keys \/
  exists real m docs max_attempts data,
    calculate_coherence_metrics W DEFAULT_SCORE real m (unified_dictionary a) docs (cores a)
      max_attempts = Ok data /\
    get "coherence" r = option_map safe_serialize_for_postgres (get "coherence_score" data) /\
    Forall (fun k => get k r = option_map safe_serialize_for_postgres (get k data))
      ["mean_coherence"; "median_coherence"; "mode_coherence"; "std_coherence"].
Proof.
  intros H. apply invoke_record in H. destruct H as [v [-> F]].
  destruct (rf_coherence F) as [m [docs [task [max_attempts Hc]]]].
  destruct (compute_coherence W a m docs task max_attempts) as [c | e] eqn:E.
  - right. symmetry in Hc. unfold compute_coherence in E.
    destruct task as [real | e]; simpl in E; [| discriminate E].
    destruct (calculate_coherence_metrics W DEFAULT_SCORE real m (unified_dictionary a) docs
                (cores a) max_attempts) as [data | e] eqn:Ed; simpl in E; [| discriminate E].
    exists real, m, docs, max_attempts, data. split; [exact Ed |].
    unfold item in E.
    destruct (get "coherence_score" data) as [x1 |] eqn:G1; simpl in E; [| discriminate E].
    destruct (get "mean_coherence" data) as [x2 |] eqn:G2; simpl in E; [| discriminate E].
    destruct (get "median_coherence" data) as [x3 |] eqn:G3; simpl in E; [| discriminate E].
    destruct (get "std_coherence" data) as [x4 |] eqn:G4; simpl in E; [| discriminate E].
    destruct (get "mode_coherence" data) as [x5 |] eqn:G5; simpl in E; [| discriminate E].
    rewrite Hc in E. inversion E as [Hq]. clear E.
    split; [| repeat apply Forall_cons; try apply Forall_nil];
      rewrite ?G1, ?G2, ?G3, ?G4, ?G5; read_field v; inversion Hq; reflexivity.
  - left. unfold coherence_keys. repeat constructor; read_field v;
      unfold fallback5, coherence_fallback in Hc; inversion Hc; reflexivity.
Qed.

Lemma coherence_fields_follow_the_mapping_witness :
  exists r,
    invoke Ref.lib Ref.world Ref.train_args = Returns (Some r) /\
    (Forall (fun k => get k r = Some (VFloat (rng_choice Ref.lib coherence_seed
                                               fallback_coherence_values))) coherence_keys \/
     exists real m docs max_attempts data,
       calculate_coherence_metrics Ref.world DEFAULT_SCORE real m
         (unified_dictionary Ref.train_args) docs (cores Ref.train_args) max_attempts =
         Ok data /\
       get "coherence" r =
         option_map safe_serialize_for_postgres (get "coherence_score" data) /\
       Forall (fun k => get k r = option_map safe_serialize_for_postgres (get k data))
         ["mean_coherence"; "median_coherence"; "mode_coherence"; "std_coherence"]).
Proof.
  destruct ref_train_run_returns as [r Hr]. exists r. split; [exact Hr |].
  exact (coherence_fields_follow_the_mapping Ref.lib Ref.world Ref.train_args r Hr).
Defined.

(** *** More edges of the normaliser and of the phase *)

Lemma coerce_docs_keeps_non_lists (L : Lib) docs :
  forall idx lg,
  exists docs' stop lg',
    coerce_docs L idx docs lg = (Normal (docs', stop), lg') /\
    (existsb left_non_list docs = true -> forallb is_list docs' = false).
Proof.
  induction docs as [|doc rest IH]; intros idx lg.
  - exists [], None, lg. split; [reflexivity | intros H; discriminate H].
  - simpl. destruct (truthy doc) eqn:T; simpl.
    + destruct doc as [| b | z | s | l | l]; simpl in T; try discriminate T;
        try (do 3 eexists; unfold bind, logging, ret; split; [reflexivity | reflexivity]).
      * destruct (IH (S idx) lg) as [docs' [stop [lg' [Hr Hk]]]].
        exists (PList [PStr s] :: docs'), stop, lg'. unfold bind. rewrite Hr. unfold ret.
        split; [reflexivity |]. unfold left_non_list at 1. simpl. rewrite T. simpl.
        exact Hk.
      * destruct (IH (S idx) lg) as [docs' [stop [lg' [Hr Hk]]]].
        eexists. exists stop, lg'. unfold bind. rewrite Hr. unfold ret.
        split; [reflexivity |]. simpl. exact Hk.
    + destruct (IH (S idx) (lg ++ [Log WARNING "Skipping empty document at index {idx}."
                                    [ANat idx]]))
        as [docs' [stop [lg' [Hr Hk]]]].
      exists (doc :: docs'), stop, lg'. unfold bind at 1. unfold logging at 1.
      unfold bind. rewrite Hr. unfold ret. split; [reflexivity |].
      intros H. simpl. apply orb_true_iff in H. destruct H as [H | H].
      * unfold left_non_list in H. apply andb_true_iff in H. destruct H as [H _].
        destruct (is_list doc); [discriminate H | reflexivity].
      * rewrite (Hk H). apply andb_false_r.
Qed.

Lemma unwrap_batch_non_lists docs lg :
  forallb is_list docs = false ->
  exists lg', unwrap_batch (Some docs) lg = (Return_ (A := list pyval) None, lg').
Proof.
  intros Hnl. unfold unwrap_batch, read_local. unfold bind at 1, ret at 1. cbv iota beta.
  destruct docs as [|doc rest]; [discriminate Hnl |].
  assert (Hret : forall (m : M (list pyval)),
             m lg = (Normal (doc :: rest), lg) ->
             exists lg',
               bind m (fun batch_documents =>
                         if negb (forallb is_list batch_documents)
                         then bind (logging ERROR
                                      "batch_documents is not a list of lists. Exiting." [])
                                (fun _ => return_ None)
                         else ret batch_documents) lg = (Return_ None, lg')).
  { intros m Hm. erewrite bind_normal by exact Hm. rewrite Hnl. simpl.
    eexists. unfold bind, logging, return_. reflexivity. }
  destruct doc as [| b | z | s | l | l]; destruct rest as [|d2 rest2];
    try (apply Hret; reflexivity).
  simpl in Hnl. discriminate Hnl.
Qed.

(** X20. One item that is neither a list nor a non-empty string is enough
    for the whole call to return [None]: not only an item of another type,
    but also an empty string, which the first loop skips as empty and the
    list-of-lists check of l.131 then finds. *)
Theorem unlisted_item_returns_none (L : Lib) (W : World) (a : Args) (docs : list pyval) :
  get_client W = Ok tt ->
  validation_test_data a = Ok docs ->
  existsb left_non_list docs = true ->
  invoke L W a = Returns None.
Proof.
  intros Hclient Hdata Hbad.
  destruct (coerce_docs_keeps_non_lists L docs 0 []) as [docs' [stop [lg1 [Hr Hk]]]].
  specialize (Hk Hbad).
  assert (Hn : exists lg2, normalize L (Ok docs) [] = (Normal (Some docs'), lg2)).
  { unfold normalize. erewrite bind_normal by exact Hr. cbv iota beta.
    destruct stop as [e |].
    - eexists. unfold bind, log_compute_error, logging, ret. reflexivity.
    - destruct (check_docs_run docs' 0 lg1) as [lg2 [[Hc | [e Hc]] _]];
        eexists; unfold bind, try_except; rewrite Hc;
        unfold log_compute_error, logging, ret; reflexivity. }
  destruct Hn as [lg2 Hn].
  destruct (unwrap_batch_non_lists docs' lg2 Hk) as [lg3 Hu].
  unfold invoke, run, train_model_v2. rewrite Hclient, Hdata.
  erewrite bind_normal by reflexivity.
  erewrite bind_normal by exact Hn.
  erewrite bind_return by exact Hu. reflexivity.
Qed.

Lemma unlisted_item_returns_none_witness :
  invoke Ref.lib Ref.world
    (Ref.args_of "train" (Ok [PList [PStr "alpha"]; PStr ""; PList [PStr "beta"]])) =
    Returns None.
Proof.
  apply (unlisted_item_returns_none Ref.lib Ref.world
           (Ref.args_of "train" (Ok [PList [PStr "alpha"]; PStr ""; PList [PStr "beta"]]))
           [PList [PStr "alpha"]; PStr ""; PList [PStr "beta"]]); reflexivity.
Defined.

Lemma bow_document_unknown_phase (W : World) phase d doc st lg :
  phase_key phase = false ->
  exists lg', bow_document W phase d doc st lg = (Normal (count_failure st), lg').
Proof.
  intros Hp. unfold bow_document, append_bow. rewrite Hp.
  destruct doc as [| b | z | s | l | l]; simpl;
    unfold bind, ret, logging, try_except_TypeError, try_except, call, raise; simpl;
    try (eexists; reflexivity).
  - destruct (list_ascii_of_string s) as [|c cs]; simpl; [eexists; reflexivity |].
    destruct (doc2bow W d _); simpl; eexists; reflexivity.
  - destruct l as [|t ts]; simpl; [eexists; reflexivity |].
    destruct (doc2bow W d _); simpl; eexists; reflexivity.
  - destruct l as [|t ts]; simpl; [eexists; reflexivity |].
    destruct (doc2bow W d _); simpl; eexists; reflexivity.
Qed.

Lemma bow_loop_unknown_phase (W : World) phase d docs :
  phase_key phase = false ->
  forall st lg,
  exists lg',
    bow_loop W phase d docs st lg =
      (Normal (BowState (corpus st) (number_of_documents st)
                 (failed_convert_token_to_bow st + List.length docs)), lg').
Proof.
  intros Hp. induction docs as [|doc rest IH]; intros st lg; simpl.
  - exists lg. unfold ret. rewrite Nat.add_0_r. destruct st; reflexivity.
  - destruct (bow_document_unknown_phase W phase d doc st lg Hp) as [lg1 H1].
    unfold bind. rewrite H1. destruct (IH (count_failure st) lg1) as [lg' Hr].
    exists lg'. rewrite Hr. simpl. rewrite Nat.add_succ_r. reflexivity.
Qed.

(** X21. A phase that is none of the three keys of [corpus_data] does not
    stop the loop over the documents: every [KeyError] of l.178 is caught
    at l.181, so each document is counted as a failure and nothing is
    appended.  The subscript of l.190 is outside the handlers: once the
    normaliser has let the documents through and the dictionary is not
    empty, the call raises [KeyError(phase)]. *)
Theorem unknown_phase_raises_key_error (L : Lib) (W : World) (a : Args)
        (local : option (list pyval)) (bd : list pyval) (d : Dictionary)
        (lg1 lg2 : list logrec) :
  phase_key (phase a) = false ->
  get_client W = Ok tt ->
  normalize L (validation_test_data a) [] = (Normal local, lg1) ->
  unwrap_batch local lg1 = (Normal bd, lg2) ->
  Dictionary_new W bd = Ok d ->
  d <> [] ->
  (forall lg, exists lg',
     bow_loop W (phase a) d bd (BowState [] 0 0) lg =
       (Normal (BowState [] 0 (List.length bd)), lg')) /\
  invoke L W a = Raises (Exn KeyError (phase a)).
Proof.
  intros Hp Hclient Hn Hu Hd Hne. split.
  - intros lg. exact (bow_loop_unknown_phase W (phase a) d bd Hp (BowState [] 0 0) lg).
  - destruct (build_dictionary_run W bd d lg2 Hd Hne) as [lg3 Hb].
    destruct (bow_loop_unknown_phase W (phase a) d bd Hp (BowState [] 0 0) lg3) as [lg4 Hl].
    assert (Hc : corpus_builder W a bd lg2 =
                 (Normal (d, BowState [] 0 (List.length bd)), lg4)).
    { unfold corpus_builder. erewrite bind_normal by exact Hb.
      erewrite bind_normal by exact Hl. reflexivity. }
    unfold invoke, run, train_model_v2. rewrite Hclient.
    erewrite bind_normal by reflexivity.
    erewrite bind_normal by exact Hn.
    erewrite bind_normal by exact Hu.
    erewrite bind_normal by exact Hc.
    cbv iota beta. unfold read_corpus. rewrite Hp. reflexivity.
Qed.

Lemma unknown_phase_raises_key_error_witness :
  (forall lg, exists lg',
     bow_loop Ref.world "holdout" [("alpha", 0); ("beta", 1); ("gamma", 2)]%nat Ref.docs
       (BowState [] 0 0) lg = (Normal (BowState [] 0 2), lg')) /\
  invoke Ref.lib Ref.world (Ref.args_of "holdout" (Ok Ref.docs)) =
    Raises (Exn KeyError "holdout").
Proof.
  eapply (unknown_phase_raises_key_error Ref.lib Ref.world
            (Ref.args_of "holdout" (Ok Ref.docs)) (Some Ref.docs) Ref.docs
            [("alpha", 0); ("beta", 1); ("gamma", 2)]%nat).
  - reflexivity.
  - reflexivity.
  - vm_compute. reflexivity.
  - vm_compute. reflexivity.
  - vm_compute. reflexivity.
  - vm_compute. discriminate.
Defined.

Lemma coerce_docs_keeps_positions (L : Lib) docs :
  forall idx lg,
  exists docs' stop lg',
    coerce_docs L idx docs lg = (Normal (docs', stop), lg') /\
    List.length docs' = List.length docs /\
    (forall i doc, nth_error docs i = Some doc -> truthy doc = false ->
                   nth_error docs' i = Some doc).
Proof.
  induction docs as [|doc rest IH]; intros idx lg.
  - exists [], None, lg. repeat split. intros i doc H. destruct i; discriminate H.
  - simpl. destruct (truthy doc) eqn:T; simpl.
    + destruct doc as [| b | z | s | l | l]; simpl in T; try discriminate T;
        try (do 3 eexists; unfold bind, logging, ret;
             split; [reflexivity | split; [reflexivity | intros i doc H _; exact H]]).
      * destruct (IH (S idx) lg) as [docs' [stop [lg' [Hr [Hl Hk]]]]].
        exists (PList [PStr s] :: docs'), stop, lg'. unfold bind. rewrite Hr. unfold ret.
        split; [reflexivity |]. split; [simpl; rewrite Hl; reflexivity |].
        intros [|i] doc H F; simpl in *.
        -- inversion H; subst. simpl in F. rewrite T in F. discriminate F.
        -- exact (Hk i doc H F).
      * destruct (IH (S idx) lg) as [docs' [stop [lg' [Hr [Hl Hk]]]]].
        eexists. exists stop, lg'. unfold bind. rewrite Hr. unfold ret.
        split; [reflexivity |]. split; [simpl; rewrite Hl; reflexivity |].
        intros [|i] doc H F; simpl in *.
        -- inversion H; subst. simpl in F. rewrite T in F. discriminate F.
        -- exact (Hk i doc H F).
    + destruct (IH (S idx) (lg ++ [Log WARNING "Skipping empty document at index {idx}."
                                    [ANat idx]]))
        as [docs' [stop [lg' [Hr [Hl Hk]]]]].
      exists (doc :: docs'), stop, lg'. unfold bind at 1. unfold logging at 1.
      unfold bind. rewrite Hr. unfold ret. split; [reflexivity |].
      split; [simpl; rewrite Hl; reflexivity |].
      intros [|i] doc0 H F; simpl in *; [exact H | exact (Hk i doc0 H F)].
Qed.

(** X22. The normaliser removes nothing: the collection it hands on has as
    many documents as the one it was given, and a document that the first
    loop reports as skipped (an empty list, an empty string, [None], 0)
    stays at its position.  Only the tokens inside a list are filtered. *)
Theorem normaliser_drops_no_document (L : Lib) (docs : list pyval) (lg : list logrec) :
  exists docs' lg',
    normalize L (Ok docs) lg = (Normal (Some docs'), lg') /\
    List.length docs' = List.length docs /\
    (forall i doc, nth_error docs i = Some doc -> truthy doc = false ->
                   nth_error docs' i = Some doc).
Proof.
  unfold normalize.
  destruct (coerce_docs_keeps_positions L docs 0 lg) as [docs' [stop [lg1 [Hr [Hl Hk]]]]].
  erewrite bind_normal by exact Hr. cbv iota beta. destruct stop as [e |].
  - exists docs'. eexists. unfold bind, log_compute_error, logging, ret.
    split; [reflexivity | split; assumption].
  - destruct (check_docs_run docs' 0 lg1) as [lg2 [[Hc | [e Hc]] _]];
      exists docs'; eexists; unfold bind, try_except; rewrite Hc;
      unfold log_compute_error, logging, ret; (split; [reflexivity | split; assumption]).
Qed.

(** *** The failures of the training stage *)

(** X23. In the train phase a failure of the model stage is logged once
    and raised again to the caller, whichever step of l.218-231 it comes
    from: [float(n_alpha)], then [float(n_beta)], then the [LdaModel]
    constructor.  A prior that [float] cannot convert ([None], a list, a
    text that is no number) therefore ends the call. *)
Theorem training_failure_is_logged_and_reraised (L : Lib) (W : World) (a : Args)
        (corpus : list bow) (n_alpha n_beta : value) (chunksize : nat) (lg : list logrec)
        (e : exn) :
  phase a = "train" ->
  (py_float L n_alpha = Raise e \/
   (exists alpha, py_float L n_alpha = Ok alpha /\ py_float L n_beta = Raise e) \/
   (exists alpha eta,
      py_float L n_alpha = Ok alpha /\ py_float L n_beta = Ok eta /\
      LdaModel_new W corpus (unified_dictionary a)
        (LdaParams (n_topics a) (VFloat alpha) (VFloat eta) (random_state a) (passes a)
           (iterations a) (update_every a) (eval_every a) chunksize true) = Raise e)) ->
  model_stage L W a corpus n_alpha n_beta chunksize lg =
    (Raised e,
     lg ++ [Log ERROR "An error occurred during LDA model training: {e}" [AExn e]]).
Proof.
  intros Hp H. unfold model_stage. rewrite Hp. simpl.
  unfold try_except, bind at 1, call.
  destruct H as [Ha | [[alpha [Ha Hb]] | [alpha [eta [Ha [Hb Hm]]]]]].
  - rewrite Ha. unfold raise at 1. unfold bind, logging, raise. reflexivity.
  - rewrite Ha. unfold ret at 1, bind at 1. rewrite Hb. unfold raise at 1.
    unfold bind, logging, raise. reflexivity.
  - rewrite Ha. unfold ret at 1, bind at 1. rewrite Hb. unfold ret at 1, bind at 1.
    rewrite Hm. unfold raise at 1. unfold bind, logging, raise. reflexivity.
Qed.

Lemma training_failure_is_logged_and_reraised_witness :
  model_stage Ref.lib Ref.world Ref.train_args Ref.corpus2 VNone (VFloat (1 # 10)) 1 [] =
    (Raised (Exn TypeError "float() argument must be a string or a real number, not 'NoneType'"),
     [Log ERROR "An error occurred during LDA model training: {e}"
        [AExn (Exn TypeError
                 "float() argument must be a string or a real number, not 'NoneType'")]]).
Proof.
  apply (training_failure_is_logged_and_reraised Ref.lib Ref.world Ref.train_args
           Ref.corpus2 VNone (VFloat (1 # 10)) 1 []
           (Exn TypeError "float() argument must be a string or a real number, not 'NoneType'")).
  - reflexivity.
  - left. reflexivity.
Defined.
